(** * FundBank: the share-accounting engine [recalculate_fund] of bank_app.py

    A shallow embedding of the calculation logic of [src/bank_app.py]
    (lines 86-140) and the properties the specification states about it,
    followed by the data steps of the code around it (the wallet rows of
    lines 155-163, the wallet chart of lines 196-214, the wallet deletion
    of line 291 and the NAV editor of lines 314-321) and further
    properties of the whole.

    Numbers.  The source computes with Python floats, which are IEEE 754
    binary64 numbers.  The engine is embedded twice.

    - Over [fnum], an exact rational or [NaN].  [NaN] behaves as in the
      source (it is absorbing for arithmetic and every comparison with it
      is false), and every division of the source sits under a [> 0]
      guard, which the embedding keeps.  The properties stated on this
      embedding are about the structure of the computation (which rows
      are processed, in which order, with which operands), about signs
      and about [NaN]; none of them needs a sum or a product to be free
      of rounding.

    - Over binary64 itself, in module [B64]: the same code with the
      primitive floats of the Standard Library (round to nearest even,
      signed zeros, infinities, NaN).  It settles what depends on
      rounding: there the running totals of the engine are compared, and
      the inputs on which they drift apart are evaluated.

    Containers.  Python dicts are [gmap]s with string keys; the
    transactions DataFrame is a list of rows with its four columns. *)

From Stdlib Require Import QArith Qcanon Lqa.
From Stdlib Require OrderedTypeEx.
From Stdlib Require PrimFloat SpecFloat FloatOps FloatAxioms.
From stdpp Require Import numbers strings list sorting fin_maps gmap.

Open Scope string_scope.
Open Scope list_scope.

(** Decimal literals for binary64 numbers, written [0.1%float]. *)
Set Warnings "-inexact-float".
Import PrimFloat.PrimFloatNotations.
Number Notation PrimFloat.float PrimFloat.parser PrimFloat.printer : float_scope.

(** ** Numbers *)

Module Num.

Inductive fnum : Type :=
| Fin (q : Qc)
| NaN.

Definition zero : fnum := Fin (Q2Qc 0).
Definition one : fnum := Fin (Q2Qc 1).

(** [fin z] is the float holding the integer [z]; [frac n d] is [n/d]. *)
Definition fin (z : Z) : fnum := Fin (Q2Qc (inject_Z z)).
Definition frac (n : Z) (d : positive) : fnum := Fin (Q2Qc (n # d)).

Definition fadd (a b : fnum) : fnum :=
  match a, b with
  | Fin x, Fin y => Fin (x + y)%Qc
  | _, _ => NaN
  end.

Definition fsub (a b : fnum) : fnum :=
  match a, b with
  | Fin x, Fin y => Fin (x - y)%Qc
  | _, _ => NaN
  end.

Definition fmul (a b : fnum) : fnum :=
  match a, b with
  | Fin x, Fin y => Fin (x * y)%Qc
  | _, _ => NaN
  end.

Definition fopp (a : fnum) : fnum :=
  match a with
  | Fin x => Fin (- x)%Qc
  | NaN => NaN
  end.

Definition Qc_ltb (x y : Qc) : bool :=
  match (x ?= y)%Qc with Lt => true | _ => false end.

Definition Qc_eqb (x y : Qc) : bool :=
  match (x ?= y)%Qc with Eq => true | _ => false end.

(** [a / b].  In the source the divisor is always tested [> 0] first;
    a zero divisor (a ZeroDivisionError in Python) is never reached and
    is given [NaN] here. *)
Definition fdiv (a b : fnum) : fnum :=
  match a, b with
  | Fin x, Fin y => if Qc_eqb y (Q2Qc 0) then NaN else Fin (x / y)%Qc
  | _, _ => NaN
  end.

(** [a < b] and [a > b]; false as soon as one side is [NaN]. *)
Definition flt (a b : fnum) : bool :=
  match a, b with
  | Fin x, Fin y => Qc_ltb x y
  | _, _ => false
  end.

Definition fgt (a b : fnum) : bool := flt b a.

(** Python's builtin [min(a, b)]: [a] unless [b < a]. *)
Definition pymin (a b : fnum) : fnum := if flt b a then b else a.

(** Python's builtin [max(a, b)]: [a] unless [b > a]. *)
Definition pymax (a b : fnum) : fnum := if fgt b a then b else a.

Definition feqb (a b : fnum) : bool :=
  match a, b with
  | Fin x, Fin y => Qc_eqb x y
  | NaN, NaN => true
  | _, _ => false
  end.

#[global] Arguments Q2Qc : simpl never.
#[global] Arguments Qc_ltb : simpl never.
#[global] Arguments Qc_eqb : simpl never.

End Num.
Export Num.

(** ** Data model *)

(** A row of the transactions DataFrame (columns Date, User, Type, Amount). *)
Record Tx : Type := mkTx {
  Date : string;
  User : string;
  Ttype : string;
  Amount : fnum
}.

(** An entry of [share_ledger] (keys Date, User, Type, Amount, Shares,
    NAV/Share). *)
Record LedgerEntry : Type := mkEntry {
  lDate : string;
  lUser : string;
  lType : string;
  lAmount : fnum;
  lShares : fnum;
  lNavShare : fnum
}.

(** The variables the day loop of [recalculate_fund] updates. *)
Record FundState : Type := mkState {
  total_shares : fnum;
  user_share_balances : gmap string fnum;
  share_ledger : list LedgerEntry;
  nav_per_share : gmap string fnum
}.

(** [fee_details[u]]. *)
Record FeeDetail : Type := mkFee {
  withdrawal_fee : fnum;
  profit_fee : fnum
}.

(** The 7-tuple [recalculate_fund] returns. *)
Record Outputs : Type := mkOutputs {
  out_nav_per_share : gmap string fnum;
  out_user_shares : gmap string fnum;
  out_user_value : gmap string fnum;
  out_after_fees : gmap string fnum;
  out_profit : gmap string fnum;
  out_ledger_df : list LedgerEntry;
  out_fee_details : gmap string FeeDetail
}.

(** ** The engine *)

(** [d.get(k, dflt)]. *)
Definition dict_get (m : gmap string fnum) (k : string) (dflt : fnum) : fnum :=
  default dflt (m !! k).

(** Lines 87-88: [pd.to_numeric(..., errors="coerce").fillna(0.0)] on the
    Amount column.  The column is numeric here, so the coercion keeps the
    numbers and [fillna] turns a missing amount ([NaN]) into 0.0.  The
    result is assigned back into the caller's DataFrame. *)
Definition fillna0 (a : fnum) : fnum :=
  match a with NaN => zero | Fin _ => a end.

Definition coerce_amounts (transactions : list Tx) : list Tx :=
  map (fun r => mkTx (Date r) (User r) (Ttype r) (fillna0 (Amount r))) transactions.

(** [sorted(set(...))] on date strings: duplicates removed, then sorted
    ascending in the order of [str]. *)
Definition date_le (a b : string) : Prop := String.leb a b = true.

#[global] Instance date_le_dec : RelDecision date_le.
Proof. intros a b. unfold date_le. apply _. Defined.

Definition sorted_set (l : list string) : list string :=
  merge_sort date_le (remove_dups l).

(** Line 90. *)
Definition all_dates_of (transactions : list Tx) (nav_history : gmap string fnum)
  : list string :=
  sorted_set ((map_to_list nav_history).*1 ++ map Date transactions).

(** Line 96: a zero balance for every non-empty user of the table. *)
Definition initial_balances (transactions : list Tx) : gmap string fnum :=
  foldr (fun r m => if String.eqb (User r) "" then m else <[User r := zero]> m)
        ∅ transactions.

(** Lines 101 and 123: [nav / total_shares if total_shares > 0 else 1.0]. *)
Definition price_of (nav total : fnum) : fnum :=
  if fgt total zero then fdiv nav total else one.

(** Lines 107 and 111: [amt / price if price > 0 else 0]. *)
Definition shares_for (amt price : fnum) : fnum :=
  if fgt price zero then fdiv amt price else zero.

(** Lines 103-122: the body of the loop over the rows of one day. *)
Definition process_row (d_str : string) (nav_per_share_today : fnum)
    (st : FundState) (row : Tx) : FundState :=
  let amt := Amount row in
  let u := User row in
  let ttype := Ttype row in
  if String.eqb ttype "Deposit" then
    let shares := shares_for amt nav_per_share_today in
    mkState
      (fadd (total_shares st) shares)
      (<[u := fadd (dict_get (user_share_balances st) u zero) shares]>
         (user_share_balances st))
      (share_ledger st ++
         [mkEntry d_str u ttype amt shares nav_per_share_today])
      (nav_per_share st)
  else if String.eqb ttype "Withdrawal" then
    let shares := shares_for amt nav_per_share_today in
    let shares := pymin shares (dict_get (user_share_balances st) u zero) in
    let amt := fmul shares nav_per_share_today in
    let amt := fopp amt in
    mkState
      (fsub (total_shares st) shares)
      (<[u := fsub (dict_get (user_share_balances st) u zero) shares]>
         (user_share_balances st))
      (share_ledger st ++
         [mkEntry d_str u ttype amt shares nav_per_share_today])
      (nav_per_share st)
  else st.

(** Line 100: the rows dated [d], in table order. *)
Definition txs_today (transactions : list Tx) (d_str : string) : list Tx :=
  List.filter (fun r => String.eqb (Date r) d_str) transactions.

(** Line 99: [float(nav_history.get(d_str, np.nan))]. *)
Definition nav_on (nav_history : gmap string fnum) (d_str : string) : fnum :=
  dict_get nav_history d_str NaN.

(** The rows of one day, priced at [nav_per_share_today]. *)
Definition process_rows (d_str : string) (nav_per_share_today : fnum)
    (rows : list Tx) (st : FundState) : FundState :=
  fold_left (process_row d_str nav_per_share_today) rows st.

(** Line 123. *)
Definition record_nav (d_str : string) (nav : fnum) (st : FundState) : FundState :=
  mkState (total_shares st) (user_share_balances st) (share_ledger st)
          (<[d_str := price_of nav (total_shares st)]> (nav_per_share st)).

(** Lines 97-123: one iteration of the loop over [all_dates]. *)
Definition process_day (transactions : list Tx) (nav_history : gmap string fnum)
    (st : FundState) (d : string) : FundState :=
  let nav := nav_on nav_history d in
  let nav_per_share_today := price_of nav (total_shares st) in
  let st' := process_rows d nav_per_share_today (txs_today transactions d) st in
  record_nav d nav st'.

Definition run_days (transactions : list Tx) (nav_history : gmap string fnum)
    (dates : list string) (st : FundState) : FundState :=
  fold_left (process_day transactions nav_history) dates st.

(** Lines 93-96. *)
Definition initial_state (transactions : list Tx) : FundState :=
  mkState zero (initial_balances transactions) [] ∅.

(** [df[df.Type == ty].groupby("User")["Amount"].sum().to_dict()]
    (lines 127-128); pandas' [sum] skips missing values. *)
Definition add_skipna (acc a : fnum) : fnum :=
  match a with NaN => acc | Fin _ => fadd acc a end.

Definition group_step (ty : string) (m : gmap string fnum) (r : Tx)
  : gmap string fnum :=
  if String.eqb (Ttype r) ty
  then <[User r := add_skipna (dict_get m (User r) zero) (Amount r)]> m
  else m.

Definition group_sum (ty : string) (transactions : list Tx) : gmap string fnum :=
  fold_left (group_step ty) transactions ∅.

(** Line 130, for one user. *)
Definition profit_of (deposit_sum withdrawal_sum : gmap string fnum)
    (u : string) (value : fnum) : fnum :=
  fadd (fsub value (dict_get deposit_sum u zero)) (dict_get withdrawal_sum u zero).

(** Lines 134-138, for one user. *)
Definition withdrawal_fee_amt_of (gross withdraw_fee : fnum) : fnum :=
  fmul gross withdraw_fee.

Definition profit_fee_amt_of (profit_u profit_fee : fnum) : fnum :=
  fmul (pymax profit_u zero) profit_fee.

Definition after_fees_of (gross profit_u withdraw_fee profit_fee : fnum) : fnum :=
  fsub (fsub gross (withdrawal_fee_amt_of gross withdraw_fee))
       (profit_fee_amt_of profit_u profit_fee).

Definition empty_outputs : Outputs := mkOutputs ∅ ∅ ∅ ∅ ∅ [] ∅.

(** Lines 124-140, from the state the day loop leaves.  The dicts built
    by comprehension over [user_shares] are maps over its keys; each
    [user_value[u]] and [profit[u]] read is the value bound at [u]. *)
Definition settle (transactions : list Tx) (all_dates : list string)
    (withdraw_fee profit_fee : fnum) (st : FundState) : Outputs :=
  let user_shares := user_share_balances st in
  let current_nav_share :=
    match last all_dates with
    | Some d => dict_get (nav_per_share st) d one
    | None => one
    end in
  let user_value := (fun s => fmul s current_nav_share) <$> user_shares in
  let deposit_sum := group_sum "Deposit" transactions in
  let withdrawal_series := group_sum "Withdrawal" transactions in
  let withdrawal_sum := fopp <$> withdrawal_series in
  let profit :=
    map_imap (fun u v => Some (profit_of deposit_sum withdrawal_sum u v)) user_value in
  let after_fees :=
    map_imap (fun u gross =>
      Some (after_fees_of gross (profit_of deposit_sum withdrawal_sum u gross)
                          withdraw_fee profit_fee)) user_value in
  let fee_details :=
    map_imap (fun u gross =>
      Some (mkFee (withdrawal_fee_amt_of gross withdraw_fee)
                  (profit_fee_amt_of (profit_of deposit_sum withdrawal_sum u gross)
                                     profit_fee))) user_value in
  mkOutputs (nav_per_share st) user_shares user_value after_fees profit
            (share_ledger st) fee_details.

(** [recalculate_fund]: the returned tuple, and the transactions table as
    the call leaves it (line 88 assigns the coerced Amount column into the
    caller's DataFrame). *)
Definition recalculate_fund (transactions : list Tx)
    (nav_history : gmap string fnum) (withdraw_fee profit_fee : fnum)
  : Outputs * list Tx :=
  let transactions := coerce_amounts transactions in
  let all_dates := all_dates_of transactions nav_history in
  match all_dates with
  | [] => (empty_outputs, transactions)
  | _ =>
      let st := run_days transactions nav_history all_dates
                         (initial_state transactions) in
      (settle transactions all_dates withdraw_fee profit_fee st, transactions)
  end.

(** ** The Amount column as the caller holds it

    [Tx] above has the Amount column numeric, as [read_csv] gives it for
    a file of numbers.  A column read from a file with a cell that is no
    number has dtype object and holds strings.  [pd.to_numeric(...,
    errors="coerce")] on line 88 turns such a column into floats: a
    number stays, a string becomes the number it parses to, or NaN when
    it does not parse; [fillna(0.0)] then works as on a numeric column.
    The parser of pandas is a parameter. *)
Inductive Cell : Type :=
| CNum (x : fnum)
| CStr (s : string).

Record RawTx : Type := mkRaw {
  rDate : string;
  rUser : string;
  rType : string;
  rAmount : Cell
}.

Definition to_numeric (parse : string -> fnum) (c : Cell) : fnum :=
  match c with
  | CNum x => x
  | CStr s => parse s
  end.

Definition numeric_rows (parse : string -> fnum) (table : list RawTx) : list Tx :=
  map (fun r => mkTx (rDate r) (rUser r) (rType r) (to_numeric parse (rAmount r))) table.

(** The table with a float64 Amount column, as an object of the caller. *)
Definition float_table (rows : list Tx) : list RawTx :=
  map (fun r => mkRaw (Date r) (User r) (Ttype r) (CNum (Amount r))) rows.

(** [recalculate_fund] called on a table of the caller: the returned
    tuple and the table as the call leaves it. *)
Definition recalculate_fund_on (parse : string -> fnum) (table : list RawTx)
    (nav_history : gmap string fnum) (withdraw_fee profit_fee : fnum)
  : Outputs * list RawTx :=
  let r := recalculate_fund (numeric_rows parse table) nav_history
                            withdraw_fee profit_fee in
  (fst r, float_table (snd r)).

(** A cell that holds a number (not a string, not NaN). *)
Definition is_number (c : Cell) : Prop :=
  match c with
  | CNum (Fin _) => True
  | _ => False
  end.

(** ** Notions used in the statements *)

(** The loop state at the day boundary after the first [k] dates. *)
Definition state_after_days (transactions : list Tx)
    (nav_history : gmap string fnum) (k : nat) : FundState :=
  run_days transactions nav_history
           (take k (all_dates_of transactions nav_history))
           (initial_state transactions).

(** The intra-day price of the [k]-th date (line 101). *)
Definition price_on_day (transactions : list Tx)
    (nav_history : gmap string fnum) (k : nat) (d : string) : fnum :=
  price_of (nav_on nav_history d)
           (total_shares (state_after_days transactions nav_history k)).

(** The loop state inside the [k]-th date, after [j] of its rows. *)
Definition state_at (transactions : list Tx)
    (nav_history : gmap string fnum) (k j : nat) : FundState :=
  let st := state_after_days transactions nav_history k in
  match all_dates_of transactions nav_history !! k with
  | Some d =>
      process_rows d (price_on_day transactions nav_history k d)
                   (take j (txs_today transactions d)) st
  | None => st
  end.

(** A value is a number (not [NaN]) and not below zero. *)
Definition nonneg (a : fnum) : Prop :=
  match a with Fin q => (0 <= q)%Qc | NaN => False end.

Definition finite (a : fnum) : Prop :=
  match a with Fin _ => True | NaN => False end.

(** Every stored number of the share state is a number. *)
Definition state_finite (st : FundState) : Prop :=
  finite (total_shares st) /\
  map_Forall (fun _ v => finite v) (user_share_balances st).

Definition balances_nonneg (st : FundState) : Prop :=
  map_Forall (fun _ v => nonneg v) (user_share_balances st).

(** [total_shares] is a number in both states and did not decrease. *)
Definition total_le (st st' : FundState) : Prop :=
  match total_shares st, total_shares st' with
  | Fin t, Fin t' => (t <= t')%Qc
  | _, _ => False
  end.

(** Two loop states that agree on everything but the ledger. *)
Definition same_shares (st st0 : FundState) : Prop :=
  total_shares st = total_shares st0 /\
  user_share_balances st = user_share_balances st0 /\
  nav_per_share st = nav_per_share st0.

(** The table holds no Deposit of a negative amount (the data model has
    amounts positive; a missing amount counts as 0.0 after line 88). *)
Definition no_negative_deposit (transactions : list Tx) : bool :=
  forallb (fun r => negb (String.eqb (Ttype r) "Deposit" && flt (Amount r) zero))
          transactions.

(** No amount of the table is negative. *)
Definition no_negative_amount (transactions : list Tx) : bool :=
  forallb (fun r => negb (flt (Amount r) zero)) transactions.

(** A row as the loop sees it after line 88 when no Deposit amount of the
    table is negative: a number, and not below zero on a Deposit. *)
Definition row_ok (r : Tx) : Prop :=
  finite (Amount r) /\ (Ttype r = "Deposit" -> nonneg (Amount r)).

(** The rows that produce a ledger entry (lines 106 and 110). *)
Definition is_processed (r : Tx) : bool :=
  String.eqb (Ttype r) "Deposit" || String.eqb (Ttype r) "Withdrawal".

(** The ledger entries appended between two loop states. *)
Definition new_entries (st st' : FundState) : list LedgerEntry :=
  drop (length (share_ledger st)) (share_ledger st').

(** A ledger entry executed at price [p] on date [d]: it records [p], a
    Deposit's shares are its amount at [p], a Withdrawal's amount is its
    shares at [p], negated. *)
Definition priced_at (d : string) (p : fnum) (e : LedgerEntry) : Prop :=
  lDate e = d /\ lNavShare e = p /\
  (lType e = "Deposit" -> lShares e = shares_for (lAmount e) p) /\
  (lType e = "Withdrawal" -> lAmount e = fopp (fmul (lShares e) p)).

(** The entry of one user in a [groupby("User")] sum, as a fold of its own. *)
Definition user_sum (ty u : string) (rows : list Tx) (acc : fnum) : fnum :=
  fold_left
    (fun acc r =>
       if String.eqb (Ttype r) ty && String.eqb (User r) u
       then add_skipna acc (Amount r) else acc)
    rows acc.

(** The amounts a [groupby("User")] sum adds up for one user: those of
    the user's rows of the type, in table order; and their sum. *)
Definition amounts_of (ty u : string) (rows : list Tx) : list fnum :=
  map Amount
      (List.filter (fun r => String.eqb (Ttype r) ty && String.eqb (User r) u) rows).

Definition sum_skipna (amounts : list fnum) : fnum :=
  fold_left add_skipna amounts zero.

(** Equality of numbers and of looked-up numbers, as a test. *)
Definition opt_feqb (a b : option fnum) : bool :=
  match a, b with
  | Some x, Some y => feqb x y
  | None, None => true
  | _, _ => false
  end.

(** ** The specification's wording, where it differs from the code *)

(** Follows the specification's words (section 4.1, steps 5 and 6):
    [withdrawal_sum] is the sum of the absolute values of the user's
    Withdrawal amounts and [profit = user_value - deposit_sum +
    withdrawal_sum]. *)
Definition fabs (a : fnum) : fnum := if flt a zero then fopp a else a.

Definition amount_sum_spec (ty u : string) (f : fnum -> fnum)
    (transactions : list Tx) : fnum :=
  fold_left
    (fun acc r =>
       if String.eqb (Ttype r) ty && String.eqb (User r) u
       then fadd acc (f (Amount r)) else acc)
    transactions zero.

Definition profit_spec (transactions : list Tx) (u : string) (value : fnum) : fnum :=
  fadd (fsub value (amount_sum_spec "Deposit" u (fun a => a) transactions))
       (amount_sum_spec "Withdrawal" u fabs transactions).

(** Follows the specification's words (section 4.1, step 3c, Withdrawal):
    [shares = a / nav_per_share_today], then
    [shares = min(shares, user_balance)]. *)
Definition withdrawal_shares_spec (a price balance : fnum) : fnum :=
  pymin (fdiv a price) balance.

(** ** Scenarios *)

Definition d1 : string := "2025-05-18".
Definition d2 : string := "2025-05-19".

(** alice deposits 100 and withdraws the same 100 the next day; the NAV
    is 100 on both days, so the price stays 1.0. *)
Definition txs_roundtrip : list Tx :=
  [ mkTx d1 "alice" "Deposit" (fin 100);
    mkTx d2 "alice" "Withdrawal" (fin 100) ].
Definition nav_roundtrip : gmap string fnum :=
  <[d1 := fin 100]> (<[d2 := fin 100]> ∅).

(** A deposit and a full withdrawal on the same first day. *)
Definition txs_same_day : list Tx :=
  [ mkTx d1 "alice" "Deposit" (fin 100);
    mkTx d1 "alice" "Withdrawal" (fin 100) ].
Definition nav_same_day : gmap string fnum := <[d1 := fin 100]> ∅.

(** Scenario B with a fund worth twice the deposit: alice deposits 100
    on the first day, whose NAV is 200. *)
Definition txs_B : list Tx := [ mkTx d1 "alice" "Deposit" (fin 100) ].
Definition nav_B : gmap string fnum := <[d1 := fin 200]> ∅.

(** Scenario C: alice deposits 100 at NAV 100; the next day NAV is 200. *)
Definition txs_C : list Tx := [ mkTx d1 "alice" "Deposit" (fin 100) ].
Definition nav_C : gmap string fnum := <[d1 := fin 100]> (<[d2 := fin 200]> ∅).

(** Scenario D: alice holds 50 shares and requests a withdrawal priced at
    60 shares. *)
Definition txs_D : list Tx :=
  [ mkTx d1 "alice" "Deposit" (fin 50);
    mkTx d2 "alice" "Withdrawal" (fin 60) ].
Definition nav_D : gmap string fnum := <[d1 := fin 50]> (<[d2 := fin 50]> ∅).

(** alice deposits 100 on a day with NAV 100 and withdraws 10 the next
    day, for which no NAV was entered. *)
Definition txs_nonav : list Tx :=
  [ mkTx d1 "alice" "Deposit" (fin 100);
    mkTx d2 "alice" "Withdrawal" (fin 10) ].
Definition nav_nonav : gmap string fnum := <[d1 := fin 100]> ∅.

(** A table with a missing Amount, as [read_csv] gives for an empty cell. *)
Definition txs_missing : list Tx :=
  [ mkTx d1 "alice" "Deposit" (fin 100);
    mkTx d1 "bob" "Deposit" NaN ].

(** alice holds 100 shares; on the next day, whose NAV was entered as 0,
    bob makes a deposit. *)
Definition txs_zero_nav_head : list Tx := [ mkTx d1 "alice" "Deposit" (fin 100) ].
Definition nav_zero_nav : gmap string fnum := <[d1 := fin 100]> (<[d2 := fin 0]> ∅).

(** ** The code around the engine *)

(** Lines 155-163: the row of [wallet_data] built for one user [u] of
    [user_value].  The four dicts are indexed at [u]; a missing key
    (a KeyError in the source) is [None]. *)
Record WalletRow : Type := mkWallet {
  wUser : string;
  wShares : fnum;
  wWallet : fnum;
  wAfterFees : fnum;
  wProfit : fnum
}.

Definition wallet_row (out : Outputs) (u : string) : option WalletRow :=
  match out_user_shares out !! u, out_user_value out !! u,
        out_after_fees out !! u, out_profit out !! u with
  | Some s, Some v, Some a, Some p => Some (mkWallet u s v a p)
  | _, _, _, _ => None
  end.

(** Lines 201-209: the loop that draws one user's wallet history from the
    user's ledger rows.  The accumulator is [running_shares] and the
    points appended to [wallet_chart] so far. *)
Record ChartPoint : Type := mkPoint {
  cDate : string;
  cWallet : fnum
}.

Definition chart_step (nav_per_share : gmap string fnum)
    (acc : fnum * list ChartPoint) (row : LedgerEntry) : fnum * list ChartPoint :=
  let running_shares :=
    if String.eqb (lType row) "Deposit" then fadd (fst acc) (lShares row)
    else if String.eqb (lType row) "Withdrawal" then fsub (fst acc) (lShares row)
    else fst acc in
  let nav := dict_get nav_per_share (lDate row) one in
  (running_shares, snd acc ++ [mkPoint (lDate row) (fmul running_shares nav)]).

Definition chart_loop (nav_per_share : gmap string fnum)
    (ledger_df_user : list LedgerEntry) : fnum * list ChartPoint :=
  fold_left (chart_step nav_per_share) ledger_df_user (zero, []).

(** Lines 155-163 and 197: the users of [wallet_data], the non-empty
    users of [user_value] (as a set: the order of the rows, line 165,
    plays no role below). *)
Definition wallet_data_users (out : Outputs) : list string :=
  List.filter (fun u => negb (String.eqb u "")) (map_to_list (out_user_value out)).*1.

(** Lines 196-216, for the user picked in the select box.  Without any
    wallet the page only says so (line 216).  Otherwise line 199 selects
    the user's rows of [ledger_df], which is [pd.DataFrame(share_ledger)]:
    built from an empty list it has no columns, and [ledger_df["User"]]
    raises a KeyError.  Without any row of the user the page says that
    the user has no transactions (line 214), else the chart is drawn
    from the points of the loop. *)
Inductive ChartView : Type :=
| NoWalletData
| KeyError
| NoTransactions
| Chart (running_shares : fnum) (points : list ChartPoint).

Definition wallet_chart (ledger_df : list LedgerEntry)
    (nav_per_share : gmap string fnum) (user_for_chart : string) : ChartView :=
  match ledger_df with
  | [] => KeyError
  | _ :: _ =>
      let ledger_df_user :=
        List.filter (fun e => String.eqb (lUser e) user_for_chart) ledger_df in
      match ledger_df_user with
      | [] => NoTransactions
      | _ :: _ =>
          let r := chart_loop nav_per_share ledger_df_user in
          Chart (fst r) (snd r)
      end
  end.

Definition individual_wallet_growth (out : Outputs) (user_for_chart : string)
  : ChartView :=
  match wallet_data_users out with
  | [] => NoWalletData
  | _ :: _ => wallet_chart (out_ledger_df out) (out_nav_per_share out) user_for_chart
  end.

(** carol's only row is of a type the engine skips. *)
Definition txs_bonus : list Tx := [ mkTx d1 "carol" "Bonus" (fin 5) ].

(** Line 291: the table without the rows of [del_user]. *)
Definition delete_wallet (transactions : list Tx) (del_user : string) : list Tx :=
  List.filter (fun r => negb (String.eqb (User r) del_user)) transactions.

(** [a != b] on floats: true as soon as one side is [NaN]. *)
Definition fne (a b : fnum) : bool :=
  match a, b with
  | Fin x, Fin y => negb (Qc_eqb x y)
  | _, _ => true
  end.

(** Lines 314-321: the NAV editor.  [days] are the dates from START_DATE
    to today as strings and [inputs d] is what the number field of date
    [d] returns; a date is written only when its field differs from the
    stored value, 0.0 standing for a date without entry. *)
Definition edit_nav_step (inputs : string -> fnum) (nav : gmap string fnum)
    (d_str : string) : gmap string fnum :=
  let nav_val := dict_get nav d_str zero in
  let nav_input := inputs d_str in
  if fne nav_input nav_val then <[d_str := nav_input]> nav else nav.

Definition edit_nav (days : list string) (inputs : string -> fnum)
    (nav : gmap string fnum) : gmap string fnum :=
  fold_left (edit_nav_step inputs) days nav.


(** Date, user and type of a ledger entry and of a table row. *)
Definition entry_key (e : LedgerEntry) : string * string * string :=
  (lDate e, lUser e, lType e).

Definition row_key (r : Tx) : string * string * string :=
  (Date r, User r, Ttype r).

(** Replaying the ledger of a user gives the balance of the user. *)
Definition replayed (st : FundState) : Prop :=
  forall nps u,
    fst (chart_loop nps (List.filter (fun e => String.eqb (lUser e) u) (share_ledger st))) =
    dict_get (user_share_balances st) u zero.

(** A back-dated Deposit, a row of an unknown type and two users. *)
Definition txs_mixed : list Tx :=
  [ mkTx d2 "bob" "Deposit" (fin 30);
    mkTx d1 "alice" "Deposit" (fin 100);
    mkTx d2 "alice" "Withdrawal" (fin 40);
    mkTx d1 "carol" "Bonus" (fin 5) ].
Definition nav_mixed : gmap string fnum := <[d1 := fin 100]> (<[d2 := fin 150]> ∅).

(** The rows of [txs_mixed] in chronological order. *)
Definition txs_mixed_sorted : list Tx :=
  [ mkTx d1 "alice" "Deposit" (fin 100);
    mkTx d1 "carol" "Bonus" (fin 5);
    mkTx d2 "bob" "Deposit" (fin 30);
    mkTx d2 "alice" "Withdrawal" (fin 40) ].

(** Two loop states with the same totals, prices and ledger, whose
    balance dicts read the same with the default 0.0. *)
Definition agree (st st' : FundState) : Prop :=
  total_shares st = total_shares st' /\
  nav_per_share st = nav_per_share st' /\
  share_ledger st = share_ledger st' /\
  forall u, dict_get (user_share_balances st) u zero =
            dict_get (user_share_balances st') u zero.

(** A table, and the same table after a Deposit of bob dated on the
    second day was added (lines 256-257). *)
Definition txs_before_add : list Tx :=
  [ mkTx d1 "alice" "Deposit" (fin 100);
    mkTx d2 "alice" "Withdrawal" (fin 40) ].
Definition txs_after_add : list Tx :=
  txs_before_add ++ [ mkTx d2 "bob" "Deposit" (fin 30) ].

(** ** The engine in binary64

    The same code over the floats of the source.  [float] is the
    primitive binary64 type; its [+], [-], [*], [/] and [<?] are the IEEE
    754 operations (round to nearest even) of a Python float, and a
    decimal literal denotes the nearest binary64 number, as in Python.
    The integers [0] and [1.0] of the source are the floats of the same
    value. *)

Module B64.
Import PrimFloat.

Definition zero : float := 0%float.
Definition one : float := 1%float.
Definition NaN : float := nan.

Definition fadd (a b : float) : float := (a + b)%float.
Definition fsub (a b : float) : float := (a - b)%float.
Definition fmul (a b : float) : float := (a * b)%float.
Definition fdiv (a b : float) : float := (a / b)%float.
Definition fopp (a : float) : float := (- a)%float.

(** [a < b], [a > b] and [a == b]; false as soon as one side is NaN. *)
Definition flt (a b : float) : bool := (a <? b)%float.
Definition fgt (a b : float) : bool := flt b a.
Definition feq (a b : float) : bool := (a =? b)%float.

(** Python's builtin [min(a, b)] and [max(a, b)]. *)
Definition pymin (a b : float) : float := if flt b a then b else a.
Definition pymax (a b : float) : float := if fgt b a then b else a.

Record Tx : Type := mkTx {
  Date : string;
  User : string;
  Ttype : string;
  Amount : float
}.

Record LedgerEntry : Type := mkEntry {
  lDate : string;
  lUser : string;
  lType : string;
  lAmount : float;
  lShares : float;
  lNavShare : float
}.

Record FundState : Type := mkState {
  total_shares : float;
  user_share_balances : gmap string float;
  share_ledger : list LedgerEntry;
  nav_per_share : gmap string float
}.

Record FeeDetail : Type := mkFee {
  withdrawal_fee : float;
  profit_fee : float
}.

Record Outputs : Type := mkOutputs {
  out_nav_per_share : gmap string float;
  out_user_shares : gmap string float;
  out_user_value : gmap string float;
  out_after_fees : gmap string float;
  out_profit : gmap string float;
  out_ledger_df : list LedgerEntry;
  out_fee_details : gmap string FeeDetail
}.

Definition dict_get (m : gmap string float) (k : string) (dflt : float) : float :=
  default dflt (m !! k).

(** Lines 87-88 on a numeric Amount column. *)
Definition fillna0 (a : float) : float := if is_nan a then zero else a.

Definition coerce_amounts (transactions : list Tx) : list Tx :=
  map (fun r => mkTx (Date r) (User r) (Ttype r) (fillna0 (Amount r))) transactions.

(** Line 90. *)
Definition all_dates_of (transactions : list Tx) (nav_history : gmap string float)
  : list string :=
  sorted_set ((map_to_list nav_history).*1 ++ map Date transactions).

(** Line 96. *)
Definition initial_balances (transactions : list Tx) : gmap string float :=
  foldr (fun r m => if String.eqb (User r) "" then m else <[User r := zero]> m)
        ∅ transactions.

(** Lines 101 and 123. *)
Definition price_of (nav total : float) : float :=
  if fgt total zero then fdiv nav total else one.

(** Lines 107 and 111. *)
Definition shares_for (amt price : float) : float :=
  if fgt price zero then fdiv amt price else zero.

(** Lines 103-122. *)
Definition process_row (d_str : string) (nav_per_share_today : float)
    (st : FundState) (row : Tx) : FundState :=
  let amt := Amount row in
  let u := User row in
  let ttype := Ttype row in
  if String.eqb ttype "Deposit" then
    let shares := shares_for amt nav_per_share_today in
    mkState
      (fadd (total_shares st) shares)
      (<[u := fadd (dict_get (user_share_balances st) u zero) shares]>
         (user_share_balances st))
      (share_ledger st ++
         [mkEntry d_str u ttype amt shares nav_per_share_today])
      (nav_per_share st)
  else if String.eqb ttype "Withdrawal" then
    let shares := shares_for amt nav_per_share_today in
    let shares := pymin shares (dict_get (user_share_balances st) u zero) in
    let amt := fmul shares nav_per_share_today in
    let amt := fopp amt in
    mkState
      (fsub (total_shares st) shares)
      (<[u := fsub (dict_get (user_share_balances st) u zero) shares]>
         (user_share_balances st))
      (share_ledger st ++
         [mkEntry d_str u ttype amt shares nav_per_share_today])
      (nav_per_share st)
  else st.

(** Line 100. *)
Definition txs_today (transactions : list Tx) (d_str : string) : list Tx :=
  List.filter (fun r => String.eqb (Date r) d_str) transactions.

(** Line 99. *)
Definition nav_on (nav_history : gmap string float) (d_str : string) : float :=
  dict_get nav_history d_str NaN.

Definition process_rows (d_str : string) (nav_per_share_today : float)
    (rows : list Tx) (st : FundState) : FundState :=
  fold_left (process_row d_str nav_per_share_today) rows st.

(** Line 123. *)
Definition record_nav (d_str : string) (nav : float) (st : FundState) : FundState :=
  mkState (total_shares st) (user_share_balances st) (share_ledger st)
          (<[d_str := price_of nav (total_shares st)]> (nav_per_share st)).

(** Lines 97-123. *)
Definition process_day (transactions : list Tx) (nav_history : gmap string float)
    (st : FundState) (d : string) : FundState :=
  let nav := nav_on nav_history d in
  let nav_per_share_today := price_of nav (total_shares st) in
  let st' := process_rows d nav_per_share_today (txs_today transactions d) st in
  record_nav d nav st'.

Definition run_days (transactions : list Tx) (nav_history : gmap string float)
    (dates : list string) (st : FundState) : FundState :=
  fold_left (process_day transactions nav_history) dates st.

(** Lines 93-96. *)
Definition initial_state (transactions : list Tx) : FundState :=
  mkState zero (initial_balances transactions) [] ∅.

(** Lines 127-128: the sum of a group, its amounts added in table order
    and missing values skipped.  (A sum of one or two amounts, as in the
    scenarios below, is rounded once, whatever the order or scheme of
    summation.) *)
Definition add_skipna (acc a : float) : float :=
  if is_nan a then acc else fadd acc a.

Definition group_step (ty : string) (m : gmap string float) (r : Tx)
  : gmap string float :=
  if String.eqb (Ttype r) ty
  then <[User r := add_skipna (dict_get m (User r) zero) (Amount r)]> m
  else m.

Definition group_sum (ty : string) (transactions : list Tx) : gmap string float :=
  fold_left (group_step ty) transactions ∅.

(** Line 130. *)
Definition profit_of (deposit_sum withdrawal_sum : gmap string float)
    (u : string) (value : float) : float :=
  fadd (fsub value (dict_get deposit_sum u zero)) (dict_get withdrawal_sum u zero).

(** Lines 134-138. *)
Definition withdrawal_fee_amt_of (gross withdraw_fee : float) : float :=
  fmul gross withdraw_fee.

Definition profit_fee_amt_of (profit_u profit_fee : float) : float :=
  fmul (pymax profit_u zero) profit_fee.

Definition after_fees_of (gross profit_u withdraw_fee profit_fee : float) : float :=
  fsub (fsub gross (withdrawal_fee_amt_of gross withdraw_fee))
       (profit_fee_amt_of profit_u profit_fee).

Definition empty_outputs : Outputs := mkOutputs ∅ ∅ ∅ ∅ ∅ [] ∅.

(** Lines 124-140. *)
Definition settle (transactions : list Tx) (all_dates : list string)
    (withdraw_fee profit_fee : float) (st : FundState) : Outputs :=
  let user_shares := user_share_balances st in
  let current_nav_share :=
    match last all_dates with
    | Some d => dict_get (nav_per_share st) d one
    | None => one
    end in
  let user_value := (fun s => fmul s current_nav_share) <$> user_shares in
  let deposit_sum := group_sum "Deposit" transactions in
  let withdrawal_series := group_sum "Withdrawal" transactions in
  let withdrawal_sum := fopp <$> withdrawal_series in
  let profit :=
    map_imap (fun u v => Some (profit_of deposit_sum withdrawal_sum u v)) user_value in
  let after_fees :=
    map_imap (fun u gross =>
      Some (after_fees_of gross (profit_of deposit_sum withdrawal_sum u gross)
                          withdraw_fee profit_fee)) user_value in
  let fee_details :=
    map_imap (fun u gross =>
      Some (mkFee (withdrawal_fee_amt_of gross withdraw_fee)
                  (profit_fee_amt_of (profit_of deposit_sum withdrawal_sum u gross)
                                     profit_fee))) user_value in
  mkOutputs (nav_per_share st) user_shares user_value after_fees profit
            (share_ledger st) fee_details.

Definition recalculate_fund (transactions : list Tx)
    (nav_history : gmap string float) (withdraw_fee profit_fee : float)
  : Outputs * list Tx :=
  let transactions := coerce_amounts transactions in
  let all_dates := all_dates_of transactions nav_history in
  match all_dates with
  | [] => (empty_outputs, transactions)
  | _ =>
      let st := run_days transactions nav_history all_dates
                         (initial_state transactions) in
      (settle transactions all_dates withdraw_fee profit_fee st, transactions)
  end.

(** *** The table of the caller (lines 87-88)

    A cell of the Amount column as the caller holds it: a float (NaN
    when missing) or a string; [to_numeric] and the table the call
    leaves behind are as above, with pandas' parser a parameter. *)
Inductive Cell : Type :=
| CNum (x : float)
| CStr (s : string).

Record RawTx : Type := mkRaw {
  rDate : string;
  rUser : string;
  rType : string;
  rAmount : Cell
}.

Definition to_numeric (parse : string -> float) (c : Cell) : float :=
  match c with
  | CNum x => x
  | CStr s => parse s
  end.

Definition numeric_rows (parse : string -> float) (table : list RawTx) : list Tx :=
  map (fun r => mkTx (rDate r) (rUser r) (rType r) (to_numeric parse (rAmount r))) table.

(** The table with a float64 Amount column, as an object of the caller. *)
Definition float_table (rows : list Tx) : list RawTx :=
  map (fun r => mkRaw (Date r) (User r) (Ttype r) (CNum (Amount r))) rows.

(** [recalculate_fund] called on a table of the caller: the returned
    tuple and the table as the call leaves it. *)
Definition recalculate_fund_on (parse : string -> float) (table : list RawTx)
    (nav_history : gmap string float) (withdraw_fee profit_fee : float)
  : Outputs * list RawTx :=
  let r := recalculate_fund (numeric_rows parse table) nav_history
                            withdraw_fee profit_fee in
  (fst r, float_table (snd r)).

(** A cell that holds a number (not a string, not NaN). *)
Definition is_number (c : Cell) : Prop :=
  match c with
  | CNum x => is_nan x = false
  | CStr _ => False
  end.

(** *** Notions used in the statements *)

(** The sum of all per-user share balances. *)
Definition sum_balances (m : gmap string float) : float :=
  map_fold (fun _ v acc => fadd acc v) zero m.

(** The loop state at the day boundary after the first [k] dates, the
    intra-day price of the [k]-th date and the loop state inside that
    date after [j] of its rows. *)
Definition state_after_days (transactions : list Tx)
    (nav_history : gmap string float) (k : nat) : FundState :=
  run_days transactions nav_history
           (take k (all_dates_of transactions nav_history))
           (initial_state transactions).

Definition price_on_day (transactions : list Tx)
    (nav_history : gmap string float) (k : nat) (d : string) : float :=
  price_of (nav_on nav_history d)
           (total_shares (state_after_days transactions nav_history k)).

Definition state_at (transactions : list Tx)
    (nav_history : gmap string float) (k j : nat) : FundState :=
  let st := state_after_days transactions nav_history k in
  match all_dates_of transactions nav_history !! k with
  | Some d =>
      process_rows d (price_on_day transactions nav_history k d)
                   (take j (txs_today transactions d)) st
  | None => st
  end.

(** The rows that produce a ledger entry; date, user and type of an
    entry and of a row. *)
Definition is_processed (r : Tx) : bool :=
  String.eqb (Ttype r) "Deposit" || String.eqb (Ttype r) "Withdrawal".

Definition entry_key (e : LedgerEntry) : string * string * string :=
  (lDate e, lUser e, lType e).

Definition row_key (r : Tx) : string * string * string :=
  (Date r, User r, Ttype r).





(** The ledger entries appended between two loop states. *)
Definition new_entries (st st' : FundState) : list LedgerEntry :=
  drop (length (share_ledger st)) (share_ledger st').

(** The table holds no Deposit of a negative amount (the data model has
    amounts positive; a missing amount counts as 0.0 after line 88). *)
Definition no_negative_deposit (transactions : list Tx) : bool :=
  forallb (fun r => negb (String.eqb (Ttype r) "Deposit" && flt (Amount r) zero))
          transactions.

(** A row whose amount is not below zero if it is a Deposit, and a loop
    state none of whose balances is below zero. *)
Definition row_ok (r : Tx) : Prop :=
  Ttype r = "Deposit" -> flt (Amount r) zero = false.

Definition balances_nonneg (st : FundState) : Prop :=
  map_Forall (fun _ v => flt v zero = false) (user_share_balances st).

(** A ledger entry executed at price [p] on date [d]: it records [p], a
    Deposit's shares are its amount at [p], a Withdrawal's amount is its
    shares at [p], negated. *)
Definition priced_at (d : string) (p : float) (e : LedgerEntry) : Prop :=
  lDate e = d /\ lNavShare e = p /\
  (lType e = "Deposit" -> lShares e = shares_for (lAmount e) p) /\
  (lType e = "Withdrawal" -> lAmount e = fopp (fmul (lShares e) p)).

(** Two loop states that agree on everything but the ledger. *)
Definition same_shares (st st0 : FundState) : Prop :=
  total_shares st = total_shares st0 /\
  user_share_balances st = user_share_balances st0 /\
  nav_per_share st = nav_per_share st0.

(** The entry of one user in a [groupby("User")] sum, as a fold of its own. *)
Definition user_sum (ty u : string) (rows : list Tx) (acc : float) : float :=
  fold_left
    (fun acc r =>
       if String.eqb (Ttype r) ty && String.eqb (User r) u
       then add_skipna acc (Amount r) else acc)
    rows acc.

(** The amounts a [groupby("User")] sum adds up for one user: those of
    the user's rows of the type, in table order; and their sum. *)
Definition amounts_of (ty u : string) (rows : list Tx) : list float :=
  map Amount
      (List.filter (fun r => String.eqb (Ttype r) ty && String.eqb (User r) u) rows).

Definition sum_skipna (amounts : list float) : float :=
  fold_left add_skipna amounts zero.

(** [a] is the number [b]: the same float, or two floats that compare
    equal (the zeros [-0.0] and [0.0]; [-0.0 + 0.0] is [0.0]). *)
Definition same_number (a b : float) : Prop := a = b \/ feq a b = true.

(** The two sign classes of a binary64 number, read on its IEEE 754
    representation: not below zero (a zero of either sign, a positive
    number, plus infinity or NaN) and above zero. *)
Definition sf_not_negative (s : SpecFloat.spec_float) : Prop :=
  match s with
  | SpecFloat.S754_finite true _ _ | SpecFloat.S754_infinity true => False
  | _ => True
  end.

Definition sf_positive (s : SpecFloat.spec_float) : Prop :=
  match s with
  | SpecFloat.S754_finite false _ _ | SpecFloat.S754_infinity false => True
  | _ => False
  end.

(** *** Scenarios *)

(** alice deposits 0.1 and bob 0.2 on the first day; on the second day
    each asks for 1.0, more than the wallet holds, and is paid out in
    full.  The NAV is 0.3 on both days. *)
Definition txs_cash_out : list Tx :=
  [ mkTx d1 "alice" "Deposit" 0.1;
    mkTx d1 "bob" "Deposit" 0.2;
    mkTx d2 "alice" "Withdrawal" 1;
    mkTx d2 "bob" "Withdrawal" 1 ].
Definition nav_cash_out : gmap string float :=
  <[d1 := 0.3%float]> (<[d2 := 0.3%float]> ∅).

(** A fund worth twice the deposit: alice deposits 100 on the first day,
    whose NAV is 200. *)
Definition txs_B : list Tx := [ mkTx d1 "alice" "Deposit" 100 ].
Definition nav_B : gmap string float := <[d1 := 200%float]> ∅.

(** alice deposits 0.01 at NAV 0.01; the next day the NAV is entered as
    0 and she deposits 0.01 again; the day after, the NAV is 0.04.
    [txs_cents0] is the same history with the second amount set to 0. *)
Definition d3 : string := "2025-05-20".

Definition txs_cents : list Tx :=
  [ mkTx d1 "alice" "Deposit" 0.01;
    mkTx d2 "alice" "Deposit" 0.01 ].
Definition txs_cents0 : list Tx :=
  [ mkTx d1 "alice" "Deposit" 0.01;
    mkTx d2 "alice" "Deposit" 0 ].
Definition nav_cents : gmap string float :=
  <[d1 := 0.01%float]> (<[d2 := 0%float]> (<[d3 := 0.04%float]> ∅)).

(** The first row of a history on the NAVs of [nav_cents]; a Deposit of
    bob on the second day, whose NAV is 0, is then his only row. *)
Definition txs_cents_head : list Tx :=
  [ mkTx d1 "alice" "Deposit" 0.01 ].

End B64.

(** ** Arithmetic of [fnum] *)

Section Arith.
Local Open Scope Qc_scope.

Lemma Qc_ltb_lt (x y : Qc) : Qc_ltb x y = true <-> x < y.
Proof.
  unfold Qc_ltb. rewrite Qclt_alt.
  destruct (x ?= y); split; congruence.
Qed.

Lemma Qc_ltb_ge (x y : Qc) : Qc_ltb x y = false <-> y <= x.
Proof.
  rewrite <- Bool.not_true_iff_false, Qc_ltb_lt. split.
  - apply Qcnot_lt_le.
  - apply Qcle_not_lt.
Qed.

Lemma Qc_eqb_eq (x y : Qc) : Qc_eqb x y = true <-> x = y.
Proof.
  unfold Qc_eqb. rewrite Qceq_alt.
  destruct (x ?= y); split; congruence.
Qed.

Lemma Qc_pos_neq0 (y : Qc) : 0 < y -> y <> 0.
Proof. intros Hy Heq. symmetry in Heq. by apply (Qclt_not_eq _ _ Hy). Qed.

Lemma Qc_eqb_pos (y : Qc) : 0 < y -> Qc_eqb y 0 = false.
Proof.
  intros Hy. apply Bool.not_true_iff_false. rewrite Qc_eqb_eq.
  by apply Qc_pos_neq0.
Qed.

Lemma feqb_eq (a b : fnum) : feqb a b = true -> a = b.
Proof.
  destruct a as [x|], b as [y|]; simpl; try congruence.
  intros H. apply Qc_eqb_eq in H. congruence.
Qed.

Lemma opt_feqb_eq (a b : option fnum) : opt_feqb a b = true -> a = b.
Proof.
  destruct a, b; simpl; try congruence.
  intros H. apply feqb_eq in H. congruence.
Qed.

Lemma fgt_zero_iff (a : fnum) :
  fgt a zero = true <-> exists q, a = Fin q /\ 0 < q.
Proof.
  unfold fgt, flt, zero. destruct a as [q|]; simpl.
  - rewrite Qc_ltb_lt. split; [eauto|]. intros (q' & [= <-] & H). exact H.
  - split; [discriminate|]. intros (q' & [=] & _).
Qed.

Lemma fadd_zero_r (a : fnum) : fadd a zero = a.
Proof. destruct a; simpl; try reflexivity. f_equal. ring. Qed.

Lemma fsub_diag (a : fnum) : finite a -> fsub a a = zero.
Proof. destruct a; simpl; [|tauto]. intros _. unfold zero. f_equal. ring. Qed.

Lemma fdiv_one (a : fnum) : fdiv a one = a.
Proof.
  destruct a as [x|]; simpl; [|reflexivity].
  f_equal. apply (right_id _ Qcdiv).
Qed.

Lemma nonneg_finite (a : fnum) : nonneg a -> finite a.
Proof. destruct a; simpl; tauto. Qed.

Lemma nonneg_zero : nonneg zero.
Proof. simpl. apply Qcle_refl. Qed.

Lemma nonneg_not_lt (a : fnum) : nonneg a -> flt a zero = false.
Proof. destruct a as [q|]; simpl; [|tauto]. apply Qc_ltb_ge. Qed.

Lemma nonneg_fadd (a b : fnum) : nonneg a -> nonneg b -> nonneg (fadd a b).
Proof.
  destruct a as [x|], b as [y|]; simpl; try tauto. intros Hx Hy.
  replace 0 with (0 + 0) by ring. by apply Qcplus_le_compat.
Qed.

Lemma Qcdiv_nonneg (x y : Qc) : 0 <= x -> 0 < y -> 0 <= x / y.
Proof.
  intros Hx Hy. unfold Qcdiv.
  replace 0 with (0 * / y) by ring.
  apply Qcmult_le_compat_r; [exact Hx|].
  apply Qclt_le_weak.
  destruct (Qclt_le_dec 0 (/ y)) as [H|H]; [exact H|exfalso].
  assert (Hone : y * / y = 1).
  { apply Qcmult_inv_r. by apply Qc_pos_neq0. }
  assert (Hle : y * / y <= 0).
  { replace 0 with (y * 0) by ring. rewrite !(Qcmult_comm y).
    apply Qcmult_le_compat_r; [exact H|]. by apply Qclt_le_weak. }
  rewrite Hone in Hle. revert Hle. by apply Qclt_not_le.
Qed.

Lemma shares_for_finite (amt price : fnum) :
  finite amt -> finite (shares_for amt price).
Proof.
  intros Ha. unfold shares_for. destruct (fgt price zero) eqn:Hp; [|exact I].
  apply fgt_zero_iff in Hp as (p & -> & Hp).
  destruct amt as [a|]; simpl in *; [|tauto].
  by rewrite Qc_eqb_pos.
Qed.

Lemma shares_for_nonneg (amt price : fnum) :
  nonneg amt -> nonneg (shares_for amt price).
Proof.
  intros Ha. unfold shares_for. destruct (fgt price zero) eqn:Hp.
  - apply fgt_zero_iff in Hp as (p & -> & Hp).
    destruct amt as [a|]; simpl in *; [|tauto].
    rewrite Qc_eqb_pos by done. simpl. by apply Qcdiv_nonneg.
  - apply nonneg_zero.
Qed.

Lemma nonneg_pymin (a b : fnum) : nonneg a -> nonneg b -> nonneg (pymin a b).
Proof. unfold pymin. by destruct (flt b a). Qed.

Lemma fmul_nan_r (a : fnum) : fmul a NaN = NaN.
Proof. by destruct a. Qed.

(** What a Withdrawal records is never a positive amount. *)
Lemma withdrawal_amount_not_positive (a p b : fnum) :
  nonneg a -> nonneg b ->
  fgt (fopp (fmul (pymin (shares_for a p) b) p)) zero = false.
Proof.
  intros Ha Hb.
  pose proof (nonneg_pymin _ _ (shares_for_nonneg a p Ha) Hb) as Hs.
  destruct p as [q|]; [|by rewrite fmul_nan_r].
  destruct (fgt (Fin q) zero) eqn:Hq.
  - apply fgt_zero_iff in Hq as (q' & [= <-] & Hq).
    destruct (pymin (shares_for a (Fin q)) b) as [s|]; simpl in *; [|done].
    unfold fgt, flt, zero. apply Qc_ltb_ge.
    replace (Q2Qc 0) with (- 0) by ring. apply Qcopp_le_compat.
    replace 0 with (0 * q) by ring.
    apply Qcmult_le_compat_r; [exact Hs|by apply Qclt_le_weak].
  - unfold shares_for. rewrite Hq. unfold pymin.
    rewrite (nonneg_not_lt _ Hb). unfold fgt, flt, zero. simpl.
    apply Qc_ltb_ge. replace (0 * q) with 0 by ring.
    replace (- 0) with 0 by ring. apply Qcle_refl.
Qed.

Lemma pymin_finite (a b : fnum) : finite a -> finite b -> finite (pymin a b).
Proof. unfold pymin. by destruct (flt b a). Qed.

(** Taking [min(shares, balance)] out of [balance] never goes below zero. *)
Lemma nonneg_fsub_pymin (s b : fnum) :
  finite s -> nonneg b -> nonneg (fsub b (pymin s b)).
Proof.
  destruct s as [x|], b as [y|]; simpl; try tauto. intros _ Hy.
  unfold pymin, flt. destruct (Qc_ltb y x) eqn:Hlt; simpl.
  - replace (y - y) with 0 by ring. apply Qcle_refl.
  - apply Qc_ltb_ge in Hlt. by apply -> Qcle_minus_iff.
Qed.

End Arith.

(** Equality of concrete numbers, decided by evaluation. *)
Ltac fnum_eq :=
  first [ apply feqb_eq; vm_compute; reflexivity
        | apply opt_feqb_eq; vm_compute; reflexivity
        | vm_compute; reflexivity ].

(** ** The initial balances (line 96) *)

Section Initial.

Lemma initial_balances_zero txs u v :
  initial_balances txs !! u = Some v -> v = zero.
Proof.
  induction txs as [|r txs IH]; simpl; [by rewrite lookup_empty|].
  destruct (String.eqb (User r) ""); [exact IH|].
  rewrite lookup_insert. case_decide; [congruence|exact IH].
Qed.

End Initial.

(** ** Invariants of the day loop *)

Section Invariants.

Lemma dict_get_finite (m : gmap string fnum) u :
  map_Forall (fun _ v => finite v) m -> finite (dict_get m u zero).
Proof.
  intros H. unfold dict_get. destruct (m !! u) as [v|] eqn:E; simpl; [|exact I].
  exact (H u v E).
Qed.

Lemma dict_get_nonneg (m : gmap string fnum) u :
  map_Forall (fun _ v => nonneg v) m -> nonneg (dict_get m u zero).
Proof.
  intros H. unfold dict_get. destruct (m !! u) as [v|] eqn:E; simpl.
  - exact (H u v E).
  - apply Qcle_refl.
Qed.

Lemma finite_fadd a b : finite a -> finite b -> finite (fadd a b).
Proof. by destruct a, b. Qed.

Lemma finite_fsub a b : finite a -> finite b -> finite (fsub a b).
Proof. by destruct a, b. Qed.

Lemma process_row_finite d p st row :
  finite (Amount row) -> state_finite st -> state_finite (process_row d p st row).
Proof.
  intros Ha [Ht Hb]. unfold process_row.
  pose proof (shares_for_finite _ p Ha) as Hs.
  pose proof (dict_get_finite _ (User row) Hb) as Hg.
  destruct (String.eqb (Ttype row) "Deposit"); [|destruct (String.eqb (Ttype row) "Withdrawal")].
  - split; simpl; [by apply finite_fadd|].
    apply map_Forall_insert_2; [by apply finite_fadd|exact Hb].
  - pose proof (pymin_finite _ _ Hs Hg) as Hm.
    split; simpl; [by apply finite_fsub|].
    apply map_Forall_insert_2; [by apply finite_fsub|exact Hb].
  - by split.
Qed.

Lemma process_row_nonneg d p st row :
  row_ok row -> balances_nonneg st -> balances_nonneg (process_row d p st row).
Proof.
  intros [Ha Hd] Hb. unfold process_row, balances_nonneg.
  pose proof (dict_get_nonneg _ (User row) Hb) as Hg.
  destruct (String.eqb (Ttype row) "Deposit") eqn:Ety;
    [|destruct (String.eqb (Ttype row) "Withdrawal")]; simpl.
  - apply String.eqb_eq in Ety.
    apply map_Forall_insert_2; [|exact Hb].
    apply nonneg_fadd; [exact Hg|]. by apply shares_for_nonneg, Hd.
  - apply map_Forall_insert_2; [|exact Hb].
    apply nonneg_fsub_pymin; [by apply shares_for_finite|exact Hg].
  - exact Hb.
Qed.

Lemma process_rows_finite d p rows st :
  Forall (fun r => finite (Amount r)) rows ->
  state_finite st -> state_finite (process_rows d p rows st).
Proof.
  unfold process_rows. intros Hrows. revert st.
  induction Hrows as [|row rows Ha _ IH]; intros st H; simpl; [exact H|].
  by apply IH, process_row_finite.
Qed.

Lemma process_rows_nonneg d p rows st :
  Forall row_ok rows -> balances_nonneg st -> balances_nonneg (process_rows d p rows st).
Proof.
  unfold process_rows. intros Hrows. revert st.
  induction Hrows as [|row rows Hr _ IH]; intros st H; simpl; [exact H|].
  by apply IH, process_row_nonneg.
Qed.

Lemma txs_today_Forall (P : Tx -> Prop) txs d :
  Forall P txs -> Forall P (txs_today txs d).
Proof.
  unfold txs_today. rewrite !Forall_forall. intros H r Hr.
  apply H. apply list_elem_of_In in Hr. apply list_elem_of_In.
  apply filter_In in Hr. tauto.
Qed.

Lemma process_day_finite txs nav st d :
  Forall (fun r => finite (Amount r)) txs -> state_finite st -> state_finite (process_day txs nav st d).
Proof.
  intros Htx H. unfold process_day, record_nav, state_finite. simpl.
  by apply process_rows_finite; [apply txs_today_Forall|].
Qed.

Lemma process_day_nonneg txs nav st d :
  Forall row_ok txs -> balances_nonneg st -> balances_nonneg (process_day txs nav st d).
Proof.
  intros Htx H. unfold process_day, record_nav, balances_nonneg. simpl.
  by apply process_rows_nonneg; [apply txs_today_Forall|].
Qed.

Lemma run_days_finite txs nav dates st :
  Forall (fun r => finite (Amount r)) txs -> state_finite st -> state_finite (run_days txs nav dates st).
Proof.
  unfold run_days. intros Htx. revert st.
  induction dates as [|d dates IH]; intros st H; simpl; [exact H|].
  by apply IH, process_day_finite.
Qed.

Lemma run_days_nonneg txs nav dates st :
  Forall row_ok txs -> balances_nonneg st -> balances_nonneg (run_days txs nav dates st).
Proof.
  unfold run_days. intros Htx. revert st.
  induction dates as [|d dates IH]; intros st H; simpl; [exact H|].
  by apply IH, process_day_nonneg.
Qed.

Lemma initial_state_finite txs : state_finite (initial_state txs).
Proof.
  split; simpl; [exact I|]. intros u v E.
  apply initial_balances_zero in E. by subst v.
Qed.

Lemma initial_state_nonneg txs : balances_nonneg (initial_state txs).
Proof.
  intros u v E. simpl in E. apply initial_balances_zero in E. subst v.
  apply nonneg_zero.
Qed.

(** Line 88 leaves only numbers in the Amount column. *)
Lemma coerce_amounts_finite txs :
  Forall (fun r => finite (Amount r)) (coerce_amounts txs).
Proof.
  unfold coerce_amounts. apply Forall_map, Forall_true.
  intros r. simpl. by destruct (Amount r).
Qed.

Lemma coerce_amounts_ok txs :
  (forall r, r ∈ txs -> Ttype r = "Deposit" -> flt (Amount r) zero = false) ->
  Forall row_ok (coerce_amounts txs).
Proof.
  intros H. unfold coerce_amounts. apply Forall_map, Forall_forall.
  intros r Hr. split; simpl.
  - by destruct (Amount r).
  - intros Hty. specialize (H r Hr Hty).
    destruct (Amount r) as [q|]; simpl in *.
    + by apply Qc_ltb_ge.
    + apply Qcle_refl.
Qed.

Lemma no_negative_deposit_ok txs :
  no_negative_deposit txs = true -> Forall row_ok (coerce_amounts txs).
Proof.
  intros H. apply coerce_amounts_ok. intros r Hr Hty.
  unfold no_negative_deposit in H. rewrite forallb_forall in H.
  apply list_elem_of_In in Hr. specialize (H r Hr).
  apply String.eqb_eq in Hty. rewrite Hty in H. simpl in H.
  by apply negb_true_iff in H.
Qed.

Lemma no_negative_amount_deposit txs :
  no_negative_amount txs = true -> no_negative_deposit txs = true.
Proof.
  unfold no_negative_amount, no_negative_deposit.
  rewrite !forallb_forall. intros H r Hr. specialize (H r Hr).
  apply negb_true_iff in H. rewrite H. by rewrite andb_false_r.
Qed.

Lemma no_negative_amount_nonneg txs :
  no_negative_amount txs = true ->
  Forall (fun r => nonneg (Amount r)) (coerce_amounts txs).
Proof.
  unfold no_negative_amount. rewrite forallb_forall. intros H.
  unfold coerce_amounts. apply Forall_map, Forall_forall. intros r Hr.
  apply list_elem_of_In in Hr. specialize (H r Hr).
  apply negb_true_iff in H. simpl.
  destruct (Amount r) as [q|]; simpl in *.
  - by apply Qc_ltb_ge.
  - apply Qcle_refl.
Qed.

Lemma state_after_days_finite txs nav k :
  Forall (fun r => finite (Amount r)) txs -> state_finite (state_after_days txs nav k).
Proof. intros H. apply run_days_finite; [exact H|apply initial_state_finite]. Qed.

Lemma state_after_days_nonneg txs nav k :
  Forall row_ok txs -> balances_nonneg (state_after_days txs nav k).
Proof. intros H. apply run_days_nonneg; [exact H|apply initial_state_nonneg]. Qed.

Lemma state_at_nonneg txs nav k j :
  Forall row_ok txs -> balances_nonneg (state_at txs nav k j).
Proof.
  intros H. unfold state_at.
  destruct (all_dates_of txs nav !! k) as [d|].
  - apply process_rows_nonneg; [|by apply state_after_days_nonneg].
    apply Forall_take. by apply txs_today_Forall.
  - by apply state_after_days_nonneg.
Qed.

End Invariants.

(** ** Structure of the run *)

Section Run.
Context (txs : list Tx) (nav : gmap string fnum).

Lemma run_days_app dates1 dates2 st :
  run_days txs nav (dates1 ++ dates2) st =
  run_days txs nav dates2 (run_days txs nav dates1 st).
Proof. unfold run_days. apply fold_left_app. Qed.

Lemma process_rows_app d p rows1 rows2 st :
  process_rows d p (rows1 ++ rows2) st =
  process_rows d p rows2 (process_rows d p rows1 st).
Proof. unfold process_rows. apply fold_left_app. Qed.

Lemma state_after_days_S k d :
  all_dates_of txs nav !! k = Some d ->
  state_after_days txs nav (S k) = process_day txs nav (state_after_days txs nav k) d.
Proof.
  intros Hk. unfold state_after_days.
  rewrite (take_S_r _ _ _ Hk), run_days_app. reflexivity.
Qed.

Lemma state_at_S k d j row :
  all_dates_of txs nav !! k = Some d ->
  txs_today txs d !! j = Some row ->
  state_at txs nav k (S j) =
  process_row d (price_on_day txs nav k d) (state_at txs nav k j) row.
Proof.
  intros Hk Hj. unfold state_at. rewrite Hk.
  rewrite (take_S_r _ _ _ Hj), process_rows_app. reflexivity.
Qed.

End Run.

(** ** The ledger of one day *)

Section Ledger.

Lemma process_row_entry d p st row :
  share_ledger (process_row d p st row) =
  share_ledger st ++
    (if is_processed row
     then drop (length (share_ledger st)) (share_ledger (process_row d p st row))
     else []) /\
  (is_processed row = true ->
   exists e, new_entries st (process_row d p st row) = [e] /\
             priced_at d p e /\ lUser e = User row /\ lType e = Ttype row /\
             lShares e =
               (if String.eqb (Ttype row) "Deposit"
                then shares_for (Amount row) p
                else pymin (shares_for (Amount row) p)
                           (dict_get (user_share_balances st) (User row) zero)) /\
             (Ttype row = "Deposit" -> lAmount e = Amount row)).
Proof.
  unfold process_row, is_processed, new_entries, priced_at.
  destruct (String.eqb (Ttype row) "Deposit") eqn:Ed; simpl.
  - apply String.eqb_eq in Ed. rewrite drop_app_length. split; [done|].
    intros _. eexists. split; [reflexivity|]. simpl.
    rewrite Ed. repeat split; try done.
  - destruct (String.eqb (Ttype row) "Withdrawal") eqn:Ew; simpl.
    + apply String.eqb_eq in Ew. rewrite drop_app_length. split; [done|].
      intros _. eexists. split; [reflexivity|]. simpl.
      rewrite Ew. repeat split; try done.
    + split; [by rewrite app_nil_r|done].
Qed.

Lemma process_row_ledger d p st row :
  exists new,
    share_ledger (process_row d p st row) = share_ledger st ++ new /\
    Forall (priced_at d p) new /\
    map (fun e => (lUser e, lType e)) new =
    map (fun r => (User r, Ttype r)) (List.filter is_processed [row]).
Proof.
  destruct (process_row_entry d p st row) as [Hl He]. simpl.
  destruct (is_processed row) eqn:E.
  - destruct (He eq_refl) as (e & Hn & Hp & Hu & Ht & _).
    unfold new_entries in Hn. rewrite Hn in Hl.
    exists [e]. split; [exact Hl|]. split; [by constructor|].
    simpl. by rewrite Hu, Ht.
  - exists []. split; [exact Hl|]. by split.
Qed.

Lemma process_rows_ledger d p rows st :
  exists new,
    share_ledger (process_rows d p rows st) = share_ledger st ++ new /\
    Forall (priced_at d p) new /\
    map (fun e => (lUser e, lType e)) new =
    map (fun r => (User r, Ttype r)) (List.filter is_processed rows).
Proof.
  unfold process_rows. revert st.
  induction rows as [|row rows IH]; intros st; simpl.
  - exists []. by rewrite app_nil_r.
  - destruct (IH (process_row d p st row)) as (new2 & Hl2 & Hp2 & Hm2).
    destruct (process_row_ledger d p st row) as (new1 & Hl1 & Hp1 & Hm1).
    exists (new1 ++ new2). split; [|split].
    + rewrite Hl2, Hl1. by rewrite app_assoc.
    + by apply Forall_app.
    + rewrite map_app, Hm1, Hm2. simpl.
      by destruct (is_processed row).
Qed.

Lemma new_entries_app st st' new :
  share_ledger st' = share_ledger st ++ new -> new_entries st st' = new.
Proof. intros H. unfold new_entries. rewrite H. apply drop_app_length. Qed.

Lemma record_nav_ledger d n st : share_ledger (record_nav d n st) = share_ledger st.
Proof. reflexivity. Qed.

Lemma record_nav_total d n st : total_shares (record_nav d n st) = total_shares st.
Proof. reflexivity. Qed.

Lemma record_nav_lookup d n st :
  nav_per_share (record_nav d n st) !! d = Some (price_of n (total_shares st)).
Proof. unfold record_nav. simpl. apply lookup_insert_eq. Qed.

End Ledger.

(** ** Days whose price is not strictly positive *)

Section DeadPrice.
Local Open Scope Qc_scope.

Lemma shares_for_dead (a p : fnum) : fgt p zero = false -> shares_for a p = zero.
Proof. intros H. unfold shares_for. by rewrite H. Qed.

Lemma price_of_nan (total : fnum) : fgt total zero = true -> price_of NaN total = NaN.
Proof. intros H. unfold price_of. by rewrite H. Qed.

Lemma total_le_refl st : finite (total_shares st) -> total_le st st.
Proof. unfold total_le. destruct (total_shares st); [intros _; apply Qcle_refl|done]. Qed.

Lemma total_le_trans st1 st2 st3 : total_le st1 st2 -> total_le st2 st3 -> total_le st1 st3.
Proof.
  unfold total_le.
  destruct (total_shares st1), (total_shares st2), (total_shares st3); try done.
  apply Qcle_trans.
Qed.

Lemma total_le_pos st st' :
  total_le st st' -> fgt (total_shares st) zero = true -> fgt (total_shares st') zero = true.
Proof.
  unfold total_le. intros Hle Hpos. apply fgt_zero_iff in Hpos as (t & Ht & Hpos).
  rewrite Ht in Hle. destruct (total_shares st') as [t'|]; [|done].
  apply fgt_zero_iff. exists t'. split; [done|]. by apply Qclt_le_trans with t.
Qed.

(** At such a price a row never takes shares out of the fund. *)
Lemma process_row_dead_total d p st row :
  fgt p zero = false -> state_finite st -> total_le st (process_row d p st row).
Proof.
  intros Hp [Ht Hb]. unfold total_le, process_row.
  rewrite (shares_for_dead _ _ Hp).
  pose proof (dict_get_finite _ (User row) Hb) as Hg.
  destruct (total_shares st) as [t|] eqn:Et; [|done].
  destruct (String.eqb (Ttype row) "Deposit");
    [|destruct (String.eqb (Ttype row) "Withdrawal")]; simpl; rewrite ?Et; simpl.
  - rewrite Qcplus_0_r. apply Qcle_refl.
  - destruct (dict_get (user_share_balances st) (User row) zero) as [b|]; [|done].
    unfold pymin, flt, zero. destruct (Qc_ltb b (Q2Qc 0)) eqn:Hlt; simpl.
    + apply Qc_ltb_lt in Hlt. apply Qcle_minus_iff.
      replace (t - b + - t) with (- b) by ring.
      replace 0 with (- 0) by ring. by apply Qcopp_le_compat, Qclt_le_weak.
    + replace (t - Q2Qc 0) with t by ring. apply Qcle_refl.
  - apply Qcle_refl.
Qed.

Lemma process_rows_dead_total d p rows st :
  fgt p zero = false -> Forall (fun r => finite (Amount r)) rows ->
  state_finite st -> total_le st (process_rows d p rows st).
Proof.
  intros Hp Hrows. unfold process_rows. revert st.
  induction Hrows as [|row rows Ha _ IH]; intros st Hst; simpl.
  - apply total_le_refl, Hst.
  - eapply total_le_trans; [by apply process_row_dead_total|].
    by apply IH, process_row_finite.
Qed.

(** Two ways to a price that is not strictly positive: a NAV of 0 with
    shares outstanding, or no NAV at all. *)
Lemma unpriced_days (nav_history : gmap string fnum) (d : string) (total : fnum) :
  fgt total zero = true ->
  nav_history !! d = Some zero \/ nav_history !! d = None ->
  fgt (price_of (nav_on nav_history d) total) zero = false.
Proof.
  intros Hpos Hnav. unfold price_of, nav_on, dict_get. rewrite Hpos.
  apply fgt_zero_iff in Hpos as (t & -> & Ht).
  destruct Hnav as [-> | ->]; simpl; [|reflexivity].
  rewrite Qc_eqb_pos by exact Ht. unfold fgt, flt, zero.
  apply Qc_ltb_ge. unfold Qcdiv. rewrite Qcmult_0_l. apply Qcle_refl.
Qed.

End DeadPrice.

(** ** The coercion of the Amount column *)

Section Coercion.

Lemma fillna0_idem (a : fnum) : fillna0 (fillna0 a) = fillna0 a.
Proof. by destruct a. Qed.

Lemma coerce_amounts_idem txs : coerce_amounts (coerce_amounts txs) = coerce_amounts txs.
Proof.
  unfold coerce_amounts. rewrite map_map. apply map_ext.
  intros r. simpl. by rewrite fillna0_idem.
Qed.

Lemma coerce_amounts_app l1 l2 :
  coerce_amounts (l1 ++ l2) = coerce_amounts l1 ++ coerce_amounts l2.
Proof. apply map_app. Qed.

Lemma recalculate_fund_table txs nav wf pf :
  snd (recalculate_fund txs nav wf pf) = coerce_amounts txs.
Proof.
  unfold recalculate_fund.
  by destruct (all_dates_of (coerce_amounts txs) nav).
Qed.

Lemma recalculate_fund_coerced txs nav wf pf :
  recalculate_fund (coerce_amounts txs) nav wf pf = recalculate_fund txs nav wf pf.
Proof. unfold recalculate_fund. by rewrite coerce_amounts_idem. Qed.

(** The table of the caller: what line 88 leaves in it. *)
Lemma numeric_rows_float_table parse rows :
  numeric_rows parse (float_table rows) = rows.
Proof.
  unfold numeric_rows, float_table.
  induction rows as [|r rows IH]; simpl; [done|].
  rewrite IH. by destruct r.
Qed.

Lemma recalculate_fund_on_table parse table nav wf pf :
  snd (recalculate_fund_on parse table nav wf pf) =
  float_table (coerce_amounts (numeric_rows parse table)).
Proof. unfold recalculate_fund_on. simpl. by rewrite recalculate_fund_table. Qed.

Lemma left_cell_is_number parse c :
  is_number (CNum (fillna0 (to_numeric parse c))).
Proof. simpl. by destruct (to_numeric parse c). Qed.

Lemma left_table_id_iff parse table :
  float_table (coerce_amounts (numeric_rows parse table)) = table <->
  Forall (fun t => is_number (rAmount t)) table.
Proof.
  unfold float_table, coerce_amounts, numeric_rows. rewrite !map_map. simpl.
  induction table as [|t table IH]; simpl.
  - split; [constructor|done].
  - split.
    + intros [= Ht Hrest]. constructor; [|by apply IH].
      rewrite <- Ht. simpl. apply left_cell_is_number.
    + intros H. inversion H as [|? ? Ht Hrest]; subst.
      f_equal; [|by apply IH].
      destruct t as [dt us ty [[x|]|str]]; simpl in *; done.
Qed.

End Coercion.

(** ** Group sums *)

Section GroupSum.

Lemma user_sum_app ty u rows1 rows2 acc :
  user_sum ty u (rows1 ++ rows2) acc = user_sum ty u rows2 (user_sum ty u rows1 acc).
Proof. unfold user_sum. apply fold_left_app. Qed.

Lemma group_fold_get ty u rows m :
  dict_get (fold_left (group_step ty) rows m) u zero =
  user_sum ty u rows (dict_get m u zero).
Proof.
  unfold user_sum. revert m.
  induction rows as [|r rows IH]; intros m; simpl; [reflexivity|].
  rewrite IH. f_equal. unfold group_step.
  destruct (String.eqb (Ttype r) ty); simpl; [|reflexivity].
  unfold dict_get at 1. rewrite lookup_insert.
  destruct (String.eqb (User r) u) eqn:Eu.
  - apply String.eqb_eq in Eu. subst u. by rewrite decide_True.
  - apply String.eqb_neq in Eu. by rewrite decide_False.
Qed.

Lemma group_sum_get ty u rows :
  dict_get (group_sum ty rows) u zero = user_sum ty u rows zero.
Proof.
  unfold group_sum. rewrite group_fold_get. unfold dict_get.
  by rewrite lookup_empty.
Qed.

(** A row of another type does not enter the sums. *)
Lemma group_sum_other_type ty l1 r r0 l2 :
  String.eqb (Ttype r) ty = false -> String.eqb (Ttype r0) ty = false ->
  group_sum ty (l1 ++ r :: l2) = group_sum ty (l1 ++ r0 :: l2).
Proof.
  intros Hr Hr0. unfold group_sum. rewrite !fold_left_app. simpl.
  assert (Hs : forall m, group_step ty m r = group_step ty m r0).
  { intros m. unfold group_step. by rewrite Hr, Hr0. }
  by rewrite Hs.
Qed.

Lemma user_sum_amounts ty u rows acc :
  user_sum ty u rows acc = fold_left add_skipna (amounts_of ty u rows) acc.
Proof.
  unfold user_sum, amounts_of. revert acc.
  induction rows as [|r rows IH]; intros acc; simpl; [reflexivity|].
  destruct (String.eqb (Ttype r) ty && String.eqb (User r) u); simpl; apply IH.
Qed.

Lemma group_sum_amounts ty u rows :
  dict_get (group_sum ty rows) u zero = sum_skipna (amounts_of ty u rows).
Proof. rewrite group_sum_get. apply user_sum_amounts. Qed.

Lemma amounts_of_app ty u l1 l2 :
  amounts_of ty u (l1 ++ l2) = amounts_of ty u l1 ++ amounts_of ty u l2.
Proof. unfold amounts_of. by rewrite List.filter_app, map_app. Qed.

Lemma amounts_of_no_rows ty u rows :
  Forall (fun r => User r <> u) rows -> amounts_of ty u rows = [].
Proof.
  unfold amounts_of. intros H.
  induction H as [|r rows Hr _ IH]; simpl; [reflexivity|].
  apply String.eqb_neq in Hr. by rewrite Hr, andb_false_r.
Qed.

(** A user without rows adds nothing to a running sum. *)
Lemma user_sum_no_rows ty u rows acc :
  Forall (fun r => User r <> u) rows -> user_sum ty u rows acc = acc.
Proof.
  unfold user_sum. intros H. revert acc.
  induction H as [|r rows Hr _ IH]; intros acc; simpl; [reflexivity|].
  apply String.eqb_neq in Hr. rewrite Hr, andb_false_r. apply IH.
Qed.

Lemma withdrawal_sum_get u rows :
  dict_get (fopp <$> group_sum "Withdrawal" rows) u zero =
  fopp (user_sum "Withdrawal" u rows zero).
Proof.
  rewrite <- group_sum_get. unfold dict_get. rewrite lookup_fmap.
  destruct (group_sum "Withdrawal" rows !! u); reflexivity.
Qed.

End GroupSum.

(** ** The dates of the simulation (line 90) *)

Section Dates.
Context (txs : list Tx) (nav : gmap string fnum).

#[local] Instance date_le_total : Total date_le.
Proof. intros a b. apply String.leb_total. Qed.

(** [all_dates] holds each date once ... *)
Lemma all_dates_NoDup : NoDup (all_dates_of txs nav).
Proof.
  unfold all_dates_of, sorted_set. rewrite merge_sort_Permutation.
  apply NoDup_remove_dups.
Qed.

(** ... in ascending order ... *)
Lemma all_dates_sorted : Sorted date_le (all_dates_of txs nav).
Proof. unfold all_dates_of, sorted_set. apply Sorted_merge_sort, _. Qed.

(** ... and they are the dates with a NAV entry or a transaction. *)
Lemma elem_of_all_dates d :
  d ∈ all_dates_of txs nav <-> is_Some (nav !! d) \/ d ∈ map Date txs.
Proof.
  unfold all_dates_of, sorted_set.
  rewrite merge_sort_Permutation, elem_of_remove_dups, elem_of_app.
  apply or_iff_compat_r. rewrite list_elem_of_fmap. split.
  - intros ([d' v] & -> & Hin). apply elem_of_map_to_list in Hin. by exists v.
  - intros [v Hv]. exists (d, v). split; [done|]. by apply elem_of_map_to_list.
Qed.

End Dates.

(** ** Two tables that differ in the amount of one unpriced Deposit *)

Section Zeroing.
Context (nav : gmap string fnum) (c1 c2 : list Tx) (row row0 : Tx).
Context (Hty : Ttype row = "Deposit") (Hty0 : Ttype row0 = "Deposit").
Context (Huser : User row0 = User row) (Hdate : Date row0 = Date row).

Let T : list Tx := c1 ++ row :: c2.
Let T0 : list Tx := c1 ++ row0 :: c2.

Lemma zeroing_dates : all_dates_of T0 nav = all_dates_of T nav.
Proof.
  unfold all_dates_of, T, T0. rewrite !map_app. simpl. by rewrite Hdate.
Qed.

Lemma zeroing_initial : initial_state T0 = initial_state T.
Proof.
  unfold initial_state, initial_balances, T, T0. f_equal.
  rewrite !foldr_app. simpl. by rewrite Huser.
Qed.

Lemma txs_today_middle d' :
  txs_today T d' =
    txs_today c1 d' ++ (if String.eqb (Date row) d' then [row] else []) ++ txs_today c2 d' /\
  txs_today T0 d' =
    txs_today c1 d' ++ (if String.eqb (Date row) d' then [row0] else []) ++ txs_today c2 d'.
Proof.
  unfold txs_today, T, T0. rewrite !List.filter_app. simpl. rewrite Hdate.
  by destruct (String.eqb (Date row) d').
Qed.

Lemma process_row_same d p st st0 r :
  same_shares st st0 ->
  same_shares (process_row d p st r) (process_row d p st0 r).
Proof.
  intros (Ht & Hb & Hn). unfold process_row, same_shares.
  destruct (String.eqb (Ttype r) "Deposit");
    [|destruct (String.eqb (Ttype r) "Withdrawal")]; simpl;
    rewrite ?Ht, ?Hb, ?Hn; done.
Qed.

Lemma process_rows_same d p rows st st0 :
  same_shares st st0 ->
  same_shares (process_rows d p rows st) (process_rows d p rows st0).
Proof.
  unfold process_rows. revert st st0.
  induction rows as [|r rows IH]; intros st st0 H; simpl; [exact H|].
  by apply IH, process_row_same.
Qed.

(** At a price that is not strictly positive the amount of a Deposit has
    no effect on the share state. *)
Lemma process_row_dead_deposit d p st st0 :
  fgt p zero = false -> same_shares st st0 ->
  same_shares (process_row d p st row) (process_row d p st0 row0).
Proof.
  intros Hp (Ht & Hb & Hn). unfold process_row, same_shares.
  rewrite Hty, Hty0. simpl. rewrite !(shares_for_dead _ _ Hp).
  by rewrite Ht, Hb, Hn, Huser.
Qed.

Lemma record_nav_same d n st st0 :
  same_shares st st0 -> same_shares (record_nav d n st) (record_nav d n st0).
Proof.
  intros (Ht & Hb & Hn). unfold same_shares, record_nav. simpl.
  by rewrite Ht, Hb, Hn.
Qed.

Lemma process_day_same_other st st0 d' :
  d' <> Date row -> same_shares st st0 ->
  same_shares (process_day T nav st d') (process_day T0 nav st0 d').
Proof.
  intros Hd H. unfold process_day.
  destruct (txs_today_middle d') as [-> ->].
  assert (E : String.eqb (Date row) d' = false) by (apply String.eqb_neq; congruence).
  rewrite E. pose proof H as (Ht & _ & _). rewrite Ht.
  by apply record_nav_same, process_rows_same.
Qed.

Lemma process_day_same_dead st st0 :
  fgt (price_of (nav_on nav (Date row)) (total_shares st)) zero = false ->
  same_shares st st0 ->
  same_shares (process_day T nav st (Date row)) (process_day T0 nav st0 (Date row)).
Proof.
  intros Hp H. unfold process_day.
  destruct (txs_today_middle (Date row)) as [-> ->].
  rewrite String.eqb_refl.
  pose proof H as (Ht & Hb & Hn). rewrite <- Ht.
  set (p := price_of (nav_on nav (Date row)) (total_shares st)) in *.
  rewrite !process_rows_app. simpl.
  assert (H1 : same_shares (process_rows (Date row) p (txs_today c1 (Date row)) st)
                           (process_rows (Date row) p (txs_today c1 (Date row)) st0))
    by by apply process_rows_same.
  pose proof (process_row_dead_deposit (Date row) p _ _ Hp H1) as H2.
  apply record_nav_same.
  apply (process_rows_same (Date row) p (txs_today c2 (Date row)) _ _ H2).
Qed.

Lemma run_days_same_other dates st st0 :
  Date row ∉ dates -> same_shares st st0 ->
  same_shares (run_days T nav dates st) (run_days T0 nav dates st0).
Proof.
  unfold run_days. revert st st0.
  induction dates as [|d' dates IH]; intros st st0 Hnot H; simpl; [exact H|].
  apply not_elem_of_cons in Hnot as [Hne Hnot].
  apply IH; [exact Hnot|]. apply process_day_same_other; [congruence|exact H].
Qed.

Lemma same_shares_refl st : same_shares st st.
Proof. by repeat split. Qed.

Lemma state_after_days_same k k' :
  all_dates_of T nav !! k = Some (Date row) ->
  fgt (price_on_day T nav k (Date row)) zero = false ->
  same_shares (state_after_days T nav k') (state_after_days T0 nav k').
Proof.
  intros Hk Hp. unfold state_after_days. rewrite zeroing_dates, zeroing_initial.
  pose proof (all_dates_NoDup T nav) as Hnd.
  rewrite <- (take_drop_middle _ _ _ Hk) in Hnd.
  apply NoDup_app in Hnd as (_ & Hpre & Hpost).
  apply NoDup_cons in Hpost as [Hpost _].
  assert (Hpre' : Date row ∉ take k (all_dates_of T nav)).
  { intros Hin. apply (Hpre _ Hin). by left. }
  destruct (decide (k' <= k)%nat) as [Hle|Hgt].
  - apply run_days_same_other; [|apply same_shares_refl].
    intros Hin. apply Hpre'. rewrite <- (take_drop k' (take k _)).
    apply elem_of_app. left. rewrite take_take. by rewrite Nat.min_l.
  - assert (Hsplit : take k' (all_dates_of T nav) =
                     take k (all_dates_of T nav) ++ Date row ::
                       take (k' - S k) (drop (S k) (all_dates_of T nav))).
    { replace k' with (k + S (k' - S k))%nat at 1 by lia.
      rewrite <- take_take_drop. by rewrite (drop_S _ _ _ Hk). }
    rewrite Hsplit, !run_days_app. simpl.
    apply run_days_same_other.
    { intros Hin. apply Hpost. apply elem_of_take in Hin as (i & Hi & _).
      apply list_elem_of_lookup. by exists i. }
    apply process_day_same_dead; [exact Hp|].
    apply run_days_same_other; [exact Hpre'|apply same_shares_refl].
Qed.

End Zeroing.

(** ** Users of the balance dict, and the outputs *)

Section Keys.
Context (txs : list Tx) (nav : gmap string fnum).

Lemma process_row_keys d p st r u :
  is_Some (user_share_balances st !! u) ->
  is_Some (user_share_balances (process_row d p st r) !! u).
Proof.
  intros H. unfold process_row.
  destruct (String.eqb (Ttype r) "Deposit");
    [|destruct (String.eqb (Ttype r) "Withdrawal")]; simpl; try exact H;
    rewrite lookup_insert; case_decide; eauto.
Qed.

Lemma process_row_deposit_key d p st r :
  Ttype r = "Deposit" ->
  is_Some (user_share_balances (process_row d p st r) !! User r).
Proof.
  intros Hd. unfold process_row. rewrite Hd. simpl.
  rewrite lookup_insert_eq. eauto.
Qed.

Lemma process_rows_keys d p rows st u :
  is_Some (user_share_balances st !! u) ->
  is_Some (user_share_balances (process_rows d p rows st) !! u).
Proof.
  unfold process_rows. revert st.
  induction rows as [|r rows IH]; intros st H; simpl; [exact H|].
  by apply IH, process_row_keys.
Qed.

Lemma process_day_keys st d u :
  is_Some (user_share_balances st !! u) ->
  is_Some (user_share_balances (process_day txs nav st d) !! u).
Proof. intros H. unfold process_day, record_nav. simpl. by apply process_rows_keys. Qed.

Lemma run_days_keys dates st u :
  is_Some (user_share_balances st !! u) ->
  is_Some (user_share_balances (run_days txs nav dates st) !! u).
Proof.
  unfold run_days. revert st.
  induction dates as [|d dates IH]; intros st H; simpl; [exact H|].
  by apply IH, process_day_keys.
Qed.

(** A Deposit row of the table puts its user among the final balances. *)
Lemma deposit_user_key k r :
  all_dates_of txs nav !! k = Some (Date r) ->
  r ∈ txs -> Ttype r = "Deposit" ->
  is_Some (user_share_balances
             (state_after_days txs nav (length (all_dates_of txs nav))) !! User r).
Proof.
  intros Hk Hin Hd. unfold state_after_days. rewrite take_ge by done.
  rewrite <- (take_drop_middle _ _ _ Hk), run_days_app. simpl.
  apply run_days_keys. unfold process_day at 1.
  set (st := run_days txs nav (take k (all_dates_of txs nav)) (initial_state txs)).
  set (p := price_of (nav_on nav (Date r)) (total_shares st)).
  assert (Hr : r ∈ txs_today txs (Date r)).
  { unfold txs_today. apply list_elem_of_In, filter_In. split.
    - by apply list_elem_of_In.
    - apply String.eqb_refl. }
  apply list_elem_of_split in Hr as (f1 & f2 & ->).
  unfold record_nav. simpl. rewrite process_rows_app.
  change (process_rows (Date r) p (r :: f2) ?s)
    with (process_rows (Date r) p f2 (process_row (Date r) p s r)).
  by apply process_rows_keys, process_row_deposit_key.
Qed.

Lemma recalculate_fund_outputs raw wf pf k d :
  all_dates_of (coerce_amounts raw) nav !! k = Some d ->
  fst (recalculate_fund raw nav wf pf) =
  settle (coerce_amounts raw) (all_dates_of (coerce_amounts raw) nav) wf pf
         (state_after_days (coerce_amounts raw) nav
                           (length (all_dates_of (coerce_amounts raw) nav))).
Proof.
  intros Hk. unfold recalculate_fund, state_after_days. rewrite take_ge by done.
  by destruct (all_dates_of (coerce_amounts raw) nav).
Qed.

(** Line 130 as it computes: with the Withdrawal amounts stored positive
    and their sum negated on line 129, the withdrawals are subtracted. *)
Lemma profit_as_computed raw wf pf u v :
  out_user_value (fst (recalculate_fund raw nav wf pf)) !! u = Some v ->
  out_profit (fst (recalculate_fund raw nav wf pf)) !! u =
    Some (fsub (fsub v (user_sum "Deposit" u (coerce_amounts raw) zero))
               (user_sum "Withdrawal" u (coerce_amounts raw) zero)).
Proof.
  unfold recalculate_fund.
  destruct (all_dates_of (coerce_amounts raw) nav) as [|d0 dates];
    simpl; [by rewrite lookup_empty|].
  intros Hv. rewrite map_lookup_imap, Hv. simpl. f_equal.
  unfold profit_of. rewrite group_sum_get.
  assert (Hw : dict_get (fopp <$> group_sum "Withdrawal" (coerce_amounts raw)) u zero
               = fopp (user_sum "Withdrawal" u (coerce_amounts raw) zero)).
  { rewrite <- group_sum_get. unfold dict_get. rewrite lookup_fmap.
    destruct (group_sum "Withdrawal" (coerce_amounts raw) !! u); reflexivity. }
  rewrite Hw.
  destruct v, (user_sum "Deposit" u (coerce_amounts raw) zero),
    (user_sum "Withdrawal" u (coerce_amounts raw) zero); reflexivity.
Qed.

End Keys.

(** ** The binary64 run: the ledger, the totals and the balances *)

Section Binary64.
Context (txs : list B64.Tx) (nav : gmap string PrimFloat.float).








Lemma b64_initial_balances_zero u v :
  B64.initial_balances txs !! u = Some v -> v = B64.zero.
Proof.
  induction txs as [|r l IH]; simpl; [by rewrite lookup_empty|].
  destruct (String.eqb (B64.User r) ""); [exact IH|].
  rewrite lookup_insert. case_decide; [congruence|exact IH].
Qed.








End Binary64.

(** ** Signs in binary64 *)

(** The sign of a sum, a product, a quotient and a difference, read on
    the IEEE 754 specification of the operations. *)

Section FloatSigns.
Import SpecFloat FloatOps.
Local Open Scope Z_scope.

Lemma sf_ltb_zero s : SFltb s (S754_zero false) = false <-> B64.sf_not_negative s.
Proof. destruct s as [[]|[]| |[] m e]; simpl; unfold SFltb; simpl; intuition congruence. Qed.

Lemma sf_gt_zero s : SFltb (S754_zero false) s = true <-> B64.sf_positive s.
Proof. destruct s as [[]|[]| |[] m e]; simpl; unfold SFltb; simpl; intuition congruence. Qed.

Lemma sf_round_aux_nn m e l : B64.sf_not_negative (binary_round_aux prec emax false m e l).
Proof.
  unfold binary_round_aux.
  destruct (shr_fexp prec emax m e l) as [a b].
  destruct (shr_fexp prec emax _ b loc_Exact) as [c d].
  destruct (shr_m c); [exact I| |exact I].
  destruct (Z.leb d (Z.sub emax prec)); exact I.
Qed.

Lemma sf_round_nn m e : B64.sf_not_negative (binary_round prec emax false m e).
Proof.
  unfold binary_round. destruct (shl_align _ _ _) as [mz ez]. apply sf_round_aux_nn.
Qed.

Lemma sf_normalize_nn z e : 0 <= z -> B64.sf_not_negative (binary_normalize prec emax z e false).
Proof.
  intros H. destruct z as [|p|p]; simpl; [exact I|apply sf_round_nn|lia].
Qed.

Lemma sf_add_nn x y : B64.sf_not_negative x -> B64.sf_not_negative y -> B64.sf_not_negative (SFadd prec emax x y).
Proof.
  destruct x as [[]|[]| |[] mx ex], y as [[]|[]| |[] my ey]; simpl; try tauto.
  intros _ _. apply sf_round_nn.
Qed.

Lemma sf_mul_nn x y : B64.sf_not_negative x -> B64.sf_not_negative y -> B64.sf_not_negative (SFmul prec emax x y).
Proof.
  destruct x as [[]|[]| |[] mx ex], y as [[]|[]| |[] my ey]; simpl; try tauto.
  intros _ _. apply sf_round_aux_nn.
Qed.

Lemma sf_div_nn x y : B64.sf_not_negative x -> B64.sf_positive y -> B64.sf_not_negative (SFdiv prec emax x y).
Proof.
  destruct x as [[]|[]| |[] mx ex], y as [[]|[]| |[] my ey]; simpl; try tauto.
  intros _ _.
  destruct (SFdiv_core_binary prec emax (Zpos mx) ex (Zpos my) ey) as [[mz ez] lz].
  apply sf_round_aux_nn.
Qed.

Lemma digits2_pos_bounds m :
  2 ^ (Zpos (digits2_pos m) - 1) <= Zpos m < 2 ^ Zpos (digits2_pos m).
Proof.
  induction m as [m IH|m IH|]; simpl digits2_pos.
  - rewrite Pos2Z.inj_succ.
    replace (Z.succ (Zpos (digits2_pos m)) - 1) with (Z.succ (Zpos (digits2_pos m) - 1)) by lia.
    rewrite !Z.pow_succ_r by lia. lia.
  - rewrite Pos2Z.inj_succ.
    replace (Z.succ (Zpos (digits2_pos m)) - 1) with (Z.succ (Zpos (digits2_pos m) - 1)) by lia.
    rewrite !Z.pow_succ_r by lia. lia.
  - simpl. lia.
Qed.

Lemma iter_xO_pow d m : Zpos (Pos.iter xO m d) = Zpos m * 2 ^ Zpos d.
Proof.
  induction d as [|d IH] using Pos.peano_ind.
  - simpl. lia.
  - rewrite Pos.iter_succ, Pos2Z.inj_succ, Z.pow_succ_r by lia.
    rewrite Pos2Z.inj_xO, IH. lia.
Qed.

Lemma shl_align_same m e : shl_align m e e = (m, e).
Proof. unfold shl_align. rewrite Z.sub_diag. reflexivity. Qed.

Lemma shl_align_lower m e e' :
  e' < e -> Zpos (fst (shl_align m e e')) = Zpos m * 2 ^ (e - e').
Proof.
  intros H. unfold shl_align.
  destruct (e' - e) as [|d|d] eqn:E; try lia.
  simpl fst. rewrite iter_xO_pow. f_equal. f_equal. lia.
Qed.

Lemma bounded_digits m e :
  bounded prec emax m e = true ->
  Z.max (Zpos (digits2_pos m) + e - 53) (-1074) = e.
Proof.
  unfold bounded, canonical_mantissa, fexp, emin, prec, emax.
  intros H. apply andb_prop in H as [H _]. apply Z.eqb_eq in H. exact H.
Qed.

(** [x - y] is not below zero when [x] is not and [x < y] is false: the
    aligned mantissa of [x] is at least that of [y]. *)
Lemma sf_sub_nn x y :
  valid_binary prec emax x = true -> valid_binary prec emax y = true ->
  B64.sf_not_negative x -> SFltb x y = false -> B64.sf_not_negative (SFsub prec emax x y).
Proof.
  destruct x as [[]|[]| |[] mx ex], y as [[]|[]| |[] my ey];
    unfold SFltb; simpl; try tauto; try congruence.
  - intros _ _ _ _. apply sf_round_nn.
  - intros Hx Hy _ Hlt.
    apply sf_normalize_nn.
    destruct (Z.compare_spec ex ey) as [E|E|E]; [| discriminate |].
    + subst ey. rewrite Z.min_id, !shl_align_same. simpl fst.
      change (PosDef.Pos.compare_cont Eq mx my) with (mx ?= my)%positive in Hlt.
      destruct (Pos.compare_spec mx my); try discriminate; lia.
    + rewrite Z.min_r by lia. rewrite shl_align_same. simpl fst.
      pose proof (shl_align_lower mx ex ey E) as ->.
      apply bounded_digits in Hx, Hy.
      pose proof (digits2_pos_bounds mx) as [Bx _].
      pose proof (digits2_pos_bounds my) as [_ By].
      assert (Dx : Zpos (digits2_pos mx) = 53) by lia.
      assert (Dy : Zpos (digits2_pos my) <= 53) by lia.
      rewrite Dx in Bx.
      assert (P1 : 2 ^ 1 <= 2 ^ (ex - ey)) by (apply Z.pow_le_mono_r; lia).
      assert (P2 : 2 ^ Zpos (digits2_pos my) <= 2 ^ 53) by (apply Z.pow_le_mono_r; lia).
      change (2 ^ (53 - 1)) with 4503599627370496 in Bx.
      change (2 ^ 53) with 9007199254740992 in P2.
      change (2 ^ 1) with 2 in P1.
      nia.
Qed.

Lemma sf_sub_diag x y :
  B64.sf_not_negative x -> SFltb x y = true -> SFsub prec emax x x = S754_zero false.
Proof.
  intros Hx Hy.
  destruct x as [[]|[]| |[] mx ex]; simpl in *; try tauto; try reflexivity.
  - destruct y as [[]|[]| |[] my ey]; discriminate.
  - destruct y as [[]|[]| |[] my ey]; discriminate.
  - rewrite Z.sub_diag. reflexivity.
Qed.

End FloatSigns.

(** The same facts on the floats of the engine. *)

Section Binary64Signs.
Import FloatOps FloatAxioms.

Lemma b64_zero_repr : Prim2SF B64.zero = SpecFloat.S754_zero false.
Proof. vm_compute. reflexivity. Qed.

Lemma b64_nn_iff x : B64.flt x B64.zero = false <-> B64.sf_not_negative (Prim2SF x).
Proof. unfold B64.flt. rewrite ltb_spec, b64_zero_repr. apply sf_ltb_zero. Qed.

Lemma b64_pos_iff x : B64.fgt x B64.zero = true <-> B64.sf_positive (Prim2SF x).
Proof. unfold B64.fgt, B64.flt. rewrite ltb_spec, b64_zero_repr. apply sf_gt_zero. Qed.

Lemma b64_zero_nn : B64.flt B64.zero B64.zero = false.
Proof. vm_compute. reflexivity. Qed.

Lemma b64_one_nn : B64.flt B64.one B64.zero = false.
Proof. vm_compute. reflexivity. Qed.

Lemma b64_fadd_nn a b :
  B64.flt a B64.zero = false -> B64.flt b B64.zero = false ->
  B64.flt (B64.fadd a b) B64.zero = false.
Proof.
  rewrite !b64_nn_iff. unfold B64.fadd. rewrite add_spec. apply sf_add_nn.
Qed.

Lemma b64_fmul_nn a b :
  B64.flt a B64.zero = false -> B64.flt b B64.zero = false ->
  B64.flt (B64.fmul a b) B64.zero = false.
Proof.
  rewrite !b64_nn_iff. unfold B64.fmul. rewrite mul_spec. apply sf_mul_nn.
Qed.

Lemma b64_fdiv_nn a p :
  B64.flt a B64.zero = false -> B64.fgt p B64.zero = true ->
  B64.flt (B64.fdiv a p) B64.zero = false.
Proof.
  rewrite !b64_nn_iff, b64_pos_iff. unfold B64.fdiv. rewrite div_spec. apply sf_div_nn.
Qed.

Lemma b64_fsub_nn b s :
  B64.flt b B64.zero = false -> B64.flt b s = false ->
  B64.flt (B64.fsub b s) B64.zero = false.
Proof.
  rewrite !b64_nn_iff. unfold B64.fsub, B64.flt. rewrite sub_spec, ltb_spec.
  apply sf_sub_nn; apply Prim2SF_valid.
Qed.

Lemma b64_fsub_diag b s :
  B64.flt b B64.zero = false -> B64.flt b s = true -> B64.fsub b b = B64.zero.
Proof.
  rewrite b64_nn_iff. unfold B64.flt, B64.fsub. rewrite ltb_spec. intros Hb Hs.
  apply Prim2SF_inj. rewrite sub_spec, b64_zero_repr.
  by apply (sf_sub_diag _ (Prim2SF s)).
Qed.

End Binary64Signs.

(** ** The binary64 run: no balance below zero *)

Section Binary64Invariants.
Context (txs : list B64.Tx) (nav : gmap string PrimFloat.float).

Lemma b64_dict_get_nn (m : gmap string PrimFloat.float) u :
  map_Forall (fun _ v => B64.flt v B64.zero = false) m ->
  B64.flt (B64.dict_get m u B64.zero) B64.zero = false.
Proof.
  intros H. unfold B64.dict_get. destruct (m !! u) as [v|] eqn:E; simpl.
  - exact (H u v E).
  - exact b64_zero_nn.
Qed.

Lemma b64_shares_for_nn a p :
  B64.flt a B64.zero = false -> B64.flt (B64.shares_for a p) B64.zero = false.
Proof.
  intros Ha. unfold B64.shares_for. destruct (B64.fgt p B64.zero) eqn:E.
  - by apply b64_fdiv_nn.
  - exact b64_zero_nn.
Qed.

Lemma b64_price_of_nn n total :
  B64.flt n B64.zero = false -> B64.flt (B64.price_of n total) B64.zero = false.
Proof.
  intros Hn. unfold B64.price_of. destruct (B64.fgt total B64.zero) eqn:E.
  - by apply b64_fdiv_nn.
  - exact b64_one_nn.
Qed.

(** Line 112 takes [min(shares, balance)] from the balance: the balance
    itself when it is below the shares asked for, which leaves [0.0],
    and otherwise an amount the balance is not below. *)
Lemma b64_fsub_pymin_nn s b :
  B64.flt b B64.zero = false ->
  B64.flt (B64.fsub b (B64.pymin s b)) B64.zero = false.
Proof.
  intros Hb. unfold B64.pymin. destruct (B64.flt b s) eqn:E.
  - rewrite (b64_fsub_diag b s Hb E). exact b64_zero_nn.
  - by apply b64_fsub_nn.
Qed.

Lemma b64_process_row_nn d p st row :
  B64.row_ok row -> B64.balances_nonneg st -> B64.balances_nonneg (B64.process_row d p st row).
Proof.
  intros Hd Hb. unfold B64.process_row, B64.balances_nonneg.
  pose proof (b64_dict_get_nn _ (B64.User row) Hb) as Hg.
  destruct (String.eqb (B64.Ttype row) "Deposit") eqn:Ety;
    [|destruct (String.eqb (B64.Ttype row) "Withdrawal")]; simpl.
  - apply String.eqb_eq in Ety.
    apply map_Forall_insert_2; [|exact Hb].
    apply b64_fadd_nn; [exact Hg|]. by apply b64_shares_for_nn, Hd.
  - apply map_Forall_insert_2; [|exact Hb].
    by apply b64_fsub_pymin_nn.
  - exact Hb.
Qed.

Lemma b64_process_rows_nn d p rows st :
  Forall B64.row_ok rows -> B64.balances_nonneg st ->
  B64.balances_nonneg (B64.process_rows d p rows st).
Proof.
  unfold B64.process_rows. intros Hrows. revert st.
  induction Hrows as [|row rows Hr _ IH]; intros st H; simpl; [exact H|].
  by apply IH, b64_process_row_nn.
Qed.

Lemma b64_txs_today_Forall (P : B64.Tx -> Prop) d :
  Forall P txs -> Forall P (B64.txs_today txs d).
Proof.
  unfold B64.txs_today. rewrite !Forall_forall. intros H r Hr.
  apply H. apply list_elem_of_In in Hr. apply list_elem_of_In.
  apply filter_In in Hr. tauto.
Qed.

Lemma b64_process_day_nn st d :
  Forall B64.row_ok txs -> B64.balances_nonneg st ->
  B64.balances_nonneg (B64.process_day txs nav st d).
Proof.
  intros Htx H. unfold B64.process_day, B64.record_nav, B64.balances_nonneg. simpl.
  by apply b64_process_rows_nn; [apply b64_txs_today_Forall|].
Qed.

Lemma b64_run_days_nn dates st :
  Forall B64.row_ok txs -> B64.balances_nonneg st ->
  B64.balances_nonneg (B64.run_days txs nav dates st).
Proof.
  unfold B64.run_days. intros Htx. revert st.
  induction dates as [|d dates IH]; intros st H; simpl; [exact H|].
  by apply IH, b64_process_day_nn.
Qed.

Lemma b64_initial_state_nn : B64.balances_nonneg (B64.initial_state txs).
Proof.
  intros u v E. simpl in E. apply b64_initial_balances_zero in E. subst v.
  exact b64_zero_nn.
Qed.

Lemma b64_state_after_days_nn k :
  Forall B64.row_ok txs -> B64.balances_nonneg (B64.state_after_days txs nav k).
Proof. intros H. apply b64_run_days_nn; [exact H|apply b64_initial_state_nn]. Qed.

Lemma b64_state_at_nn k j :
  Forall B64.row_ok txs -> B64.balances_nonneg (B64.state_at txs nav k j).
Proof.
  intros H. unfold B64.state_at.
  destruct (B64.all_dates_of txs nav !! k) as [d|].
  - apply b64_process_rows_nn; [|by apply b64_state_after_days_nn].
    apply Forall_take. by apply b64_txs_today_Forall.
  - by apply b64_state_after_days_nn.
Qed.

Lemma b64_state_at_S k d j row :
  B64.all_dates_of txs nav !! k = Some d ->
  B64.txs_today txs d !! j = Some row ->
  B64.state_at txs nav k (S j) =
  B64.process_row d (B64.price_on_day txs nav k d) (B64.state_at txs nav k j) row.
Proof.
  intros Hk Hj. unfold B64.state_at. rewrite Hk.
  rewrite (take_S_r _ _ _ Hj). unfold B64.process_rows.
  by rewrite fold_left_app.
Qed.

Lemma b64_run_days_last_nav pre d st :
  B64.nav_per_share (B64.run_days txs nav (pre ++ [d]) st) !! d =
    Some (B64.price_of (B64.nav_on nav d)
            (B64.total_shares (B64.run_days txs nav (pre ++ [d]) st))).
Proof.
  unfold B64.run_days. rewrite fold_left_app. simpl.
  unfold B64.process_day, B64.record_nav. simpl. apply lookup_insert_eq.
Qed.

End Binary64Invariants.

Section Binary64Coercion.

Lemma b64_fillna0_nn a :
  B64.flt a B64.zero = false -> B64.flt (B64.fillna0 a) B64.zero = false.
Proof.
  intros H. unfold B64.fillna0. destruct (PrimFloat.is_nan a); [exact b64_zero_nn|exact H].
Qed.

Lemma b64_no_negative_deposit_ok raw :
  B64.no_negative_deposit raw = true -> Forall B64.row_ok (B64.coerce_amounts raw).
Proof.
  intros H. unfold B64.coerce_amounts. apply Forall_map, Forall_forall.
  intros r Hr Hty. simpl in *.
  unfold B64.no_negative_deposit in H. rewrite forallb_forall in H.
  apply list_elem_of_In in Hr. specialize (H r Hr).
  apply String.eqb_eq in Hty. rewrite Hty in H. simpl in H.
  apply negb_true_iff in H. by apply b64_fillna0_nn.
Qed.

Lemma b64_all_dates_coerce raw (nav : gmap string PrimFloat.float) :
  B64.all_dates_of (B64.coerce_amounts raw) nav = B64.all_dates_of raw nav.
Proof.
  unfold B64.all_dates_of, B64.coerce_amounts. rewrite map_map. reflexivity.
Qed.

End Binary64Coercion.

(** ** The binary64 run: a Deposit at a price that is not positive *)

Section B64Arith.
Import SpecFloat FloatOps FloatAxioms.

Lemma sf_add_zero x :
  SFadd prec emax x (S754_zero false) = x \/
  (x = S754_zero true /\ SFadd prec emax x (S754_zero false) = S754_zero false).
Proof. destruct x as [[]|[]| |[] m e]; simpl; auto. Qed.

(** Adding [0.0] leaves a number as it is ([-0.0 + 0.0] is [0.0]). *)
Lemma b64_fadd_zero_r (a : PrimFloat.float) :
  B64.same_number (B64.fadd a B64.zero) a.
Proof.
  unfold B64.same_number, B64.fadd, B64.feq.
  destruct (sf_add_zero (Prim2SF a)) as [H|[H1 H2]].
  - left. apply Prim2SF_inj. rewrite add_spec, b64_zero_repr. exact H.
  - right. rewrite eqb_spec, add_spec, b64_zero_repr. unfold SF64add.
    rewrite H2, H1. reflexivity.
Qed.

End B64Arith.

Section B64Run.
Import B64.
Context (txs : list Tx) (nav : gmap string PrimFloat.float).

Lemma b64_run_days_app dates1 dates2 st :
  run_days txs nav (dates1 ++ dates2) st =
  run_days txs nav dates2 (run_days txs nav dates1 st).
Proof. unfold run_days. apply fold_left_app. Qed.

Lemma b64_process_rows_app d p rows1 rows2 st :
  process_rows d p (rows1 ++ rows2) st =
  process_rows d p rows2 (process_rows d p rows1 st).
Proof. unfold process_rows. apply fold_left_app. Qed.

End B64Run.

Section B64DeadPrice.
Import B64.

Lemma b64_shares_for_dead (a p : PrimFloat.float) : fgt p zero = false -> shares_for a p = zero.
Proof. intros H. unfold shares_for. by rewrite H. Qed.

End B64DeadPrice.

Section B64Coercion.
Import B64.

Lemma b64_coerce_amounts_app l1 l2 :
  coerce_amounts (l1 ++ l2) = coerce_amounts l1 ++ coerce_amounts l2.
Proof. apply map_app. Qed.

End B64Coercion.

Section B64GroupSum.
Import B64.

Lemma b64_user_sum_app ty u rows1 rows2 acc :
  user_sum ty u (rows1 ++ rows2) acc = user_sum ty u rows2 (user_sum ty u rows1 acc).
Proof. unfold user_sum. apply fold_left_app. Qed.

Lemma b64_group_fold_get ty u rows m :
  dict_get (fold_left (group_step ty) rows m) u zero =
  user_sum ty u rows (dict_get m u zero).
Proof.
  unfold user_sum. revert m.
  induction rows as [|r rows IH]; intros m; simpl; [reflexivity|].
  rewrite IH. f_equal. unfold group_step.
  destruct (String.eqb (Ttype r) ty); simpl; [|reflexivity].
  unfold dict_get at 1. rewrite lookup_insert.
  destruct (String.eqb (User r) u) eqn:Eu.
  - apply String.eqb_eq in Eu. subst u. by rewrite decide_True.
  - apply String.eqb_neq in Eu. by rewrite decide_False.
Qed.

Lemma b64_group_sum_get ty u rows :
  dict_get (group_sum ty rows) u zero = user_sum ty u rows zero.
Proof.
  unfold group_sum. rewrite b64_group_fold_get. unfold dict_get.
  by rewrite lookup_empty.
Qed.

(** A row of another type does not enter the sums. *)
Lemma b64_group_sum_other_type ty l1 r r0 l2 :
  String.eqb (Ttype r) ty = false -> String.eqb (Ttype r0) ty = false ->
  group_sum ty (l1 ++ r :: l2) = group_sum ty (l1 ++ r0 :: l2).
Proof.
  intros Hr Hr0. unfold group_sum. rewrite !fold_left_app. simpl.
  assert (Hs : forall m, group_step ty m r = group_step ty m r0).
  { intros m. unfold group_step. by rewrite Hr, Hr0. }
  by rewrite Hs.
Qed.

Lemma b64_user_sum_amounts ty u rows acc :
  user_sum ty u rows acc = fold_left add_skipna (amounts_of ty u rows) acc.
Proof.
  unfold user_sum, amounts_of. revert acc.
  induction rows as [|r rows IH]; intros acc; simpl; [reflexivity|].
  destruct (String.eqb (Ttype r) ty && String.eqb (User r) u); simpl; apply IH.
Qed.

Lemma b64_group_sum_amounts ty u rows :
  dict_get (group_sum ty rows) u zero = sum_skipna (amounts_of ty u rows).
Proof. rewrite b64_group_sum_get. apply b64_user_sum_amounts. Qed.

Lemma b64_amounts_of_app ty u l1 l2 :
  amounts_of ty u (l1 ++ l2) = amounts_of ty u l1 ++ amounts_of ty u l2.
Proof. unfold amounts_of. by rewrite List.filter_app, map_app. Qed.

Lemma b64_amounts_of_no_rows ty u rows :
  Forall (fun r => User r <> u) rows -> amounts_of ty u rows = [].
Proof.
  unfold amounts_of. intros H.
  induction H as [|r rows Hr _ IH]; simpl; [reflexivity|].
  apply String.eqb_neq in Hr. by rewrite Hr, andb_false_r.
Qed.

(** A user without rows adds nothing to a running sum. *)
Lemma b64_user_sum_no_rows ty u rows acc :
  Forall (fun r => User r <> u) rows -> user_sum ty u rows acc = acc.
Proof.
  unfold user_sum. intros H. revert acc.
  induction H as [|r rows Hr _ IH]; intros acc; simpl; [reflexivity|].
  apply String.eqb_neq in Hr. rewrite Hr, andb_false_r. apply IH.
Qed.

(** A user without a row of the type has no entry in the sum. *)
Lemma b64_group_fold_other ty u rows m :
  Forall (fun r => String.eqb (Ttype r) ty && String.eqb (User r) u = false) rows ->
  fold_left (group_step ty) rows m !! u = m !! u.
Proof.
  intros H. revert m.
  induction H as [|r rows Hr _ IH]; intros m; simpl; [reflexivity|].
  rewrite IH. unfold group_step.
  destruct (String.eqb (Ttype r) ty); simpl in Hr; [|reflexivity].
  apply String.eqb_neq in Hr. by rewrite lookup_insert_ne.
Qed.

Lemma b64_withdrawal_sum_none u rows :
  Forall (fun r => String.eqb (Ttype r) "Withdrawal" && String.eqb (User r) u = false)
         rows ->
  dict_get (fopp <$> group_sum "Withdrawal" rows) u zero = zero.
Proof.
  intros H. unfold dict_get, group_sum.
  by rewrite lookup_fmap, (b64_group_fold_other _ _ _ _ H), lookup_empty.
Qed.

End B64GroupSum.

Section B64Dates.
Import B64.
Context (txs : list Tx) (nav : gmap string PrimFloat.float).
#[local] Instance b64_date_le_total : Total date_le.
Proof. intros a b. apply String.leb_total. Qed.

(** [all_dates] holds each date once ... *)
Lemma b64_all_dates_NoDup : NoDup (all_dates_of txs nav).
Proof.
  unfold all_dates_of, sorted_set. rewrite merge_sort_Permutation.
  apply NoDup_remove_dups.
Qed.

End B64Dates.

Section B64Zeroing.
Import B64.
Context (nav : gmap string PrimFloat.float) (c1 c2 : list Tx) (row row0 : Tx).
Context (Hty : Ttype row = "Deposit") (Hty0 : Ttype row0 = "Deposit").
Context (Huser : User row0 = User row) (Hdate : Date row0 = Date row).
Let T : list Tx := c1 ++ row :: c2.
Let T0 : list Tx := c1 ++ row0 :: c2.

Lemma b64_zeroing_dates : all_dates_of T0 nav = all_dates_of T nav.
Proof.
  unfold all_dates_of, T, T0. rewrite !map_app. simpl. by rewrite Hdate.
Qed.

Lemma b64_zeroing_initial : initial_state T0 = initial_state T.
Proof.
  unfold initial_state, initial_balances, T, T0. f_equal.
  rewrite !foldr_app. simpl. by rewrite Huser.
Qed.

Lemma b64_txs_today_middle d' :
  txs_today T d' =
    txs_today c1 d' ++ (if String.eqb (Date row) d' then [row] else []) ++ txs_today c2 d' /\
  txs_today T0 d' =
    txs_today c1 d' ++ (if String.eqb (Date row) d' then [row0] else []) ++ txs_today c2 d'.
Proof.
  unfold txs_today, T, T0. rewrite !List.filter_app. simpl. rewrite Hdate.
  by destruct (String.eqb (Date row) d').
Qed.

Lemma b64_process_row_same d p st st0 r :
  same_shares st st0 ->
  same_shares (process_row d p st r) (process_row d p st0 r).
Proof.
  intros (Ht & Hb & Hn). unfold process_row, same_shares.
  destruct (String.eqb (Ttype r) "Deposit");
    [|destruct (String.eqb (Ttype r) "Withdrawal")]; simpl;
    rewrite ?Ht, ?Hb, ?Hn; done.
Qed.

Lemma b64_process_rows_same d p rows st st0 :
  same_shares st st0 ->
  same_shares (process_rows d p rows st) (process_rows d p rows st0).
Proof.
  unfold process_rows. revert st st0.
  induction rows as [|r rows IH]; intros st st0 H; simpl; [exact H|].
  by apply IH, b64_process_row_same.
Qed.

(** At a price that is not strictly positive the amount of a Deposit has
    no effect on the share state. *)
Lemma b64_process_row_dead_deposit d p st st0 :
  fgt p zero = false -> same_shares st st0 ->
  same_shares (process_row d p st row) (process_row d p st0 row0).
Proof.
  intros Hp (Ht & Hb & Hn). unfold process_row, same_shares.
  rewrite Hty, Hty0. simpl. rewrite !(b64_shares_for_dead _ _ Hp).
  by rewrite Ht, Hb, Hn, Huser.
Qed.

Lemma b64_record_nav_same d n st st0 :
  same_shares st st0 -> same_shares (record_nav d n st) (record_nav d n st0).
Proof.
  intros (Ht & Hb & Hn). unfold same_shares, record_nav. simpl.
  by rewrite Ht, Hb, Hn.
Qed.

Lemma b64_process_day_same_other st st0 d' :
  d' <> Date row -> same_shares st st0 ->
  same_shares (process_day T nav st d') (process_day T0 nav st0 d').
Proof.
  intros Hd H. unfold process_day.
  destruct (b64_txs_today_middle d') as [-> ->].
  assert (E : String.eqb (Date row) d' = false) by (apply String.eqb_neq; congruence).
  rewrite E. pose proof H as (Ht & _ & _). rewrite Ht.
  by apply b64_record_nav_same, b64_process_rows_same.
Qed.

Lemma b64_process_day_same_dead st st0 :
  fgt (price_of (nav_on nav (Date row)) (total_shares st)) zero = false ->
  same_shares st st0 ->
  same_shares (process_day T nav st (Date row)) (process_day T0 nav st0 (Date row)).
Proof.
  intros Hp H. unfold process_day.
  destruct (b64_txs_today_middle (Date row)) as [-> ->].
  rewrite String.eqb_refl.
  pose proof H as (Ht & Hb & Hn). rewrite <- Ht.
  set (p := price_of (nav_on nav (Date row)) (total_shares st)) in *.
  rewrite !b64_process_rows_app. simpl.
  assert (H1 : same_shares (process_rows (Date row) p (txs_today c1 (Date row)) st)
                           (process_rows (Date row) p (txs_today c1 (Date row)) st0))
    by by apply b64_process_rows_same.
  pose proof (b64_process_row_dead_deposit (Date row) p _ _ Hp H1) as H2.
  apply b64_record_nav_same.
  apply (b64_process_rows_same (Date row) p (txs_today c2 (Date row)) _ _ H2).
Qed.

Lemma b64_run_days_same_other dates st st0 :
  Date row ∉ dates -> same_shares st st0 ->
  same_shares (run_days T nav dates st) (run_days T0 nav dates st0).
Proof.
  unfold run_days. revert st st0.
  induction dates as [|d' dates IH]; intros st st0 Hnot H; simpl; [exact H|].
  apply not_elem_of_cons in Hnot as [Hne Hnot].
  apply IH; [exact Hnot|]. apply b64_process_day_same_other; [congruence|exact H].
Qed.

Lemma b64_same_shares_refl st : same_shares st st.
Proof. by repeat split. Qed.

Lemma b64_state_after_days_same k k' :
  all_dates_of T nav !! k = Some (Date row) ->
  fgt (price_on_day T nav k (Date row)) zero = false ->
  same_shares (state_after_days T nav k') (state_after_days T0 nav k').
Proof.
  intros Hk Hp. unfold state_after_days. rewrite b64_zeroing_dates, b64_zeroing_initial.
  pose proof (b64_all_dates_NoDup T nav) as Hnd.
  rewrite <- (take_drop_middle _ _ _ Hk) in Hnd.
  apply NoDup_app in Hnd as (_ & Hpre & Hpost).
  apply NoDup_cons in Hpost as [Hpost _].
  assert (Hpre' : Date row ∉ take k (all_dates_of T nav)).
  { intros Hin. apply (Hpre _ Hin). by left. }
  destruct (decide (k' <= k)%nat) as [Hle|Hgt].
  - apply b64_run_days_same_other; [|apply b64_same_shares_refl].
    intros Hin. apply Hpre'. rewrite <- (take_drop k' (take k _)).
    apply elem_of_app. left. rewrite take_take. by rewrite Nat.min_l.
  - assert (Hsplit : take k' (all_dates_of T nav) =
                     take k (all_dates_of T nav) ++ Date row ::
                       take (k' - S k) (drop (S k) (all_dates_of T nav))).
    { replace k' with (k + S (k' - S k))%nat at 1 by lia.
      rewrite <- take_take_drop. by rewrite (drop_S _ _ _ Hk). }
    rewrite Hsplit, !b64_run_days_app. simpl.
    apply b64_run_days_same_other.
    { intros Hin. apply Hpost. apply elem_of_take in Hin as (i & Hi & _).
      apply list_elem_of_lookup. by exists i. }
    apply b64_process_day_same_dead; [exact Hp|].
    apply b64_run_days_same_other; [exact Hpre'|apply b64_same_shares_refl].
Qed.

End B64Zeroing.

Section B64Keys.
Import B64.
Context (txs : list Tx) (nav : gmap string PrimFloat.float).

Lemma b64_process_row_keys d p st r u :
  is_Some (user_share_balances st !! u) ->
  is_Some (user_share_balances (process_row d p st r) !! u).
Proof.
  intros H. unfold process_row.
  destruct (String.eqb (Ttype r) "Deposit");
    [|destruct (String.eqb (Ttype r) "Withdrawal")]; simpl; try exact H;
    rewrite lookup_insert; case_decide; eauto.
Qed.

Lemma b64_process_row_deposit_key d p st r :
  Ttype r = "Deposit" ->
  is_Some (user_share_balances (process_row d p st r) !! User r).
Proof.
  intros Hd. unfold process_row. rewrite Hd. simpl.
  rewrite lookup_insert_eq. eauto.
Qed.

Lemma b64_process_rows_keys d p rows st u :
  is_Some (user_share_balances st !! u) ->
  is_Some (user_share_balances (process_rows d p rows st) !! u).
Proof.
  unfold process_rows. revert st.
  induction rows as [|r rows IH]; intros st H; simpl; [exact H|].
  by apply IH, b64_process_row_keys.
Qed.

Lemma b64_process_day_keys st d u :
  is_Some (user_share_balances st !! u) ->
  is_Some (user_share_balances (process_day txs nav st d) !! u).
Proof. intros H. unfold process_day, record_nav. simpl. by apply b64_process_rows_keys. Qed.

Lemma b64_run_days_keys dates st u :
  is_Some (user_share_balances st !! u) ->
  is_Some (user_share_balances (run_days txs nav dates st) !! u).
Proof.
  unfold run_days. revert st.
  induction dates as [|d dates IH]; intros st H; simpl; [exact H|].
  by apply IH, b64_process_day_keys.
Qed.

(** A Deposit row of the table puts its user among the final balances. *)
Lemma b64_deposit_user_key k r :
  all_dates_of txs nav !! k = Some (Date r) ->
  r ∈ txs -> Ttype r = "Deposit" ->
  is_Some (user_share_balances
             (state_after_days txs nav (length (all_dates_of txs nav))) !! User r).
Proof.
  intros Hk Hin Hd. unfold state_after_days. rewrite take_ge by done.
  rewrite <- (take_drop_middle _ _ _ Hk), b64_run_days_app. simpl.
  apply b64_run_days_keys. unfold process_day at 1.
  set (st := run_days txs nav (take k (all_dates_of txs nav)) (initial_state txs)).
  set (p := price_of (nav_on nav (Date r)) (total_shares st)).
  assert (Hr : r ∈ txs_today txs (Date r)).
  { unfold txs_today. apply list_elem_of_In, filter_In. split.
    - by apply list_elem_of_In.
    - apply String.eqb_refl. }
  apply list_elem_of_split in Hr as (f1 & f2 & ->).
  unfold record_nav. simpl. rewrite b64_process_rows_app.
  change (process_rows (Date r) p (r :: f2) ?s)
    with (process_rows (Date r) p f2 (process_row (Date r) p s r)).
  by apply b64_process_rows_keys, b64_process_row_deposit_key.
Qed.

Lemma b64_recalculate_fund_outputs raw wf pf k d :
  all_dates_of (coerce_amounts raw) nav !! k = Some d ->
  fst (recalculate_fund raw nav wf pf) =
  settle (coerce_amounts raw) (all_dates_of (coerce_amounts raw) nav) wf pf
         (state_after_days (coerce_amounts raw) nav
                           (length (all_dates_of (coerce_amounts raw) nav))).
Proof.
  intros Hk. unfold recalculate_fund, state_after_days. rewrite take_ge by done.
  by destruct (all_dates_of (coerce_amounts raw) nav).
Qed.

End B64Keys.

Section B64SoleRow.
Import SpecFloat FloatOps FloatAxioms.

Lemma sf_compare_refl x : x <> S754_nan -> SFcompare x x = Some Eq.
Proof.
  destruct x as [[]|[]| |[] m e]; simpl; try congruence; intros _.
  - by rewrite Z.compare_refl, Pos.compare_cont_refl.
  - by rewrite Z.compare_refl, Pos.compare_cont_refl.
Qed.

Lemma sf_sole_profit v a :
  SFeqb v (S754_zero false) = true -> SFeqb a a = true ->
  SFeqb (SFadd prec emax (SFsub prec emax v (SFadd prec emax (S754_zero false) a))
                         (S754_zero false))
        (SFopp a) = true.
Proof.
  intros Hv Ha.
  destruct v as [sv|[]| |[] mv ev]; try discriminate.
  destruct a as [sa|sa| |sa ma ea]; try discriminate.
  - by destruct sv, sa.
  - by destruct sv, sa.
  - assert (H : SFadd prec emax
                  (SFsub prec emax (S754_zero sv)
                                   (SFadd prec emax (S754_zero false) (S754_finite sa ma ea)))
                  (S754_zero false) = S754_finite (negb sa) ma ea)
      by (by destruct sv, sa).
    rewrite H. unfold SFeqb. simpl SFopp. by rewrite sf_compare_refl.
Qed.

(** The profit of a wallet worth [0.0] whose only row is one Deposit of
    [a]: [0.0 - (0.0 + a) + 0.0], which is [-a]. *)
Lemma b64_sole_profit v a :
  B64.feq v B64.zero = true -> PrimFloat.is_nan a = false ->
  B64.feq (B64.fadd (B64.fsub v (B64.fadd B64.zero a)) B64.zero) (B64.fopp a) = true.
Proof.
  unfold B64.feq, B64.fadd, B64.fsub, B64.fopp, PrimFloat.is_nan.
  rewrite !eqb_spec, !add_spec, sub_spec, add_spec, opp_spec, !b64_zero_repr.
  intros Hv Ha. apply negb_false_iff in Ha. by apply sf_sole_profit.
Qed.

Lemma b64_fillna0_number a : PrimFloat.is_nan a = false -> B64.fillna0 a = a.
Proof. intros H. unfold B64.fillna0. by rewrite H. Qed.

End B64SoleRow.

(** ** The binary64 run: the ledger of one day *)

Section B64Run.
Import B64.
Context (txs : list Tx) (nav : gmap string PrimFloat.float).


End B64Run.

Section B64Ledger.
Import B64.








End B64Ledger.

Section B64OutputKeys.
Import B64.
Context (txs : list Tx) (nav : gmap string PrimFloat.float).

Lemma b64_elem_of_txs_today r d : r ∈ txs_today txs d <-> r ∈ txs /\ Date r = d.
Proof.
  unfold txs_today. rewrite !list_elem_of_In, filter_In, String.eqb_eq.
  reflexivity.
Qed.

End B64OutputKeys.

(** ** Which dates and users the outputs hold *)

Section OutputKeys.
Context (txs : list Tx) (nav : gmap string fnum).

Lemma coerce_amounts_dates raw : map Date (coerce_amounts raw) = map Date raw.
Proof. unfold coerce_amounts. rewrite map_map. by apply map_ext. Qed.

Lemma coerce_amounts_users raw : map User (coerce_amounts raw) = map User raw.
Proof. unfold coerce_amounts. rewrite map_map. by apply map_ext. Qed.

Lemma all_dates_nil : all_dates_of txs nav = [] <-> txs = [] /\ nav = ∅.
Proof.
  split.
  - intros Hnil. split.
    + destruct txs as [|r l]; [done|exfalso].
      assert (Hin : Date r ∈ all_dates_of (r :: l) nav).
      { apply elem_of_all_dates. right. simpl. by left. }
      rewrite Hnil in Hin. by apply not_elem_of_nil in Hin.
    + apply map_empty. intros d. destruct (nav !! d) as [v|] eqn:E; [exfalso|done].
      assert (Hin : d ∈ all_dates_of txs nav).
      { apply elem_of_all_dates. left. by exists v. }
      rewrite Hnil in Hin. by apply not_elem_of_nil in Hin.
  - intros [-> ->]. reflexivity.
Qed.

Lemma process_rows_nav_per_share d p rows st :
  nav_per_share (process_rows d p rows st) = nav_per_share st.
Proof.
  unfold process_rows. revert st.
  induction rows as [|r rows IH]; intros st; simpl; [done|].
  rewrite IH. unfold process_row.
  by destruct (String.eqb (Ttype r) "Deposit"), (String.eqb (Ttype r) "Withdrawal").
Qed.

Lemma run_days_nav_keys dates st d :
  is_Some (nav_per_share (run_days txs nav dates st) !! d) <->
  d ∈ dates \/ is_Some (nav_per_share st !! d).
Proof.
  unfold run_days. revert st.
  induction dates as [|d' dates IH]; intros st; simpl.
  - split; [by right|]. intros [H|H]; [by apply not_elem_of_nil in H|done].
  - rewrite IH. unfold process_day, record_nav at 1. simpl.
    rewrite process_rows_nav_per_share, lookup_insert, elem_of_cons.
    case_decide as Hd.
    + subst d'. split; [intros _; by left; left|]. intros _. right. eauto.
    + split.
      * intros [H|H]; [left; by right|by right].
      * intros [[H|H]|H]; [congruence|by left|by right].
Qed.

Lemma initial_balances_keys l u :
  is_Some (initial_balances l !! u) <-> u <> "" /\ u ∈ map User l.
Proof.
  induction l as [|r l IH]; simpl.
  - rewrite lookup_empty. split; [by intros [? ?]|]. intros [_ H].
    by apply not_elem_of_nil in H.
  - rewrite elem_of_cons. destruct (String.eqb (User r) "") eqn:E.
    + apply String.eqb_eq in E. rewrite IH. split; [intros [? ?]; eauto|].
      intros [Hne [Hu|Hin]]; [congruence|done].
    + apply String.eqb_neq in E. rewrite lookup_insert. case_decide as Hu.
      * subst u. split; [intros _; split; [done|by left]|eauto].
      * rewrite IH. split; [intros [? ?]; eauto|].
        intros [Hne [Heq|Hin]]; [congruence|done].
Qed.

Lemma process_row_keys_inv d p st r u :
  is_Some (user_share_balances (process_row d p st r) !! u) ->
  is_Some (user_share_balances st !! u) \/ (User r = u /\ is_processed r = true).
Proof.
  unfold process_row, is_processed.
  destruct (String.eqb (Ttype r) "Deposit");
    [|destruct (String.eqb (Ttype r) "Withdrawal")]; simpl; [| |by left];
    rewrite lookup_insert; case_decide; eauto.
Qed.

Lemma process_rows_keys_inv d p rows st u :
  is_Some (user_share_balances (process_rows d p rows st) !! u) ->
  is_Some (user_share_balances st !! u) \/
  exists r, r ∈ rows /\ User r = u /\ is_processed r = true.
Proof.
  unfold process_rows. revert st.
  induction rows as [|r rows IH]; intros st; simpl; [by left|].
  intros H. apply IH in H as [H|(r' & Hin & Hu & Hp)].
  - apply process_row_keys_inv in H as [H|[Hu Hp]]; [by left|].
    right. exists r. split; [by left|done].
  - right. exists r'. split; [by right|done].
Qed.

Lemma elem_of_txs_today r d : r ∈ txs_today txs d <-> r ∈ txs /\ Date r = d.
Proof.
  unfold txs_today. rewrite !list_elem_of_In, filter_In, String.eqb_eq.
  reflexivity.
Qed.

Lemma run_days_keys_inv dates st u :
  is_Some (user_share_balances (run_days txs nav dates st) !! u) ->
  is_Some (user_share_balances st !! u) \/
  exists r, r ∈ txs /\ User r = u /\ is_processed r = true.
Proof.
  unfold run_days. revert st.
  induction dates as [|d dates IH]; intros st; simpl; [by left|].
  intros H. apply IH in H as [H|H]; [|by right].
  unfold process_day, record_nav in H. simpl in H.
  apply process_rows_keys_inv in H as [H|(r & Hin & Hu & Hp)]; [by left|].
  right. exists r. apply elem_of_txs_today in Hin as [Hin _]. done.
Qed.

Lemma process_row_processed_key d p st r :
  is_processed r = true ->
  is_Some (user_share_balances (process_row d p st r) !! User r).
Proof.
  unfold process_row, is_processed.
  destruct (String.eqb (Ttype r) "Deposit");
    [|destruct (String.eqb (Ttype r) "Withdrawal")]; simpl; [| |done];
    intros _; rewrite lookup_insert_eq; eauto.
Qed.

Lemma processed_user_key r :
  r ∈ txs -> is_processed r = true ->
  is_Some (user_share_balances
             (run_days txs nav (all_dates_of txs nav) (initial_state txs)) !! User r).
Proof.
  intros Hin Hp.
  assert (Hd : Date r ∈ all_dates_of txs nav).
  { apply elem_of_all_dates. right. apply list_elem_of_fmap. by exists r. }
  apply list_elem_of_split in Hd as (pre & post & ->).
  rewrite run_days_app. simpl. apply run_days_keys. unfold process_day at 1.
  set (st := run_days txs nav pre (initial_state txs)).
  set (p := price_of (nav_on nav (Date r)) (total_shares st)).
  assert (Hr : r ∈ txs_today txs (Date r)) by (by apply elem_of_txs_today).
  apply list_elem_of_split in Hr as (f1 & f2 & ->).
  unfold record_nav. simpl. rewrite process_rows_app.
  change (process_rows (Date r) p (r :: f2) ?s)
    with (process_rows (Date r) p f2 (process_row (Date r) p s r)).
  by apply process_rows_keys, process_row_processed_key.
Qed.

(** The users of the final balance dict: the non-empty names of the
    table and the users of its Deposit and Withdrawal rows. *)
Lemma final_balance_keys u :
  is_Some (user_share_balances
             (run_days txs nav (all_dates_of txs nav) (initial_state txs)) !! u) <->
  (u <> "" /\ u ∈ map User txs) \/
  (exists r, r ∈ txs /\ User r = u /\ is_processed r = true).
Proof.
  split.
  - intros H. apply run_days_keys_inv in H as [H|H]; [left|by right].
    by apply initial_balances_keys.
  - intros [H|(r & Hin & <- & Hp)].
    + apply run_days_keys. by apply initial_balances_keys.
    + by apply processed_user_key.
Qed.

End OutputKeys.

Section OutputShape.
Context (raw : list Tx) (nav : gmap string fnum) (wf pf : fnum).

Lemma recalculate_fund_cases :
  (raw = [] /\ nav = ∅ /\ fst (recalculate_fund raw nav wf pf) = empty_outputs) \/
  (all_dates_of (coerce_amounts raw) nav <> [] /\
   fst (recalculate_fund raw nav wf pf) =
   settle (coerce_amounts raw) (all_dates_of (coerce_amounts raw) nav) wf pf
          (run_days (coerce_amounts raw) nav (all_dates_of (coerce_amounts raw) nav)
                    (initial_state (coerce_amounts raw)))).
Proof.
  unfold recalculate_fund.
  destruct (all_dates_of (coerce_amounts raw) nav) as [|d0 dates] eqn:E.
  - left. apply all_dates_nil in E as [Hc ->].
    destruct raw; [done|discriminate].
  - right. done.
Qed.

Lemma elem_of_coerce_amounts r :
  r ∈ coerce_amounts raw <->
  exists r0, r0 ∈ raw /\ r = mkTx (Date r0) (User r0) (Ttype r0) (fillna0 (Amount r0)).
Proof.
  unfold coerce_amounts. rewrite list_elem_of_fmap. split.
  - intros (r0 & -> & Hin). eauto.
  - intros (r0 & Hin & ->). eauto.
Qed.

End OutputShape.

(** ** Values and fees *)

Section Values.
Local Open Scope Qc_scope.

Lemma run_days_last_nav txs nav pre d st :
  nav_per_share (run_days txs nav (pre ++ [d]) st) !! d =
    Some (price_of (nav_on nav d) (total_shares (run_days txs nav (pre ++ [d]) st))).
Proof.
  rewrite run_days_app.
  change (run_days txs nav [d] ?s) with (process_day txs nav s d).
  unfold process_day. by rewrite record_nav_lookup, record_nav_total.
Qed.




End Values.

Section ValuesOut.
Context (raw : list Tx) (nav : gmap string fnum) (wf pf : fnum).

Lemma all_dates_coerce : all_dates_of (coerce_amounts raw) nav = all_dates_of raw nav.
Proof. unfold all_dates_of. by rewrite coerce_amounts_dates. Qed.


End ValuesOut.

(** ** The ledger against the table *)

Section LedgerRows.
Context (txs : list Tx) (nav : gmap string fnum).

Lemma process_row_ledger_keys d p st r :
  Date r = d ->
  map entry_key (share_ledger (process_row d p st r)) =
  map entry_key (share_ledger st) ++ map row_key (List.filter is_processed [r]).
Proof.
  intros <-. unfold process_row, is_processed. simpl.
  destruct (String.eqb (Ttype r) "Deposit");
    [|destruct (String.eqb (Ttype r) "Withdrawal")]; simpl;
    rewrite ?map_app, ?app_nil_r; reflexivity.
Qed.

Lemma process_rows_ledger_keys d p rows st :
  Forall (fun r => Date r = d) rows ->
  map entry_key (share_ledger (process_rows d p rows st)) =
  map entry_key (share_ledger st) ++ map row_key (List.filter is_processed rows).
Proof.
  unfold process_rows. intros Hrows. revert st.
  induction Hrows as [|r rows Hr _ IH]; intros st; simpl.
  - by rewrite app_nil_r.
  - rewrite IH, (process_row_ledger_keys _ _ _ _ Hr). simpl.
    destruct (is_processed r); simpl; by rewrite <- app_assoc.
Qed.

Lemma txs_today_dates d : Forall (fun r => Date r = d) (txs_today txs d).
Proof.
  apply Forall_forall. intros r Hr. by apply elem_of_txs_today in Hr as [_ ?].
Qed.

Lemma run_days_ledger_keys dates st :
  map entry_key (share_ledger (run_days txs nav dates st)) =
  map entry_key (share_ledger st) ++
  flat_map (fun d => map row_key (List.filter is_processed (txs_today txs d))) dates.
Proof.
  unfold run_days. revert st.
  induction dates as [|d dates IH]; intros st; simpl.
  - by rewrite app_nil_r.
  - rewrite IH. unfold process_day. rewrite record_nav_ledger.
    rewrite process_rows_ledger_keys by apply txs_today_dates.
    by rewrite <- app_assoc.
Qed.

Lemma filter_split_perm {A} (f : A -> bool) (l : list A) :
  l ≡ₚ List.filter f l ++ List.filter (fun x => negb (f x)) l.
Proof.
  induction l as [|x l IH]; simpl; [done|].
  destruct (f x); simpl.
  - by constructor.
  - rewrite <- Permutation_middle. by constructor.
Qed.

Lemma filter_filter_other (l : list Tx) d d' :
  d' <> d ->
  List.filter (fun r => String.eqb (Date r) d')
              (List.filter (fun r => negb (String.eqb (Date r) d)) l) =
  List.filter (fun r => String.eqb (Date r) d') l.
Proof.
  intros Hne. induction l as [|r l IH]; simpl; [done|].
  destruct (String.eqb (Date r) d) eqn:E; simpl.
  - apply String.eqb_eq in E.
    assert (E' : String.eqb (Date r) d' = false) by (apply String.eqb_neq; congruence).
    by rewrite E'.
  - by rewrite IH.
Qed.

(** Going through the dates once collects every row once. *)
Lemma flat_map_txs_today (l : list Tx) (dates : list string) :
  NoDup dates -> Forall (fun r => Date r ∈ dates) l ->
  flat_map (txs_today l) dates ≡ₚ l.
Proof.
  intros Hnd. revert l.
  induction Hnd as [|d ds Hd Hnd IH]; intros l Hl; simpl.
  - destruct l as [|r l]; [done|]. inversion Hl as [|? ? Hr _]; subst.
    by apply not_elem_of_nil in Hr.
  - set (l' := List.filter (fun r => negb (String.eqb (Date r) d)) l).
    assert (Hsame : flat_map (txs_today l) ds = flat_map (txs_today l') ds).
    { rewrite !flat_map_concat_map. f_equal. apply map_ext_in.
      intros d' Hin. unfold txs_today, l'. symmetry. apply filter_filter_other.
      intros ->. apply Hd. by apply list_elem_of_In. }
    rewrite Hsame, IH.
    + symmetry. apply (filter_split_perm (fun r => String.eqb (Date r) d)).
    + apply Forall_forall. intros r Hr. unfold l' in Hr.
      apply list_elem_of_In, filter_In in Hr as [Hr Hne].
      rewrite Forall_forall in Hl. apply list_elem_of_In, Hl in Hr.
      apply elem_of_cons in Hr as [Heq|Hr]; [|done].
      apply negb_true_iff, String.eqb_neq in Hne. congruence.
Qed.

Lemma flat_map_map {A B C} (f : B -> C) (g : A -> list B) (l : list A) :
  flat_map (fun x => map f (g x)) l = map f (flat_map g l).
Proof. induction l as [|x l IH]; simpl; [done|]. by rewrite IH, map_app. Qed.

Lemma txs_today_processed (l : list Tx) d :
  List.filter is_processed (txs_today l d) = txs_today (List.filter is_processed l) d.
Proof.
  unfold txs_today. induction l as [|r l IH]; simpl; [done|].
  destruct (String.eqb (Date r) d) eqn:Ed, (is_processed r) eqn:Ep; simpl;
    rewrite ?Ed, ?Ep, IH; reflexivity.
Qed.

Lemma ledger_keys_perm :
  flat_map (fun d => map row_key (List.filter is_processed (txs_today txs d)))
           (all_dates_of txs nav)
  ≡ₚ map row_key (List.filter is_processed txs).
Proof.
  rewrite flat_map_map. apply Permutation_map.
  erewrite flat_map_ext by (intros d; apply txs_today_processed).
  apply flat_map_txs_today; [apply all_dates_NoDup|].
  apply Forall_forall. intros r Hr. apply elem_of_all_dates. right.
  apply list_elem_of_fmap. exists r. split; [done|].
  apply list_elem_of_In, filter_In in Hr as [Hr _]. by apply list_elem_of_In.
Qed.

Lemma coerce_amounts_keys raw d :
  map row_key (List.filter is_processed (txs_today (coerce_amounts raw) d)) =
  map row_key (List.filter is_processed (txs_today raw d)).
Proof.
  unfold txs_today, coerce_amounts.
  induction raw as [|r raw IH]; simpl; [done|].
  destruct (String.eqb (Date r) d); simpl; [|exact IH].
  change (is_processed (mkTx (Date r) (User r) (Ttype r) (fillna0 (Amount r))))
    with (is_processed r).
  destruct (is_processed r); simpl; [|exact IH]. by rewrite IH.
Qed.

Lemma coerce_amounts_processed raw :
  map row_key (List.filter is_processed (coerce_amounts raw)) =
  map row_key (List.filter is_processed raw).
Proof.
  unfold coerce_amounts. induction raw as [|r raw IH]; simpl; [done|].
  change (is_processed (mkTx (Date r) (User r) (Ttype r) (fillna0 (Amount r))))
    with (is_processed r).
  destruct (is_processed r); simpl; [|exact IH]. by rewrite IH.
Qed.

End LedgerRows.

(** ** The wallet chart (lines 196-214) *)

Section Chart.
Context (txs : list Tx) (nav : gmap string fnum).

Lemma chart_loop_snoc ledger e nps u :
  chart_loop nps (List.filter (fun x => String.eqb (lUser x) u) (ledger ++ [e])) =
  if String.eqb (lUser e) u
  then chart_step nps
         (chart_loop nps (List.filter (fun x => String.eqb (lUser x) u) ledger)) e
  else chart_loop nps (List.filter (fun x => String.eqb (lUser x) u) ledger).
Proof.
  unfold chart_loop. rewrite List.filter_app. simpl.
  destruct (String.eqb (lUser e) u).
  - by rewrite fold_left_app.
  - by rewrite app_nil_r.
Qed.

Lemma dict_get_insert (m : gmap string fnum) k v u dflt :
  dict_get (<[k:=v]> m) u dflt = if String.eqb k u then v else dict_get m u dflt.
Proof.
  unfold dict_get. rewrite lookup_insert.
  destruct (String.eqb k u) eqn:E.
  - apply String.eqb_eq in E. by rewrite decide_True.
  - apply String.eqb_neq in E. by rewrite decide_False.
Qed.

Lemma process_row_replayed d p st r :
  replayed st -> replayed (process_row d p st r).
Proof.
  intros H nps u. specialize (H nps u). unfold process_row.
  destruct (String.eqb (Ttype r) "Deposit") eqn:Ed;
    [|destruct (String.eqb (Ttype r) "Withdrawal") eqn:Ew];
    cbn [share_ledger user_share_balances]; [| |exact H].
  - rewrite chart_loop_snoc, dict_get_insert. cbn [lUser].
    destruct (String.eqb (User r) u) eqn:Eu; [|exact H].
    apply String.eqb_eq in Eu. subst u.
    unfold chart_step. cbn [fst lType lShares]. by rewrite Ed, H.
  - rewrite chart_loop_snoc, dict_get_insert. cbn [lUser].
    destruct (String.eqb (User r) u) eqn:Eu; [|exact H].
    apply String.eqb_eq in Eu. subst u.
    unfold chart_step. cbn [fst lType lShares]. by rewrite Ed, Ew, H.
Qed.

Lemma process_rows_replayed d p rows st :
  replayed st -> replayed (process_rows d p rows st).
Proof.
  unfold process_rows. revert st.
  induction rows as [|r rows IH]; intros st H; simpl; [exact H|].
  by apply IH, process_row_replayed.
Qed.

Lemma run_days_replayed dates st :
  replayed st -> replayed (run_days txs nav dates st).
Proof.
  unfold run_days. revert st.
  induction dates as [|d dates IH]; intros st H; simpl; [exact H|].
  apply IH. intros nps u. unfold process_day. rewrite record_nav_ledger.
  by apply process_rows_replayed.
Qed.

Lemma initial_state_replayed : replayed (initial_state txs).
Proof.
  intros nps u. simpl. unfold dict_get.
  destruct (initial_balances txs !! u) as [v|] eqn:E; [|done].
  apply initial_balances_zero in E. by subst v.
Qed.

Lemma chart_dates nps es acc :
  map cDate (snd (fold_left (chart_step nps) es acc)) =
  map cDate (snd acc) ++ map lDate es.
Proof.
  revert acc. induction es as [|e es IH]; intros acc; simpl.
  - by rewrite app_nil_r.
  - rewrite IH. simpl. rewrite map_app. simpl. by rewrite <- app_assoc.
Qed.

(** A user has no ledger entry, or no row, exactly when no key names
    the user. *)
Lemma user_keys_nil (ledger : list LedgerEntry) u :
  List.filter (fun e => String.eqb (lUser e) u) ledger = [] <->
  forall k, k ∈ map entry_key ledger -> k.1.2 <> u.
Proof.
  induction ledger as [|e l IH]; simpl.
  - split; [|done]. intros _ k Hk. by apply not_elem_of_nil in Hk.
  - destruct (String.eqb (lUser e) u) eqn:E.
    + apply String.eqb_eq in E. split; [done|]. intros H. exfalso.
      apply (H (entry_key e)); [by left|exact E].
    + apply String.eqb_neq in E. rewrite IH. split; intros H k Hk.
      * apply elem_of_cons in Hk as [->|Hk]; [exact E|by apply H].
      * apply H. by right.
Qed.

Lemma user_rows_nil (rows : list Tx) u :
  List.filter (fun r => String.eqb (User r) u) rows = [] <->
  forall k, k ∈ map row_key rows -> k.1.2 <> u.
Proof.
  induction rows as [|r l IH]; simpl.
  - split; [|done]. intros _ k Hk. by apply not_elem_of_nil in Hk.
  - destruct (String.eqb (User r) u) eqn:E.
    + apply String.eqb_eq in E. split; [done|]. intros H. exfalso.
      apply (H (row_key r)); [by left|exact E].
    + apply String.eqb_neq in E. rewrite IH. split; intros H k Hk.
      * apply elem_of_cons in Hk as [->|Hk]; [exact E|by apply H].
      * apply H. by right.
Qed.

Lemma run_days_ledger_dates dates e :
  e ∈ share_ledger (run_days txs nav dates (initial_state txs)) -> lDate e ∈ dates.
Proof.
  intros He.
  assert (Hk : entry_key e ∈
               map entry_key (share_ledger (run_days txs nav dates (initial_state txs))))
    by (apply list_elem_of_fmap; eauto).
  rewrite run_days_ledger_keys in Hk. simpl in Hk.
  apply list_elem_of_In, in_flat_map in Hk as (d & Hd & Hin).
  apply list_elem_of_In, list_elem_of_fmap in Hin as (r & Hr & Hin).
  apply list_elem_of_In, filter_In in Hin as [Hin _].
  apply list_elem_of_In, elem_of_txs_today in Hin as [_ Hdate].
  unfold entry_key, row_key in Hr. injection Hr as Hd' _ _.
  rewrite Hd', Hdate. by apply list_elem_of_In.
Qed.

End Chart.

(** ** Deleting a wallet and editing the NAV *)

Section Admin.

Lemma elem_of_delete_wallet txs del_user r :
  r ∈ delete_wallet txs del_user <-> r ∈ txs /\ User r <> del_user.
Proof.
  unfold delete_wallet.
  rewrite !list_elem_of_In, filter_In, negb_true_iff, String.eqb_neq. reflexivity.
Qed.

Lemma delete_wallet_other txs del_user v :
  v <> del_user ->
  List.filter (fun r => String.eqb (User r) v) (delete_wallet txs del_user) =
  List.filter (fun r => String.eqb (User r) v) txs.
Proof.
  intros Hv. unfold delete_wallet.
  induction txs as [|r l IH]; simpl; [done|].
  destruct (String.eqb (User r) del_user) eqn:Ed; simpl.
  - apply String.eqb_eq in Ed.
    assert (Ev : String.eqb (User r) v = false) by (apply String.eqb_neq; congruence).
    by rewrite Ev.
  - by rewrite IH.
Qed.

Lemma delete_wallet_idem txs del_user :
  delete_wallet (delete_wallet txs del_user) del_user = delete_wallet txs del_user.
Proof.
  unfold delete_wallet. induction txs as [|r l IH]; simpl; [done|].
  destruct (String.eqb (User r) del_user) eqn:Ed; simpl; [exact IH|].
  by rewrite Ed, IH.
Qed.

Lemma filter_length_split {A} (f : A -> bool) (l : list A) :
  length l = (length (List.filter f l) +
              length (List.filter (fun x => negb (f x)) l))%nat.
Proof.
  rewrite <- length_app. apply Permutation_length, filter_split_perm.
Qed.

Lemma edit_nav_step_other inputs nav d d' :
  d' <> d -> edit_nav_step inputs nav d' !! d = nav !! d.
Proof.
  intros Hne. unfold edit_nav_step.
  destruct (fne (inputs d') (dict_get nav d' zero)); [|done].
  by rewrite lookup_insert_ne.
Qed.

Lemma fne_false_eq a b : fne a b = false -> a = b.
Proof.
  destruct a as [x|], b as [y|]; simpl; try discriminate.
  intros H. apply negb_false_iff, Qc_eqb_eq in H. by subst.
Qed.

Lemma edit_nav_step_same inputs nav d :
  finite (inputs d) -> dict_get (edit_nav_step inputs nav d) d zero = inputs d.
Proof.
  intros Hfin. unfold edit_nav_step.
  destruct (fne (inputs d) (dict_get nav d zero)) eqn:E.
  - unfold dict_get. by rewrite lookup_insert_eq.
  - apply fne_false_eq in E. done.
Qed.

Lemma edit_nav_keeps inputs days nav d :
  finite (inputs d) -> dict_get nav d zero = inputs d ->
  dict_get (edit_nav days inputs nav) d zero = inputs d.
Proof.
  intros Hfin. unfold edit_nav. revert nav.
  induction days as [|d' days IH]; intros nav H; simpl; [exact H|].
  apply IH. destruct (decide (d' = d)) as [->|Hne].
  - by apply edit_nav_step_same.
  - unfold dict_get. rewrite edit_nav_step_other by done. exact H.
Qed.

End Admin.

(** ** The order of the dates and the order of the table *)

Section Order.

Lemma leb_compare a b : String.leb a b = true <-> String.compare a b <> Gt.
Proof. unfold String.leb. destruct (String.compare a b); split; congruence. Qed.

Lemma ltb_compare a b : String.ltb a b = true <-> String.compare a b = Lt.
Proof. unfold String.ltb. destruct (String.compare a b); split; congruence. Qed.

Lemma compare_lt_trans a b c :
  String.compare a b = Lt -> String.compare b c = Lt -> String.compare a c = Lt.
Proof.
  intros H1 H2.
  apply OrderedTypeEx.String_as_OT.cmp_lt in H1, H2.
  apply OrderedTypeEx.String_as_OT.cmp_lt.
  eapply OrderedTypeEx.String_as_OT.lt_trans; eassumption.
Qed.

#[local] Instance date_le_trans : Transitive date_le.
Proof.
  intros a b c. unfold date_le. rewrite !leb_compare. intros Hab Hbc.
  destruct (String.compare a b) eqn:E1; [|clear Hab|done].
  - apply String.compare_eq_iff in E1. by subst.
  - destruct (String.compare b c) eqn:E2; [|clear Hbc|done].
    + apply String.compare_eq_iff in E2. subst. by rewrite E1.
    + by rewrite (compare_lt_trans _ _ _ E1 E2).
Qed.

#[local] Instance date_le_antisym : AntiSymm (=) date_le.
Proof. intros a b. apply String.leb_antisym. Qed.

#[local] Instance date_le_total' : Total date_le.
Proof. intros a b. apply String.leb_total. Qed.

Lemma ltb_irrefl a : String.ltb a a = false.
Proof.
  apply not_true_iff_false. rewrite ltb_compare.
  assert (H : String.compare a a = Eq)
    by (by apply OrderedTypeEx.String_as_OT.cmp_eq).
  by rewrite H.
Qed.

Lemma not_ltb_leb a b : String.ltb a b = false <-> date_le b a.
Proof.
  unfold date_le. rewrite leb_compare, <- not_true_iff_false, ltb_compare.
  rewrite (String.compare_antisym b a).
  destruct (String.compare a b); simpl; split; congruence.
Qed.

Lemma ltb_le_trans a b c : date_le a b -> String.ltb b c = true -> String.ltb a c = true.
Proof.
  intros Hab Hbc. destruct (String.ltb a c) eqn:E; [done|exfalso].
  apply not_ltb_leb in E.
  assert (Hcb : date_le c b) by (by etrans).
  apply not_ltb_leb in Hcb. congruence.
Qed.

(** Sorting a list without its duplicates depends only on its elements. *)
Lemma sorted_set_ext (l l' : list string) :
  (forall x, x ∈ l <-> x ∈ l') -> sorted_set l = sorted_set l'.
Proof.
  intros Hel. unfold sorted_set.
  apply (Sorted_unique date_le); [apply Sorted_merge_sort, _..|].
  rewrite !merge_sort_Permutation.
  apply NoDup_Permutation; try apply NoDup_remove_dups.
  intros x. by rewrite !elem_of_remove_dups.
Qed.

Lemma all_dates_ext (T T' : list Tx) nav :
  (forall d, d ∈ map Date T <-> d ∈ map Date T') ->
  all_dates_of T nav = all_dates_of T' nav.
Proof.
  intros H. unfold all_dates_of. apply sorted_set_ext.
  intros x. rewrite !elem_of_app. by rewrite H.
Qed.

Lemma elem_of_dates_today (T : list Tx) d :
  d ∈ map Date T <-> txs_today T d <> [].
Proof.
  split.
  - intros Hin Hnil. apply list_elem_of_fmap in Hin as (r & -> & Hr).
    assert (Hr' : r ∈ txs_today T (Date r)) by (by apply elem_of_txs_today).
    rewrite Hnil in Hr'. by apply not_elem_of_nil in Hr'.
  - intros Hne. destruct (txs_today T d) as [|r l] eqn:E; [done|].
    assert (Hr : r ∈ txs_today T d) by (rewrite E; by left).
    apply elem_of_txs_today in Hr as [Hr <-].
    apply list_elem_of_fmap. eauto.
Qed.

Lemma txs_today_coerce (T : list Tx) d :
  txs_today (coerce_amounts T) d = coerce_amounts (txs_today T d).
Proof.
  unfold txs_today, coerce_amounts.
  induction T as [|r l IH]; simpl; [done|].
  destruct (String.eqb (Date r) d); simpl; by rewrite IH.
Qed.

Lemma run_days_ext (T T' : list Tx) nav dates st :
  Forall (fun d => txs_today T d = txs_today T' d) dates ->
  run_days T nav dates st = run_days T' nav dates st.
Proof.
  unfold run_days. intros H. revert st.
  induction H as [|d dates Hd _ IH]; intros st; simpl; [done|].
  rewrite IH. unfold process_day. by rewrite Hd.
Qed.

(** The table is, up to the order of its rows, its days put together. *)
Lemma same_days_perm (T T' : list Tx) :
  (forall d, txs_today T d = txs_today T' d) -> T ≡ₚ T'.
Proof.
  intros H.
  set (dates := remove_dups (map Date T ++ map Date T')).
  assert (Hcover : forall (l : list Tx),
             (forall r, r ∈ l -> Date r ∈ map Date T ++ map Date T') ->
             flat_map (txs_today l) dates ≡ₚ l).
  { intros l Hl. apply flat_map_txs_today; [apply NoDup_remove_dups|].
    apply Forall_forall. intros r Hr. apply elem_of_remove_dups. by apply Hl. }
  rewrite <- (Hcover T), <- (Hcover T').
  - by rewrite (flat_map_ext _ _ H).
  - intros r Hr. apply elem_of_app. right. apply list_elem_of_fmap. eauto.
  - intros r Hr. apply elem_of_app. left. apply list_elem_of_fmap. eauto.
Qed.

Lemma initial_balances_ext (T T' : list Tx) :
  (forall u, u ∈ map User T <-> u ∈ map User T') ->
  initial_balances T = initial_balances T'.
Proof.
  intros H. apply map_eq. intros u.
  destruct (initial_balances T !! u) as [v|] eqn:E1,
           (initial_balances T' !! u) as [v'|] eqn:E2; try done.
  - apply initial_balances_zero in E1, E2. congruence.
  - assert (Hs : is_Some (initial_balances T' !! u)).
    { apply initial_balances_keys. rewrite <- H. apply initial_balances_keys. eauto. }
    rewrite E2 in Hs. by destruct Hs.
  - assert (Hs : is_Some (initial_balances T !! u)).
    { apply initial_balances_keys. rewrite H. apply initial_balances_keys. eauto. }
    rewrite E1 in Hs. by destruct Hs.
Qed.

(** *** What happened before a date *)

Lemma strongly_sorted_filter (f : string -> bool) (l : list string) :
  StronglySorted date_le l -> StronglySorted date_le (List.filter f l).
Proof.
  induction 1 as [|x l Hl IH Hx]; simpl; [constructor|].
  destruct (f x); [|exact IH]. constructor; [exact IH|].
  rewrite Forall_forall in *. intros y Hy. apply Hx.
  apply list_elem_of_In, filter_In in Hy as [Hy _]. by apply list_elem_of_In.
Qed.

(** In a sorted list the dates before [d] come first. *)
Lemma sorted_split (d : string) (l : list string) :
  StronglySorted date_le l ->
  l = List.filter (fun x => String.ltb x d) l ++
      List.filter (fun x => negb (String.ltb x d)) l.
Proof.
  induction 1 as [|x l Hl IH Hx]; simpl; [done|].
  destruct (String.ltb x d) eqn:E; simpl; [by rewrite <- IH|].
  assert (Hnone : forall y, y ∈ l -> String.ltb y d = false).
  { intros y Hy. rewrite Forall_forall in Hx. specialize (Hx y Hy).
    destruct (String.ltb y d) eqn:Ey; [|done].
    rewrite (ltb_le_trans _ _ _ Hx Ey) in E. done. }
  assert (H1 : List.filter (fun x => String.ltb x d) l = []).
  { clear -Hnone. induction l as [|y l IH]; simpl; [done|].
    rewrite (Hnone y) by (by left). apply IH. intros z Hz. apply Hnone. by right. }
  assert (H2 : List.filter (fun x => negb (String.ltb x d)) l = l).
  { clear -Hnone. induction l as [|y l IH]; simpl; [done|].
    rewrite (Hnone y) by (by left). simpl. f_equal. apply IH.
    intros z Hz. apply Hnone. by right. }
  by rewrite H1, H2.
Qed.

Lemma all_dates_strongly_sorted T nav : StronglySorted date_le (all_dates_of T nav).
Proof. apply Sorted_StronglySorted; [apply _|]. apply Sorted_merge_sort, _. Qed.

Lemma dates_before_ext (T T' : list Tx) nav d :
  (forall d', String.ltb d' d = true -> txs_today T d' = txs_today T' d') ->
  List.filter (fun x => String.ltb x d) (all_dates_of T nav) =
  List.filter (fun x => String.ltb x d) (all_dates_of T' nav).
Proof.
  intros H. apply (StronglySorted_unique date_le).
  { apply strongly_sorted_filter, all_dates_strongly_sorted. }
  { apply strongly_sorted_filter, all_dates_strongly_sorted. }
  apply NoDup_Permutation.
  { apply NoDup_ListNoDup, List.NoDup_filter, NoDup_ListNoDup, all_dates_NoDup. }
  { apply NoDup_ListNoDup, List.NoDup_filter, NoDup_ListNoDup, all_dates_NoDup. }
  intros x. rewrite !list_elem_of_In, !filter_In, <- !list_elem_of_In.
  rewrite !elem_of_all_dates, !elem_of_dates_today.
  split; intros [Hin Hlt]; (split; [|done]); destruct Hin as [Hin|Hin];
    try (by left); right; [rewrite <- H by done|rewrite H by done]; done.
Qed.

Lemma process_row_agree d p st st' r :
  agree st st' -> agree (process_row d p st r) (process_row d p st' r).
Proof.
  intros (Ht & Hn & Hl & Hb). unfold process_row, agree.
  destruct (String.eqb (Ttype r) "Deposit");
    [|destruct (String.eqb (Ttype r) "Withdrawal")];
    cbn [total_shares nav_per_share share_ledger user_share_balances];
    rewrite ?Ht, ?Hn, ?Hl, ?(Hb (User r)); repeat split; try done;
    intros u; rewrite !dict_get_insert; by rewrite (Hb u).
Qed.

Lemma process_rows_agree d p rows st st' :
  agree st st' -> agree (process_rows d p rows st) (process_rows d p rows st').
Proof.
  unfold process_rows. revert st st'.
  induction rows as [|r rows IH]; intros st st' H; simpl; [exact H|].
  by apply IH, process_row_agree.
Qed.

Lemma run_days_agree (T T' : list Tx) nav dates st st' :
  Forall (fun d => txs_today T d = txs_today T' d) dates ->
  agree st st' -> agree (run_days T nav dates st) (run_days T' nav dates st').
Proof.
  unfold run_days. intros H. revert st st'.
  induction H as [|d dates Hd _ IH]; intros st st' Hag; simpl; [exact Hag|].
  apply IH. unfold process_day. rewrite Hd.
  pose proof Hag as (Ht & _). rewrite Ht.
  set (p := price_of (nav_on nav d) (total_shares st')).
  destruct (process_rows_agree d p (txs_today T' d) st st' Hag) as (Ht' & Hn' & Hl' & Hb').
  unfold agree, record_nav.
  cbn [total_shares nav_per_share share_ledger user_share_balances].
  by rewrite Ht', Hn', Hl'.
Qed.

Lemma initial_state_agree (T T' : list Tx) : agree (initial_state T) (initial_state T').
Proof.
  unfold agree, initial_state. simpl. repeat split.
  intros u. unfold dict_get.
  destruct (initial_balances T !! u) as [v|] eqn:E1,
           (initial_balances T' !! u) as [v'|] eqn:E2; simpl; try done.
  - apply initial_balances_zero in E1, E2. congruence.
  - by apply initial_balances_zero in E1.
  - by apply initial_balances_zero in E2.
Qed.

Lemma run_days_nav_other (T : list Tx) nav dates st d :
  d ∉ dates ->
  nav_per_share (run_days T nav dates st) !! d = nav_per_share st !! d.
Proof.
  unfold run_days. revert st.
  induction dates as [|d' dates IH]; intros st Hd; simpl; [done|].
  apply not_elem_of_cons in Hd as [Hne Hd]. rewrite IH by done.
  unfold process_day, record_nav. simpl.
  by rewrite process_rows_nav_per_share, lookup_insert_ne.
Qed.

Lemma process_day_ledger_new (T : list Tx) nav st d :
  exists new,
    share_ledger (process_day T nav st d) = share_ledger st ++ new /\
    Forall (fun e => lDate e = d) new.
Proof.
  unfold process_day. rewrite record_nav_ledger.
  destruct (process_rows_ledger d (price_of (nav_on nav d) (total_shares st))
              (txs_today T d) st) as (new & Hl & Hp & _).
  exists new. split; [exact Hl|].
  eapply Forall_impl; [exact Hp|]. by intros e (He & _).
Qed.

Lemma run_days_ledger_new (T : list Tx) nav dates st :
  exists new,
    share_ledger (run_days T nav dates st) = share_ledger st ++ new /\
    Forall (fun e => lDate e ∈ dates) new.
Proof.
  unfold run_days. revert st.
  induction dates as [|d dates IH]; intros st; simpl.
  - exists []. by rewrite app_nil_r.
  - destruct (IH (process_day T nav st d)) as (new2 & Hl2 & Hd2).
    destruct (process_day_ledger_new T nav st d) as (new1 & Hl1 & Hd1).
    exists (new1 ++ new2). split.
    + rewrite Hl2, Hl1. by rewrite app_assoc.
    + apply Forall_app. split.
      * eapply Forall_impl; [exact Hd1|]. intros e He. rewrite He. by left.
      * eapply Forall_impl; [exact Hd2|]. intros e He. by right.
Qed.

Lemma filter_all {A} (f : A -> bool) (l : list A) :
  Forall (fun x => f x = true) l -> List.filter f l = l.
Proof. induction 1 as [|x l Hx _ IH]; simpl; [done|]. by rewrite Hx, IH. Qed.

Lemma filter_none {A} (f : A -> bool) (l : list A) :
  Forall (fun x => f x = false) l -> List.filter f l = [].
Proof. induction 1 as [|x l Hx _ IH]; simpl; [done|]. by rewrite Hx. Qed.

(** The prices and the ledger of the dates before [d], from the state
    the loop has reached after those dates. *)
Lemma history_before (T : list Tx) nav d :
  let pre := List.filter (fun x => String.ltb x d) (all_dates_of T nav) in
  let st := run_days T nav (all_dates_of T nav) (initial_state T) in
  let st_pre := run_days T nav pre (initial_state T) in
  (forall d', String.ltb d' d = true ->
     nav_per_share st !! d' = nav_per_share st_pre !! d') /\
  List.filter (fun e => String.ltb (lDate e) d) (share_ledger st) = share_ledger st_pre.
Proof.
  intros pre st st_pre.
  set (post := List.filter (fun x => negb (String.ltb x d)) (all_dates_of T nav)).
  assert (Hsplit : all_dates_of T nav = pre ++ post)
    by apply sorted_split, all_dates_strongly_sorted.
  assert (Hst : st = run_days T nav post st_pre).
  { subst st st_pre. rewrite Hsplit at 1. apply run_days_app. }
  assert (Hpost : forall x, x ∈ post -> String.ltb x d = false).
  { intros x Hx. apply list_elem_of_In, filter_In in Hx as [_ Hx].
    by apply negb_true_iff in Hx. }
  assert (Hpre : forall x, x ∈ pre -> String.ltb x d = true).
  { intros x Hx. by apply list_elem_of_In, filter_In in Hx as [_ Hx]. }
  split.
  - intros d' Hlt. rewrite Hst. apply run_days_nav_other.
    intros Hin. apply Hpost in Hin. congruence.
  - destruct (run_days_ledger_new T nav post st_pre) as (new2 & Hl2 & Hd2).
    destruct (run_days_ledger_new T nav pre (initial_state T)) as (new1 & Hl1 & Hd1).
    fold st_pre in Hl1. simpl in Hl1.
    rewrite Hst, Hl2, List.filter_app, Hl1.
    rewrite filter_all, filter_none, app_nil_r; [done| |].
    + eapply Forall_impl; [exact Hd2|]. intros e He. by apply Hpost.
    + eapply Forall_impl; [exact Hd1|]. intros e He. by apply Hpre.
Qed.

End Order.

Section HistoryOut.
Context (raw : list Tx) (nav : gmap string fnum) (wf pf : fnum).

(** The returned prices and ledger are those of the state after the loop,
    also when line 92 returns early. *)
Lemma recalculate_fund_history :
  let st := run_days (coerce_amounts raw) nav (all_dates_of (coerce_amounts raw) nav)
                     (initial_state (coerce_amounts raw)) in
  out_nav_per_share (fst (recalculate_fund raw nav wf pf)) = nav_per_share st /\
  out_ledger_df (fst (recalculate_fund raw nav wf pf)) = share_ledger st.
Proof.
  destruct (recalculate_fund_cases raw nav wf pf) as [(-> & -> & He)|[Hne He]];
    rewrite He; by split.
Qed.

End HistoryOut.

Section Signs.
Local Open Scope Qc_scope.

Lemma nonneg_fmul (a b : fnum) : nonneg a -> nonneg b -> nonneg (fmul a b).
Proof.
  destruct a as [x|], b as [y|]; simpl; try done. intros Hx Hy.
  replace 0 with (0 * y) by ring. by apply Qcmult_le_compat_r.
Qed.

Lemma price_of_nonneg (n : Qc) (total : fnum) :
  0 <= n -> finite total -> nonneg (price_of (Fin n) total).
Proof.
  intros Hn Hfin. unfold price_of. destruct (fgt total zero) eqn:E.
  - apply fgt_zero_iff in E as (t & -> & Ht). simpl.
    rewrite Qc_eqb_pos by done. simpl. by apply Qcdiv_nonneg.
  - simpl. done.
Qed.

End Signs.

(** ** Properties of the specification *)

(** C1: the profit of [recalculate_fund] against the specification's
    [user_value - deposit_sum + withdrawal_sum], with [withdrawal_sum]
    the sum of the absolute values of the Withdrawal amounts.  The table
    stores a Withdrawal's amount positive, line 129 negates the sum, and
    the code subtracts the withdrawals: alice deposits 100, withdraws the
    same 100 at an unchanged price of 1.0, ends with value 0, and is
    reported a profit of -200 where the specification gives 0. *)
Theorem profit_deposit_then_withdraw :
  let out := fst (recalculate_fund txs_roundtrip nav_roundtrip (frac 3 100) (frac 2 100)) in
  price_on_day (coerce_amounts txs_roundtrip) nav_roundtrip 1 d2 = one /\
  out_user_value out !! "alice" = Some zero /\
  out_profit out !! "alice" = Some (fin (-200)) /\
  profit_spec txs_roundtrip "alice" zero = zero.
Proof.
  repeat split; fnum_eq.
Qed.



(** C3, as the code has it: a Withdrawal of requested amount [a] dated
    [d] is processed by computing [shares = a / price] when the intra-day
    price is strictly positive and 0 otherwise, clamping it to
    [min(shares, balance)] (an over-request is truncated, never
    rejected), recomputing the paid-out amount [shares * price],
    decrementing [total_shares] and the user's balance by [shares] and
    appending one ledger entry whose Amount is the negation of the
    paid-out amount; when no amount of the table is negative, that
    recorded Amount is never positive. *)
Theorem withdrawal_processing (transactions : list Tx)
    (nav_history : gmap string fnum) (k : nat) (d : string) (j : nat) (row : Tx) :
  let txs := coerce_amounts transactions in
  all_dates_of txs nav_history !! k = Some d ->
  txs_today txs d !! j = Some row ->
  Ttype row = "Withdrawal" ->
  let st := state_at txs nav_history k j in
  let st' := state_at txs nav_history k (S j) in
  let p := price_on_day txs nav_history k d in
  let balance := dict_get (user_share_balances st) (User row) zero in
  let shares :=
    pymin (if fgt p zero then fdiv (Amount row) p else zero) balance in
  let actual := fmul shares p in
  total_shares st' = fsub (total_shares st) shares /\
  user_share_balances st' =
    <[User row := fsub balance shares]> (user_share_balances st) /\
  share_ledger st' =
    share_ledger st ++ [mkEntry d (User row) "Withdrawal" (fopp actual) shares p] /\
  (no_negative_amount transactions = true -> fgt (fopp actual) zero = false).
Proof.
  intros txs Hk Hj Hty st st' p balance shares actual.
  assert (Hst' : st' = process_row d p st row)
    by apply (state_at_S _ _ _ _ _ _ Hk Hj).
  rewrite Hst'. unfold process_row. rewrite Hty. simpl.
  repeat split.
  intros Hok. subst actual shares. apply withdrawal_amount_not_positive.
  - pose proof (no_negative_amount_nonneg _ Hok) as Hall. fold txs in Hall.
    apply (txs_today_Forall _ _ d) in Hall.
    rewrite Forall_forall in Hall. apply Hall.
    apply list_elem_of_lookup. by exists j.
  - apply dict_get_nonneg, state_at_nonneg.
    by apply no_negative_deposit_ok, no_negative_amount_deposit.
Qed.

Lemma withdrawal_processing_witness :
  total_shares (state_at (coerce_amounts txs_D) nav_D 1 1) = zero /\
  share_ledger (state_at (coerce_amounts txs_D) nav_D 1 1) =
    share_ledger (state_at (coerce_amounts txs_D) nav_D 1 0) ++
      [mkEntry d2 "alice" "Withdrawal" (fin (-50)) (fin 50) one].
Proof.
  assert (Hk : all_dates_of (coerce_amounts txs_D) nav_D !! 1%nat = Some d2)
    by (vm_compute; reflexivity).
  assert (Hj : txs_today (coerce_amounts txs_D) d2 !! 0%nat
               = Some (mkTx d2 "alice" "Withdrawal" (fin 60)))
    by (vm_compute; reflexivity).
  destruct (withdrawal_processing txs_D nav_D 1 d2 0 _ Hk Hj eq_refl)
    as (Ht & _ & Hl & _).
  split.
  - rewrite Ht. fnum_eq.
  - rewrite Hl. f_equal. f_equal. f_equal; fnum_eq.
Defined.

(** C3 as stated fails where the price is not strictly positive: on a
    date without NAV and with shares outstanding the price is NaN, the
    code withdraws 0 shares where [a / price] clamped to the balance is
    NaN, and the Amount it records is NaN, not a negative value. *)
Lemma withdrawal_shares_counterexample :
  exists e,
    new_entries (state_at (coerce_amounts txs_nonav) nav_nonav 1 0)
                (state_at (coerce_amounts txs_nonav) nav_nonav 1 1) = [e] /\
    lType e = "Withdrawal" /\
    lShares e = zero /\
    withdrawal_shares_spec (fin 10)
      (price_on_day (coerce_amounts txs_nonav) nav_nonav 1 d2)
      (dict_get (user_share_balances (state_at (coerce_amounts txs_nonav) nav_nonav 1 0))
                "alice" zero) = NaN /\
    lShares e <>
      withdrawal_shares_spec (fin 10)
        (price_on_day (coerce_amounts txs_nonav) nav_nonav 1 d2)
        (dict_get (user_share_balances (state_at (coerce_amounts txs_nonav) nav_nonav 1 0))
                  "alice" zero) /\
    lAmount e = NaN /\
    flt (lAmount e) zero = false.
Proof.
  eexists. split; [vm_compute; reflexivity|].
  repeat split; try (vm_compute; reflexivity).
  vm_compute. discriminate.
Qed.

(** C4, as the code has it, in binary64: for every NAV history and every
    transaction history (Deposit amounts not negative, as in the data
    model), no user's share balance is below zero at any point of the
    simulation, also when a withdrawal request exceeds the holdings; a
    withdrawal priced at more shares than owned takes exactly the shares
    owned: the user's balance is exactly 0.0 afterwards, [total_shares]
    is decremented by exactly that balance, and the ledger records the
    balance as the Shares withdrawn. *)
Theorem balances_never_negative (transactions : list B64.Tx)
    (nav_history : gmap string PrimFloat.float) :
  B64.no_negative_deposit transactions = true ->
  let txs := B64.coerce_amounts transactions in
  (forall k j u,
     B64.flt (B64.dict_get (B64.user_share_balances (B64.state_at txs nav_history k j))
                           u B64.zero) B64.zero = false) /\
  (forall k u,
     B64.flt (B64.dict_get (B64.user_share_balances
                              (B64.state_after_days txs nav_history k))
                           u B64.zero) B64.zero = false) /\
  (forall k d j row,
     B64.all_dates_of txs nav_history !! k = Some d ->
     B64.txs_today txs d !! j = Some row ->
     B64.Ttype row = "Withdrawal" ->
     let st := B64.state_at txs nav_history k j in
     let st' := B64.state_at txs nav_history k (S j) in
     let p := B64.price_on_day txs nav_history k d in
     let b := B64.dict_get (B64.user_share_balances st) (B64.User row) B64.zero in
     B64.flt b (if B64.fgt p B64.zero then B64.fdiv (B64.Amount row) p else B64.zero)
       = true ->
     B64.user_share_balances st' !! B64.User row = Some B64.zero /\
     B64.total_shares st' = B64.fsub (B64.total_shares st) b /\
     B64.new_entries st st' =
       [B64.mkEntry d (B64.User row) "Withdrawal" (B64.fopp (B64.fmul b p)) b p]).
Proof.
  intros Hok txs. apply b64_no_negative_deposit_ok in Hok. fold txs in Hok.
  split; [|split].
  - intros k j u. apply b64_dict_get_nn. by apply b64_state_at_nn.
  - intros k u. apply b64_dict_get_nn. by apply b64_state_after_days_nn.
  - intros k d j row Hk Hj Hty st st' p b Hover.
    assert (Hb : B64.flt b B64.zero = false).
    { apply b64_dict_get_nn. by apply b64_state_at_nn. }
    assert (Hst' : st' = B64.process_row d p st row)
      by apply (b64_state_at_S _ _ _ _ _ _ Hk Hj).
    rewrite Hst'. unfold B64.process_row, B64.new_entries. rewrite Hty. simpl. fold b.
    unfold B64.shares_for, B64.pymin. rewrite Hover.
    rewrite lookup_insert_eq, drop_app_length.
    by rewrite (b64_fsub_diag b _ Hb Hover).
Qed.

Lemma balances_never_negative_witness :
  let txs := B64.coerce_amounts B64.txs_cash_out in
  B64.user_share_balances (B64.state_at txs B64.nav_cash_out 1 1) !! "alice"
    = Some B64.zero /\
  B64.total_shares (B64.state_at txs B64.nav_cash_out 1 1)
    = B64.fsub (B64.total_shares (B64.state_at txs B64.nav_cash_out 1 0))
               (B64.dict_get (B64.user_share_balances
                                (B64.state_at txs B64.nav_cash_out 1 0))
                             "alice" B64.zero) /\
  B64.flt (B64.dict_get (B64.user_share_balances (B64.state_at txs B64.nav_cash_out 1 1))
                        "alice" B64.zero) B64.zero = false.
Proof.
  destruct (balances_never_negative B64.txs_cash_out B64.nav_cash_out eq_refl)
    as (Hn & _ & Hw).
  destruct (Hw 1%nat d2 0%nat (B64.mkTx d2 "alice" "Withdrawal" 1%float))
    as (Hu & Ht & _); try (vm_compute; reflexivity).
  split; [exact Hu|]. split; [exact Ht|]. apply Hn.
Defined.

(** C4 as stated fails in binary64 for the contribution to
    [total_shares]: alice holds 0.1 and bob 0.2 of a total of
    0.30000000000000004; alice's withdrawal of 1.0 is priced at more
    shares than she owns and leaves her balance at exactly 0.0, but
    [total_shares] is then 0.20000000000000004 while the only other
    wallet holds 0.2. *)
Lemma over_withdrawal_total_counterexample :
  let txs := B64.coerce_amounts B64.txs_cash_out in
  let st := B64.state_at txs B64.nav_cash_out 1 0 in
  let st' := B64.state_at txs B64.nav_cash_out 1 1 in
  let p := B64.price_on_day txs B64.nav_cash_out 1 d2 in
  B64.total_shares st = 0.30000000000000004%float /\
  B64.dict_get (B64.user_share_balances st) "alice" B64.zero = 0.1%float /\
  B64.flt 0.1 (B64.shares_for 1 p) = true /\
  B64.user_share_balances st' !! "alice" = Some 0%float /\
  B64.user_share_balances st' !! "bob" = Some 0.2%float /\
  B64.sum_balances (delete "alice" (B64.user_share_balances st')) = 0.2%float /\
  B64.total_shares st' = 0.20000000000000004%float /\
  B64.feq (B64.total_shares st')
          (B64.sum_balances (delete "alice" (B64.user_share_balances st'))) = false.
Proof.
  repeat split; vm_compute; reflexivity.
Qed.

(** C5: on a date whose total shares outstanding are zero the intra-day
    execution price is exactly 1.0, and when they are zero at the end of
    the date the recorded [nav_per_share] of that date is exactly 1.0;
    a Deposit on a date that starts with no shares outstanding yields
    exactly as many shares as currency deposited. *)
Theorem bootstrap_price (transactions : list Tx)
    (nav_history : gmap string fnum) (k : nat) (d : string) :
  let txs := coerce_amounts transactions in
  all_dates_of txs nav_history !! k = Some d ->
  (total_shares (state_after_days txs nav_history k) = zero ->
   price_on_day txs nav_history k d = one) /\
  (total_shares (state_after_days txs nav_history (S k)) = zero ->
   nav_per_share (state_after_days txs nav_history (S k)) !! d = Some one) /\
  (total_shares (state_after_days txs nav_history k) = zero ->
   forall j row,
     txs_today txs d !! j = Some row -> Ttype row = "Deposit" ->
     let st := state_at txs nav_history k j in
     let st' := state_at txs nav_history k (S j) in
     new_entries st st' =
       [mkEntry d (User row) "Deposit" (Amount row) (Amount row) one] /\
     total_shares st' = fadd (total_shares st) (Amount row) /\
     user_share_balances st' !! User row =
       Some (fadd (dict_get (user_share_balances st) (User row) zero) (Amount row))).
Proof.
  intros txs Hk. split; [|split].
  - intros H0. unfold price_on_day, price_of. by rewrite H0.
  - rewrite (state_after_days_S _ _ _ _ Hk). unfold process_day.
    rewrite record_nav_total, record_nav_lookup. intros H0.
    by rewrite H0.
  - intros H0 j row Hj Hty st st'.
    assert (Hp : price_on_day txs nav_history k d = one).
    { unfold price_on_day, price_of. by rewrite H0. }
    subst st st'. rewrite (state_at_S _ _ _ _ _ _ Hk Hj), Hp.
    set (st := state_at txs nav_history k j).
    assert (Hs : shares_for (Amount row) one = Amount row).
    { unfold shares_for. change (fgt one zero) with true. simpl. apply fdiv_one. }
    unfold process_row, new_entries. rewrite Hty. simpl.
    rewrite drop_app_length, lookup_insert_eq, Hs. done.
Qed.

Lemma bootstrap_price_witness :
  price_on_day (coerce_amounts txs_same_day) nav_same_day 0 d1 = one /\
  nav_per_share (state_after_days (coerce_amounts txs_same_day) nav_same_day 1) !! d1
    = Some one /\
  new_entries (state_at (coerce_amounts txs_same_day) nav_same_day 0 0)
              (state_at (coerce_amounts txs_same_day) nav_same_day 0 1)
    = [mkEntry d1 "alice" "Deposit" (fin 100) (fin 100) one].
Proof.
  assert (Hk : all_dates_of (coerce_amounts txs_same_day) nav_same_day !! 0%nat = Some d1)
    by (vm_compute; reflexivity).
  destruct (bootstrap_price txs_same_day nav_same_day 0 d1 Hk) as (H1 & H2 & H3).
  split; [apply H1; fnum_eq|]. split; [apply H2; fnum_eq|].
  assert (H0 : total_shares (state_after_days (coerce_amounts txs_same_day)
                                              nav_same_day 0) = zero)
    by (vm_compute; reflexivity).
  assert (Hj : txs_today (coerce_amounts txs_same_day) d1 !! 0%nat
               = Some (mkTx d1 "alice" "Deposit" (fin 100)))
    by (vm_compute; reflexivity).
  exact (proj1 (H3 H0 0%nat _ Hj eq_refl)).
Defined.



(** C7: for every user [u] of the output, the withdrawal fee is
    [user_value[u] * withdraw_fee], the profit fee is
    [max(profit[u], 0) * profit_fee] and [after_fees[u]] is
    [user_value[u]] less both; for a profit-fee rate that is not negative
    the profit fee is never negative, also when [profit[u]] is. *)
Theorem fees_per_user (transactions : list Tx) (nav_history : gmap string fnum)
    (withdraw_fee profit_fee : fnum) (u : string) (value : fnum) :
  let out := fst (recalculate_fund transactions nav_history withdraw_fee profit_fee) in
  out_user_value out !! u = Some value ->
  exists pr,
    out_profit out !! u = Some pr /\
    out_fee_details out !! u =
      Some (mkFee (fmul value withdraw_fee) (fmul (pymax pr zero) profit_fee)) /\
    out_after_fees out !! u =
      Some (fsub (fsub value (fmul value withdraw_fee))
                 (fmul (pymax pr zero) profit_fee)) /\
    (nonneg profit_fee -> flt (fmul (pymax pr zero) profit_fee) zero = false).
Proof.
  unfold recalculate_fund.
  destruct (all_dates_of (coerce_amounts transactions) nav_history) as [|d0 dates];
    simpl; [by rewrite lookup_empty|].
  intros Hv.
  set (dep := group_sum "Deposit" (coerce_amounts transactions)).
  set (wd := fopp <$> group_sum "Withdrawal" (coerce_amounts transactions)).
  exists (profit_of dep wd u value).
  rewrite !map_lookup_imap, Hv. simpl.
  repeat split.
  intros Hfee. set (pr := profit_of dep wd u value). clearbody pr.
  destruct profit_fee as [f|]; [|done]. simpl in Hfee.
  destruct pr as [x|]; [|done].
  unfold pymax, fgt, flt, zero.
  destruct (Qc_ltb x (Q2Qc 0)) eqn:Hx; simpl; apply Qc_ltb_ge.
  - rewrite Qcmult_0_l. apply Qcle_refl.
  - apply Qc_ltb_ge in Hx. replace (Q2Qc 0) with (0 * f)%Qc by ring.
    by apply Qcmult_le_compat_r.
Qed.

Lemma fees_per_user_witness :
  out_profit (fst (recalculate_fund txs_C nav_C (frac 3 100) (frac 2 100)))
    !! "alice" = Some (fin 100) /\
  out_fee_details (fst (recalculate_fund txs_C nav_C (frac 3 100) (frac 2 100)))
    !! "alice" = Some (mkFee (fin 6) (fin 2)) /\
  out_after_fees (fst (recalculate_fund txs_C nav_C (frac 3 100) (frac 2 100)))
    !! "alice" = Some (fin 192).
Proof.
  assert (Hv : out_user_value
                 (fst (recalculate_fund txs_C nav_C (frac 3 100) (frac 2 100)))
                 !! "alice" = Some (fin 200)) by fnum_eq.
  destruct (fees_per_user txs_C nav_C (frac 3 100) (frac 2 100) "alice" (fin 200) Hv)
    as (pr & Hpr & Hfee & Haf & _).
  assert (Hp : out_profit
                 (fst (recalculate_fund txs_C nav_C (frac 3 100) (frac 2 100)))
                 !! "alice" = Some (fin 100)) by fnum_eq.
  rewrite Hp in Hpr. injection Hpr as <-.
  split; [exact Hp|]. split.
  - rewrite Hfee. f_equal. f_equal; fnum_eq.
  - rewrite Haf. fnum_eq.
Defined.

(** C8, as the code has it: a call of [recalculate_fund] is not free of
    side effects.  Line 88 overwrites the Amount column of the caller's
    table with [pd.to_numeric(..., errors="coerce").fillna(0.0)]: a
    number stays as it is, a missing amount becomes 0.0, and a string
    becomes the number it parses to, or 0.0 when it does not parse; the
    rows, their order and the other columns are left as they were.
    Afterwards every amount of the table is a number, and the table is
    unchanged exactly when every amount was a number before.  The
    outputs are computed from the overwritten column, so a second call
    on the table the first call left returns the same outputs and leaves
    that table as it is. *)
Theorem recalculate_fund_repeatable (parse : string -> fnum) (table : list RawTx)
    (nav_history : gmap string fnum) (withdraw_fee profit_fee : fnum) :
  let r := recalculate_fund_on parse table nav_history withdraw_fee profit_fee in
  map rDate (snd r) = map rDate table /\
  map rUser (snd r) = map rUser table /\
  map rType (snd r) = map rType table /\
  map rAmount (snd r) =
    map (fun c => match to_numeric parse c with
                  | NaN => CNum zero
                  | Fin x => CNum (Fin x)
                  end) (map rAmount table) /\
  Forall (fun t => is_number (rAmount t)) (snd r) /\
  (snd r = table <-> Forall (fun t => is_number (rAmount t)) table) /\
  recalculate_fund_on parse (snd r) nav_history withdraw_fee profit_fee = r.
Proof.
  intros r.
  assert (Hsnd : snd r = float_table (coerce_amounts (numeric_rows parse table)))
    by apply recalculate_fund_on_table.
  split; [|split; [|split; [|split; [|split; [|split]]]]].
  - rewrite Hsnd. unfold float_table, coerce_amounts, numeric_rows.
    rewrite !map_map. by apply map_ext.
  - rewrite Hsnd. unfold float_table, coerce_amounts, numeric_rows.
    rewrite !map_map. by apply map_ext.
  - rewrite Hsnd. unfold float_table, coerce_amounts, numeric_rows.
    rewrite !map_map. by apply map_ext.
  - rewrite Hsnd. unfold float_table, coerce_amounts, numeric_rows.
    rewrite !map_map. apply map_ext. intros t. simpl.
    by destruct (to_numeric parse (rAmount t)).
  - rewrite Hsnd. unfold float_table, coerce_amounts, numeric_rows.
    rewrite !map_map. apply Forall_forall. intros t Ht.
    apply list_elem_of_fmap in Ht as (t0 & -> & _). apply left_cell_is_number.
  - rewrite Hsnd. apply left_table_id_iff.
  - rewrite Hsnd. subst r. unfold recalculate_fund_on.
    rewrite numeric_rows_float_table, recalculate_fund_coerced. reflexivity.
Qed.

(** C8 as stated fails: a call on a table with a missing amount leaves
    the table changed (the missing amount has become 0.0). *)
Lemma input_mutated_counterexample :
  snd (recalculate_fund txs_missing nav_B (frac 3 100) (frac 2 100)) <> txs_missing /\
  map Amount (snd (recalculate_fund txs_missing nav_B (frac 3 100) (frac 2 100)))
    = [fin 100; zero] /\
  map Amount txs_missing = [fin 100; NaN].
Proof.
  split; [|split; reflexivity].
  rewrite recalculate_fund_table. intros H.
  apply (f_equal (map Amount)) in H. simpl in H. discriminate.
Qed.

(** C9: on a date that carries transactions but has no NAV entry, while
    total shares outstanding are positive, the missing NAV is NaN in the
    arithmetic and propagates through the day: the intra-day price is
    NaN, every Deposit and Withdrawal row of the day still gets its
    ledger entry (none is skipped) and the entry records the price NaN (a
    Withdrawal's recorded Amount is NaN too), and the recorded
    [nav_per_share] of the date is NaN; no fallback value is substituted
    for the NAV and the run completes. *)
Theorem missing_nav_propagates (transactions : list Tx)
    (nav_history : gmap string fnum) (k : nat) (d : string) :
  let txs := coerce_amounts transactions in
  all_dates_of txs nav_history !! k = Some d ->
  nav_history !! d = None ->
  fgt (total_shares (state_after_days txs nav_history k)) zero = true ->
  let st := state_after_days txs nav_history k in
  let st' := state_after_days txs nav_history (S k) in
  price_on_day txs nav_history k d = NaN /\
  (exists new,
     share_ledger st' = share_ledger st ++ new /\
     map (fun e => (lUser e, lType e)) new =
       map (fun r => (User r, Ttype r)) (List.filter is_processed (txs_today txs d)) /\
     Forall (fun e => lDate e = d /\ lNavShare e = NaN /\
                      (lType e = "Withdrawal" -> lAmount e = NaN)) new) /\
  nav_per_share st' !! d = Some NaN.
Proof.
  intros txs Hk Hnav Hpos st st'.
  assert (Hn : nav_on nav_history d = NaN).
  { unfold nav_on, dict_get. by rewrite Hnav. }
  assert (Hp : price_on_day txs nav_history k d = NaN).
  { unfold price_on_day. rewrite Hn. by apply price_of_nan. }
  assert (Hst' : st' = record_nav d NaN
                   (process_rows d NaN (txs_today txs d) st)).
  { subst st'. rewrite (state_after_days_S _ _ _ _ Hk). unfold process_day.
    fold st. rewrite Hn. by rewrite price_of_nan. }
  split; [exact Hp|]. split.
  - destruct (process_rows_ledger d NaN (txs_today txs d) st) as (new & Hl & Hpr & Hm).
    exists new. rewrite Hst', record_nav_ledger. split; [exact Hl|]. split; [exact Hm|].
    eapply Forall_impl; [exact Hpr|]. intros e (Hd & Hns & _ & Hw).
    split; [exact Hd|]. split; [exact Hns|]. intros Hty.
    rewrite (Hw Hty). by rewrite fmul_nan_r.
  - rewrite Hst', record_nav_lookup. f_equal. apply price_of_nan.
    eapply total_le_pos; [|exact Hpos]. fold st.
    apply process_rows_dead_total; [done| |].
    + apply txs_today_Forall, coerce_amounts_finite.
    + apply state_after_days_finite, coerce_amounts_finite.
Qed.

Lemma missing_nav_propagates_witness :
  price_on_day (coerce_amounts txs_nonav) nav_nonav 1 d2 = NaN /\
  nav_per_share (state_after_days (coerce_amounts txs_nonav) nav_nonav 2) !! d2
    = Some NaN.
Proof.
  assert (Hk : all_dates_of (coerce_amounts txs_nonav) nav_nonav !! 1%nat = Some d2)
    by (vm_compute; reflexivity).
  assert (Hnav : nav_nonav !! d2 = None) by (vm_compute; reflexivity).
  assert (Hpos : fgt (total_shares (state_after_days (coerce_amounts txs_nonav)
                                                     nav_nonav 1)) zero = true)
    by (vm_compute; reflexivity).
  destruct (missing_nav_propagates txs_nonav nav_nonav 1 d2 Hk Hnav Hpos)
    as (H1 & _ & H3).
  split; [exact H1|exact H3].
Defined.

(** C10, as the code has it, in binary64: when the intra-day price on a
    Deposit's date is not strictly positive, the deposit mints exactly
    0.0 shares, [total_shares] and every balance are the numbers they
    were ([x + 0.0]), yet its full amount is appended to the share
    ledger and is one of the amounts that user's [deposit_sum] adds up,
    at the row's place in the table.  Whatever the rest of the history,
    the recorded prices, the shares and the values of all users are
    those of the same history with that amount set to 0, and the user's
    profit is [user_value - deposit_sum + withdrawal_sum] with that same
    value and the [deposit_sum] that holds the amount; when the deposit
    is the user's only row and the value is 0, the reported profit is
    minus the amount. *)
Theorem unpriced_deposit_reduces_profit (l1 l2 : list B64.Tx) (u d : string)
    (a : PrimFloat.float) (nav_history : gmap string PrimFloat.float)
    (withdraw_fee profit_fee : PrimFloat.float) (k : nat) :
  let transactions := l1 ++ B64.mkTx d u "Deposit" a :: l2 in
  let zeroed := l1 ++ B64.mkTx d u "Deposit" B64.zero :: l2 in
  let txs := B64.coerce_amounts transactions in
  PrimFloat.is_nan a = false ->
  B64.all_dates_of txs nav_history !! k = Some d ->
  B64.fgt (B64.price_on_day txs nav_history k d) B64.zero = false ->
  let j := length (B64.txs_today (B64.coerce_amounts l1) d) in
  let st := B64.state_at txs nav_history k j in
  let st' := B64.state_at txs nav_history k (S j) in
  let out := fst (B64.recalculate_fund transactions nav_history withdraw_fee profit_fee) in
  let out0 := fst (B64.recalculate_fund zeroed nav_history withdraw_fee profit_fee) in
  let before := B64.amounts_of "Deposit" u (B64.coerce_amounts l1) in
  let after := B64.amounts_of "Deposit" u (B64.coerce_amounts l2) in
  let deposit_sum := B64.dict_get (B64.group_sum "Deposit" txs) u B64.zero in
  let deposit_sum0 :=
    B64.dict_get (B64.group_sum "Deposit" (B64.coerce_amounts zeroed)) u B64.zero in
  let withdrawal_sum :=
    B64.dict_get (B64.fopp <$> B64.group_sum "Withdrawal" txs) u B64.zero in
  B64.same_number (B64.total_shares st') (B64.total_shares st) /\
  (forall u', B64.same_number (B64.dict_get (B64.user_share_balances st') u' B64.zero)
                              (B64.dict_get (B64.user_share_balances st) u' B64.zero)) /\
  B64.share_ledger st' =
    B64.share_ledger st ++
      [B64.mkEntry d u "Deposit" a B64.zero (B64.price_on_day txs nav_history k d)] /\
  B64.amounts_of "Deposit" u txs = before ++ a :: after /\
  deposit_sum = B64.sum_skipna (before ++ a :: after) /\
  deposit_sum0 = B64.sum_skipna (before ++ B64.zero :: after) /\
  B64.out_nav_per_share out = B64.out_nav_per_share out0 /\
  B64.out_user_shares out = B64.out_user_shares out0 /\
  B64.out_user_value out = B64.out_user_value out0 /\
  (exists v, B64.out_user_value out !! u = Some v /\
             B64.out_profit out !! u =
               Some (B64.fadd (B64.fsub v deposit_sum) withdrawal_sum) /\
             B64.out_profit out0 !! u =
               Some (B64.fadd (B64.fsub v deposit_sum0) withdrawal_sum)) /\
  (Forall (fun r => B64.User r <> u) (l1 ++ l2) ->
   forall v, B64.out_user_value out !! u = Some v ->
             B64.feq v B64.zero = true ->
   exists profit_u, B64.out_profit out !! u = Some profit_u /\
                    B64.feq profit_u (B64.fopp a) = true).
Proof.
  intros transactions zeroed txs Ha Hk Hp j st st' out out0
         before after deposit_sum deposit_sum0 withdrawal_sum.
  set (row := B64.mkTx d u "Deposit" a).
  set (row0 := B64.mkTx d u "Deposit" B64.zero).
  set (c1 := B64.coerce_amounts l1) in *. set (c2 := B64.coerce_amounts l2) in *.
  assert (HT : txs = c1 ++ row :: c2).
  { subst txs transactions. rewrite b64_coerce_amounts_app. simpl.
    by rewrite (b64_fillna0_number a Ha). }
  assert (HT0 : B64.coerce_amounts zeroed = c1 ++ row0 :: c2).
  { subst zeroed. by rewrite b64_coerce_amounts_app. }
  (* the row itself *)
  assert (Hj : B64.txs_today txs d !! j = Some row).
  { rewrite HT. unfold B64.txs_today. rewrite List.filter_app. simpl.
    rewrite String.eqb_refl. apply list_lookup_middle. reflexivity. }
  assert (Hst' : st' = B64.process_row d (B64.price_on_day txs nav_history k d) st row)
    by apply (b64_state_at_S _ _ _ _ _ _ Hk Hj).
  assert (Hrow : B64.total_shares st' = B64.fadd (B64.total_shares st) B64.zero /\
                 B64.user_share_balances st' =
                   <[u := B64.fadd (B64.dict_get (B64.user_share_balances st) u B64.zero)
                                   B64.zero]>
                     (B64.user_share_balances st) /\
                 B64.share_ledger st' = B64.share_ledger st ++
                   [B64.mkEntry d u "Deposit" a B64.zero
                                (B64.price_on_day txs nav_history k d)]).
  { rewrite Hst'. unfold B64.process_row. simpl.
    by rewrite (b64_shares_for_dead _ _ Hp). }
  destruct Hrow as (Htot & Hbal & Hled).
  split; [rewrite Htot; apply b64_fadd_zero_r|]. split.
  { intros u'. rewrite Hbal. unfold B64.dict_get at 1. rewrite lookup_insert.
    case_decide; [subst u'; apply b64_fadd_zero_r|by left]. }
  split; [exact Hled|].
  (* the deposit sums: the running sum up to the row, the row, the rest *)
  assert (Ham : B64.amounts_of "Deposit" u txs = before ++ a :: after).
  { rewrite HT, b64_amounts_of_app. unfold B64.amounts_of at 2.
    simpl. by rewrite !String.eqb_refl. }
  assert (Hdep : deposit_sum = B64.sum_skipna (before ++ a :: after)).
  { unfold deposit_sum. by rewrite b64_group_sum_amounts, Ham. }
  assert (Hdep0 : deposit_sum0 = B64.sum_skipna (before ++ B64.zero :: after)).
  { unfold deposit_sum0. rewrite HT0, b64_group_sum_amounts, b64_amounts_of_app.
    unfold B64.amounts_of at 2. simpl. by rewrite !String.eqb_refl. }
  split; [exact Ham|]. split; [exact Hdep|]. split; [exact Hdep0|].
  assert (Hwd : B64.group_sum "Withdrawal" txs =
                B64.group_sum "Withdrawal" (B64.coerce_amounts zeroed)).
  { rewrite HT, HT0. by apply b64_group_sum_other_type. }
  (* the two runs *)
  assert (Hdates : B64.all_dates_of (B64.coerce_amounts zeroed) nav_history =
                   B64.all_dates_of txs nav_history).
  { rewrite HT, HT0. by apply b64_zeroing_dates. }
  assert (Hk0 : B64.all_dates_of (B64.coerce_amounts zeroed) nav_history !! k = Some d)
    by (by rewrite Hdates).
  set (n := length (B64.all_dates_of txs nav_history)).
  assert (Hsame : B64.same_shares
                    (B64.state_after_days txs nav_history n)
                    (B64.state_after_days (B64.coerce_amounts zeroed) nav_history n)).
  { rewrite HT, HT0. apply b64_state_after_days_same with (k := k); try done.
    - by rewrite <- HT.
    - by rewrite <- HT. }
  destruct Hsame as (_ & Hb & Hn).
  assert (Hout : out = B64.settle txs (B64.all_dates_of txs nav_history)
                         withdraw_fee profit_fee
                         (B64.state_after_days txs nav_history n))
    by apply (b64_recalculate_fund_outputs nav_history transactions _ _ k d Hk).
  assert (Hout0 : out0 = B64.settle (B64.coerce_amounts zeroed)
                           (B64.all_dates_of txs nav_history)
                           withdraw_fee profit_fee
                           (B64.state_after_days (B64.coerce_amounts zeroed) nav_history n)).
  { subst out0. rewrite (b64_recalculate_fund_outputs nav_history zeroed _ _ k d Hk0).
    by rewrite Hdates. }
  assert (Hprofit : forall v, B64.out_user_value out !! u = Some v ->
            B64.out_profit out !! u =
              Some (B64.fadd (B64.fsub v deposit_sum) withdrawal_sum)).
  { intros v. rewrite Hout. unfold B64.settle.
    cbn [B64.out_user_value B64.out_profit].
    intros Hv. by rewrite map_lookup_imap, Hv. }
  assert (Hval : B64.out_user_value out = B64.out_user_value out0).
  { rewrite Hout, Hout0. unfold B64.settle. cbn [B64.out_user_value].
    by rewrite <- Hb, <- Hn. }
  split; [rewrite Hout, Hout0; unfold B64.settle; cbn [B64.out_nav_per_share]; exact Hn|].
  split; [rewrite Hout, Hout0; unfold B64.settle; cbn [B64.out_user_shares]; exact Hb|].
  split; [exact Hval|]. split.
  - destruct (b64_deposit_user_key txs nav_history k row) as [s Hs]; try done.
    { rewrite HT. apply elem_of_app. right. by left. }
    fold n in Hs.
    assert (Hv : is_Some (B64.out_user_value out !! u)).
    { rewrite Hout. unfold B64.settle. cbn [B64.out_user_value].
      rewrite lookup_fmap. simpl in Hs. rewrite Hs. by eexists. }
    destruct Hv as [v Hv]. exists v. split; [exact Hv|]. split; [by apply Hprofit|].
    rewrite Hval in Hv. revert Hv. rewrite Hout0. unfold B64.settle.
    cbn [B64.out_user_value B64.out_profit]. intros Hv.
    rewrite map_lookup_imap, Hv. simpl. f_equal.
    unfold B64.profit_of. fold deposit_sum0. unfold withdrawal_sum. by rewrite Hwd.
  - intros Hsole v Hv Hzero. eexists. split; [exact (Hprofit v Hv)|].
    apply Forall_app in Hsole as [H1 H2].
    assert (Hc : forall l, Forall (fun r => B64.User r <> u) l ->
                           Forall (fun r => B64.User r <> u) (B64.coerce_amounts l)).
    { intros l Hl. unfold B64.coerce_amounts. apply Forall_fmap.
      eapply Forall_impl; [exact Hl|]. by intros r Hr. }
    assert (Hw0 : withdrawal_sum = B64.zero).
    { unfold withdrawal_sum. apply b64_withdrawal_sum_none. rewrite HT.
      apply Forall_app. split; [|apply Forall_cons; split; [reflexivity|]].
      - eapply Forall_impl; [exact (Hc _ H1)|]. intros r Hr. simpl.
        apply String.eqb_neq in Hr. by rewrite Hr, andb_false_r.
      - eapply Forall_impl; [exact (Hc _ H2)|]. intros r Hr. simpl.
        apply String.eqb_neq in Hr. by rewrite Hr, andb_false_r. }
    rewrite Hw0, Hdep. unfold before, after.
    rewrite !b64_amounts_of_no_rows by (by apply Hc).
    unfold B64.sum_skipna, B64.add_skipna. simpl. rewrite Ha.
    by apply b64_sole_profit.
Qed.

Lemma unpriced_deposit_reduces_profit_witness :
  let out := fst (B64.recalculate_fund
                    (B64.txs_cents_head ++ [B64.mkTx d2 "bob" "Deposit" 0.05])
                    B64.nav_cents 0.03 0.02) in
  B64.out_user_value out !! "bob" = Some 0%float /\
  exists profit_u, B64.out_profit out !! "bob" = Some profit_u /\
                   B64.feq profit_u (B64.fopp 0.05) = true.
Proof.
  intros out.
  assert (Hk : B64.all_dates_of
                 (B64.coerce_amounts
                    (B64.txs_cents_head ++ [B64.mkTx d2 "bob" "Deposit" 0.05]))
                 B64.nav_cents !! 1%nat = Some d2)
    by (vm_compute; reflexivity).
  assert (Hp : B64.fgt (B64.price_on_day
                          (B64.coerce_amounts
                             (B64.txs_cents_head ++ [B64.mkTx d2 "bob" "Deposit" 0.05]))
                          B64.nav_cents 1 d2) B64.zero = false)
    by (vm_compute; reflexivity).
  destruct (unpriced_deposit_reduces_profit B64.txs_cents_head [] "bob" d2
              0.05 B64.nav_cents 0.03 0.02 1 eq_refl Hk Hp)
    as (_ & _ & _ & _ & _ & _ & _ & _ & _ & _ & Hsole).
  assert (H0 : B64.out_user_value out !! "bob" = Some 0%float)
    by (vm_compute; reflexivity).
  split; [exact H0|].
  apply (Hsole ltac:(repeat constructor; discriminate) _ H0).
  vm_compute. reflexivity.
Defined.

(** C10 as stated fails in binary64 for the size of the reduction: alice
    deposits 0.01, then 0.01 again on a day whose NAV is 0, and the NAV
    of the last day is 0.04.  Her shares and her value are those of the
    history with the second amount set to 0, her profit is 0.02 where
    that history gives 0.03, and 0.03 - 0.01 is 0.019999999999999997 in
    floats, not 0.02. *)
Lemma profit_reduction_counterexample :
  let out := fst (B64.recalculate_fund B64.txs_cents B64.nav_cents 0.03 0.02) in
  let out0 := fst (B64.recalculate_fund B64.txs_cents0 B64.nav_cents 0.03 0.02) in
  B64.price_on_day (B64.coerce_amounts B64.txs_cents) B64.nav_cents 1 d2 = 0%float /\
  B64.out_user_shares out !! "alice" = Some 0.01%float /\
  B64.out_user_shares out0 !! "alice" = Some 0.01%float /\
  B64.out_user_value out !! "alice" = Some 0.04%float /\
  B64.out_user_value out0 !! "alice" = Some 0.04%float /\
  B64.out_profit out !! "alice" = Some 0.02%float /\
  B64.out_profit out0 !! "alice" = Some 0.03%float /\
  B64.fsub 0.03 0.01 = 0.019999999999999997%float /\
  B64.feq (B64.fsub 0.03 0.01) 0.02 = false.
Proof.
  repeat split; vm_compute; reflexivity.
Qed.

(** ** Further properties of the engine and of the code around it *)

(** X1: [recalculate_fund] returns the all-empty result of line 92
    exactly when the table has no row and there is no NAV entry; with any
    row or any NAV entry it records at least one [nav_per_share]. *)
Theorem empty_result_iff (transactions : list Tx) (nav_history : gmap string fnum)
    (withdraw_fee profit_fee : fnum) :
  fst (recalculate_fund transactions nav_history withdraw_fee profit_fee) = empty_outputs
  <-> transactions = [] /\ nav_history = ∅.
Proof.
  destruct (recalculate_fund_cases transactions nav_history withdraw_fee profit_fee)
    as [(Ht & Hn & He)|[Hne He]].
  - by split.
  - split; [|intros [-> ->]; reflexivity].
    intros Hempty. exfalso. rewrite He in Hempty.
    apply (f_equal out_nav_per_share) in Hempty. simpl in Hempty.
    destruct (all_dates_of (coerce_amounts transactions) nav_history) as [|d0 dates] eqn:E;
      [done|].
    assert (Hk : is_Some (nav_per_share
                   (run_days (coerce_amounts transactions) nav_history (d0 :: dates)
                      (initial_state (coerce_amounts transactions))) !! d0)).
    { apply run_days_nav_keys. left. by left. }
    rewrite Hempty, lookup_empty in Hk. by destruct Hk.
Qed.

(** X2: the returned [nav_per_share] has an entry for exactly the dates
    that have a NAV entry or a transaction. *)
Theorem nav_per_share_dates (transactions : list Tx) (nav_history : gmap string fnum)
    (withdraw_fee profit_fee : fnum) (d : string) :
  is_Some (out_nav_per_share
             (fst (recalculate_fund transactions nav_history withdraw_fee profit_fee)) !! d)
  <-> is_Some (nav_history !! d) \/ d ∈ map Date transactions.
Proof.
  destruct (recalculate_fund_cases transactions nav_history withdraw_fee profit_fee)
    as [(-> & -> & He)|[Hne He]]; rewrite He; simpl.
  - rewrite !lookup_empty. split; [by intros [? ?]|].
    intros [[? ?]|H]; [done|by apply not_elem_of_nil in H].
  - rewrite run_days_nav_keys, elem_of_all_dates, coerce_amounts_dates.
    simpl. rewrite lookup_empty. split; [intros [H|[? ?]]; done|by left].
Qed.

(** X3: a user has a wallet in the returned [user_shares] exactly when
    the name is a non-empty User of some row of the table, or is the User
    (possibly empty) of a Deposit or Withdrawal row; a row of any other
    Type gives its non-empty user a wallet too. *)
Theorem wallet_users (transactions : list Tx) (nav_history : gmap string fnum)
    (withdraw_fee profit_fee : fnum) (u : string) :
  is_Some (out_user_shares
             (fst (recalculate_fund transactions nav_history withdraw_fee profit_fee)) !! u)
  <-> (u <> "" /\ u ∈ map User transactions) \/
      (exists r, r ∈ transactions /\ User r = u /\ is_processed r = true).
Proof.
  destruct (recalculate_fund_cases transactions nav_history withdraw_fee profit_fee)
    as [(-> & -> & He)|[Hne He]]; rewrite He; simpl.
  - rewrite lookup_empty. split; [by intros [? ?]|].
    intros [[_ H]|(r & H & _)]; by apply not_elem_of_nil in H.
  - rewrite final_balance_keys, coerce_amounts_users.
    apply or_iff_compat_l. split.
    + intros (r & Hin & Hu & Hp).
      apply elem_of_coerce_amounts in Hin as (r0 & Hin & ->). eauto.
    + intros (r0 & Hin & Hu & Hp).
      exists (mkTx (Date r0) (User r0) (Ttype r0) (fillna0 (Amount r0))).
      split; [|done]. apply elem_of_coerce_amounts. eauto.
Qed.

(** X4: the five per-user dicts of the result have the same users, so
    building the row of [wallet_data] for a user of [user_value] (lines
    155-163) never indexes a missing key. *)
Theorem wallet_row_defined (transactions : list Tx) (nav_history : gmap string fnum)
    (withdraw_fee profit_fee : fnum) (u : string) :
  let out := fst (recalculate_fund transactions nav_history withdraw_fee profit_fee) in
  (is_Some (out_user_value out !! u) <-> is_Some (out_user_shares out !! u)) /\
  (is_Some (out_user_value out !! u) <-> is_Some (out_after_fees out !! u)) /\
  (is_Some (out_user_value out !! u) <-> is_Some (out_profit out !! u)) /\
  (is_Some (out_user_value out !! u) <-> is_Some (out_fee_details out !! u)) /\
  (is_Some (out_user_value out !! u) <-> is_Some (wallet_row out u)).
Proof.
  intros out. subst out.
  destruct (recalculate_fund_cases transactions nav_history withdraw_fee profit_fee)
    as [(-> & -> & He)|[Hne He]]; rewrite He; unfold wallet_row; simpl.
  - rewrite !lookup_empty. repeat split; intros [? ?]; done.
  - rewrite !map_lookup_imap, !lookup_fmap.
    destruct (user_share_balances _ !! u) as [s|]; simpl;
      repeat split; intros [? ?]; done || eauto.
Qed.



(** X8: the returned ledger holds one entry for every Deposit and
    Withdrawal row of the table and none for a row of another type: its
    entries are, date by date in the order of [all_dates], the Deposit
    and Withdrawal rows of that date in table order, so the ledger is a
    rearrangement of these rows with none lost or repeated. *)
Theorem ledger_matches_table (transactions : list Tx)
    (nav_history : gmap string fnum) (withdraw_fee profit_fee : fnum) :
  let out := fst (recalculate_fund transactions nav_history withdraw_fee profit_fee) in
  map entry_key (out_ledger_df out) =
    flat_map (fun d => map row_key (List.filter is_processed (txs_today transactions d)))
             (all_dates_of transactions nav_history) /\
  map entry_key (out_ledger_df out) ≡ₚ
    map row_key (List.filter is_processed transactions).
Proof.
  intros out.
  assert (Hseq : map entry_key (out_ledger_df out) =
    flat_map (fun d => map row_key (List.filter is_processed (txs_today transactions d)))
             (all_dates_of transactions nav_history)).
  { subst out.
    destruct (recalculate_fund_cases transactions nav_history withdraw_fee profit_fee)
      as [(-> & -> & He)|[Hne He]]; rewrite He; [reflexivity|].
    unfold settle. cbn [out_ledger_df].
    rewrite run_days_ledger_keys, all_dates_coerce. simpl.
    apply flat_map_ext. intros d. apply coerce_amounts_keys. }
  split; [exact Hseq|]. rewrite Hseq. apply ledger_keys_perm.
Qed.

(** X9: the wallet chart of lines 196-216 for a user [u] the select box
    offers (a non-empty user of [user_value]).  When the table has no
    Deposit or Withdrawal row the returned ledger is a DataFrame without
    columns and line 199 raises a KeyError; when it has such rows but
    none of [u], the page reports that the user has no transactions;
    otherwise the chart is drawn, with one point per ledger entry of the
    user, and replaying the user's entries as the loop does (adding the
    Shares of a Deposit, subtracting those of a Withdrawal) ends at
    exactly that user's share balance. *)
Theorem chart_replays_balance (transactions : list Tx)
    (nav_history : gmap string fnum) (withdraw_fee profit_fee : fnum) (u : string) :
  let out := fst (recalculate_fund transactions nav_history withdraw_fee profit_fee) in
  let view := individual_wallet_growth out u in
  let rows_of_u :=
    List.filter (fun r => String.eqb (User r) u)
                (List.filter is_processed transactions) in
  u <> "" ->
  is_Some (out_user_value out !! u) ->
  view <> NoWalletData /\
  (view = KeyError <-> List.filter is_processed transactions = []) /\
  (view = NoTransactions <->
   List.filter is_processed transactions <> [] /\ rows_of_u = []) /\
  ((exists running_shares points, view = Chart running_shares points) <->
   rows_of_u <> []) /\
  (forall running_shares points,
     view = Chart running_shares points ->
     running_shares = dict_get (out_user_shares out) u zero /\
     map cDate points =
       map lDate (List.filter (fun e => String.eqb (lUser e) u) (out_ledger_df out))).
Proof.
  intros out view rows_of_u Hu Hwallet.
  set (ledger := out_ledger_df out).
  set (mine := List.filter (fun e => String.eqb (lUser e) u) ledger).
  assert (Hoffered : u ∈ wallet_data_users out).
  { unfold wallet_data_users. apply list_elem_of_In, filter_In. split.
    - apply list_elem_of_In, list_elem_of_fmap. destruct Hwallet as [v Hv].
      exists (u, v). split; [done|]. by apply elem_of_map_to_list.
    - by apply negb_true_iff, String.eqb_neq. }
  assert (Hperm : map entry_key ledger ≡ₚ
                  map row_key (List.filter is_processed transactions)).
  { subst ledger out.
    destruct (recalculate_fund_cases transactions nav_history withdraw_fee profit_fee)
      as [(-> & -> & He)|[Hne He]]; rewrite He; [reflexivity|].
    unfold settle. cbn [out_ledger_df]. rewrite run_days_ledger_keys. simpl.
    rewrite ledger_keys_perm. by rewrite coerce_amounts_processed. }
  assert (Hnil : ledger = [] <-> List.filter is_processed transactions = []).
  { split; intros H.
    - rewrite H in Hperm. apply Permutation.Permutation_nil in Hperm.
      by apply fmap_nil_inv in Hperm.
    - rewrite H in Hperm. symmetry in Hperm.
      apply Permutation.Permutation_nil in Hperm.
      by apply fmap_nil_inv in Hperm. }
  assert (Hmine : mine = [] <-> rows_of_u = []).
  { subst mine rows_of_u. rewrite (user_keys_nil ledger u), (user_rows_nil _ u).
    split; intros H k Hk.
    - apply (H k). by rewrite Hperm.
    - apply (H k). by rewrite <- Hperm. }
  assert (Hview : view = match ledger with
                         | [] => KeyError
                         | _ :: _ =>
                             match mine with
                             | [] => NoTransactions
                             | _ :: _ =>
                                 Chart (fst (chart_loop (out_nav_per_share out) mine))
                                       (snd (chart_loop (out_nav_per_share out) mine))
                             end
                         end).
  { subst view. unfold individual_wallet_growth.
    destruct (wallet_data_users out); [by apply not_elem_of_nil in Hoffered|].
    reflexivity. }
  assert (Hreplay : fst (chart_loop (out_nav_per_share out) mine) =
                    dict_get (out_user_shares out) u zero).
  { subst mine ledger out.
    destruct (recalculate_fund_cases transactions nav_history withdraw_fee profit_fee)
      as [(-> & -> & He)|[Hne He]]; rewrite He; [reflexivity|].
    unfold settle. cbn [out_ledger_df out_nav_per_share out_user_shares].
    apply run_days_replayed, initial_state_replayed. }
  assert (Hdates : map cDate (snd (chart_loop (out_nav_per_share out) mine)) =
                   map lDate mine).
  { unfold chart_loop. by rewrite chart_dates. }
  assert (Hmine_nil : ledger = [] -> mine = []) by (by intros ->).
  clearbody view mine. clearbody ledger.
  rewrite <- Hnil, <- Hmine. subst view.
  destruct ledger as [|e0 ledger]; [rewrite (Hmine_nil eq_refl)|destruct mine as [|m0 mine]].
  - repeat split; try done.
    + by intros [? _].
    + by intros (? & ? & ?).
  - repeat split; try done.
    + by intros (? & ? & ?).
  - split; [done|]. split; [done|]. split; [split; [done|by intros [_ ?]]|].
    split; [split; [done|intros _; by do 2 eexists]|].
    intros running_shares points [= <- <-]. by split.
Qed.

Lemma chart_replays_balance_witness :
  individual_wallet_growth
    (fst (recalculate_fund txs_bonus nav_B (frac 3 100) (frac 2 100))) "carol"
  = KeyError.
Proof.
  apply (proj2 (proj1 (proj2 (chart_replays_balance txs_bonus nav_B (frac 3 100)
                                 (frac 2 100) "carol" ltac:(discriminate)
                                 ltac:(vm_compute; eauto))))).
  reflexivity.
Defined.

(** X10: every entry of the returned ledger is dated on a date that has
    a recorded [nav_per_share], so the default 1.0 of the chart's price
    lookup (line 208) is never used. *)
Theorem ledger_dates_have_price (transactions : list Tx)
    (nav_history : gmap string fnum) (withdraw_fee profit_fee : fnum) (e : LedgerEntry) :
  let out := fst (recalculate_fund transactions nav_history withdraw_fee profit_fee) in
  e ∈ out_ledger_df out ->
  exists v, out_nav_per_share out !! lDate e = Some v /\
            dict_get (out_nav_per_share out) (lDate e) one = v.
Proof.
  intros out. subst out.
  destruct (recalculate_fund_cases transactions nav_history withdraw_fee profit_fee)
    as [(-> & -> & He)|[Hne He]]; rewrite He.
  { intros H. by apply not_elem_of_nil in H. }
  unfold settle. cbn [out_ledger_df out_nav_per_share]. intros Hin.
  apply run_days_ledger_dates in Hin.
  assert (Hk : is_Some (nav_per_share
             (run_days (coerce_amounts transactions) nav_history
                (all_dates_of (coerce_amounts transactions) nav_history)
                (initial_state (coerce_amounts transactions))) !! lDate e)).
  { apply run_days_nav_keys. by left. }
  destruct Hk as [v Hv]. exists v. split; [exact Hv|].
  unfold dict_get. by rewrite Hv.
Qed.

Lemma ledger_dates_have_price_witness :
  exists v,
    out_nav_per_share (fst (recalculate_fund txs_mixed nav_mixed (frac 3 100) (frac 2 100)))
      !! d1 = Some v /\
    dict_get (out_nav_per_share
                (fst (recalculate_fund txs_mixed nav_mixed (frac 3 100) (frac 2 100))))
             d1 one = v.
Proof.
  apply (ledger_dates_have_price txs_mixed nav_mixed (frac 3 100) (frac 2 100)
           (mkEntry d1 "alice" "Deposit" (fin 100) (fin 100) one)).
  vm_compute. apply list_elem_of_In. left. reflexivity.
Defined.

(** X11: after the rows of a user are deleted (line 291) the
    recalculated result has no wallet, no value and no ledger entry for
    that user; the rows of every other user are kept, in their order, the
    number of rows removed is the number of rows that user had, and
    deleting again removes nothing. *)
Theorem delete_wallet_removes_user (transactions : list Tx)
    (nav_history : gmap string fnum) (withdraw_fee profit_fee : fnum)
    (del_user : string) :
  let kept := delete_wallet transactions del_user in
  let out := fst (recalculate_fund kept nav_history withdraw_fee profit_fee) in
  out_user_shares out !! del_user = None /\
  out_user_value out !! del_user = None /\
  Forall (fun e => lUser e <> del_user) (out_ledger_df out) /\
  (forall v, v <> del_user ->
     List.filter (fun r => String.eqb (User r) v) kept =
     List.filter (fun r => String.eqb (User r) v) transactions) /\
  (length transactions - length kept)%nat =
    length (List.filter (fun r => String.eqb (User r) del_user) transactions) /\
  delete_wallet kept del_user = kept.
Proof.
  intros kept out.
  assert (Hnone : out_user_shares out !! del_user = None).
  { subst out.
    destruct (recalculate_fund_cases kept nav_history withdraw_fee profit_fee)
      as [(_ & _ & He)|[Hne He]]; rewrite He; [apply lookup_empty|].
    unfold settle. cbn [out_user_shares].
    apply eq_None_not_Some. intros Hsome.
    apply final_balance_keys in Hsome as [[_ Hin]|(r & Hin & Hu & _)].
    - rewrite coerce_amounts_users in Hin.
      apply list_elem_of_fmap in Hin as (r & Hu & Hin).
      apply elem_of_delete_wallet in Hin as [_ Hne']. congruence.
    - apply elem_of_coerce_amounts in Hin as (r0 & Hin & ->).
      apply elem_of_delete_wallet in Hin as [_ Hne']. simpl in Hu. congruence. }
  split; [exact Hnone|]. split; [|split; [|split; [|split]]].
  - subst out.
    destruct (recalculate_fund_cases kept nav_history withdraw_fee profit_fee)
      as [(_ & _ & He)|[Hne He]]; rewrite He in *; [apply lookup_empty|].
    unfold settle in *. cbn [out_user_shares out_user_value] in *.
    by rewrite lookup_fmap, Hnone.
  - apply Forall_forall. intros e He Hu.
    assert (Hk : entry_key e ∈ map entry_key (out_ledger_df out))
      by (apply list_elem_of_fmap; eauto).
    assert (Hperm : map entry_key (out_ledger_df out) ≡ₚ
                    map row_key (List.filter is_processed kept)).
    { subst out.
      destruct (recalculate_fund_cases kept nav_history withdraw_fee profit_fee)
        as [(Hk0 & _ & He')|[Hne He']]; rewrite He'.
      - by rewrite Hk0.
      - unfold settle. cbn [out_ledger_df]. rewrite run_days_ledger_keys. simpl.
        rewrite ledger_keys_perm. by rewrite coerce_amounts_processed. }
    rewrite Hperm in Hk. apply list_elem_of_fmap in Hk as (r & Hr & Hin).
    apply list_elem_of_In, filter_In in Hin as [Hin _].
    apply list_elem_of_In, elem_of_delete_wallet in Hin as [_ Hne'].
    unfold entry_key, row_key in Hr. injection Hr as _ Hu' _. congruence.
  - intros v Hv. by apply delete_wallet_other.
  - unfold kept, delete_wallet.
    rewrite (filter_length_split (fun r => String.eqb (User r) del_user) transactions)
      at 1. lia.
  - apply delete_wallet_idem.
Qed.

(** X12: the NAV editor (lines 314-321) never removes an entry and
    leaves the dates outside its range alone; after a pass every date of
    the range reads back, with the default 0.0, as the number of its
    field; and entering 0 for a date that has no entry stores nothing, so
    that date still has no NAV. *)
Theorem edit_nav_stores_inputs (days : list string) (inputs : string -> fnum)
    (nav : gmap string fnum) :
  let nav' := edit_nav days inputs nav in
  (forall d, d ∉ days -> nav' !! d = nav !! d) /\
  (forall d, is_Some (nav !! d) -> is_Some (nav' !! d)) /\
  (forall d, d ∈ days -> finite (inputs d) -> dict_get nav' d zero = inputs d) /\
  (forall d, nav !! d = None -> inputs d = zero -> nav' !! d = None).
Proof.
  intros nav'. subst nav'. unfold edit_nav. split; [|split; [|split]].
  - intros d. revert nav.
    induction days as [|d' ds IH]; intros nav Hd; simpl; [done|].
    apply not_elem_of_cons in Hd as [Hne Hd].
    rewrite IH by done. by apply edit_nav_step_other.
  - intros d. revert nav.
    induction days as [|d' ds IH]; intros nav Hd; simpl; [done|].
    apply IH. unfold edit_nav_step.
    destruct (fne (inputs d') (dict_get nav d' zero)); [|done].
    rewrite lookup_insert. case_decide; eauto.
  - intros d Hin Hfin. revert nav.
    induction days as [|d' ds IH]; intros nav; simpl.
    { by apply not_elem_of_nil in Hin. }
    destruct (decide (d' = d)) as [->|Hne].
    + apply (edit_nav_keeps inputs ds); [done|]. by apply edit_nav_step_same.
    + apply elem_of_cons in Hin as [Heq|Hin]; [congruence|]. by apply IH.
  - intros d Hnone Hzero. revert nav Hnone.
    induction days as [|d' ds IH]; intros nav Hnone; simpl; [done|].
    apply IH. destruct (decide (d' = d)) as [->|Hne].
    + unfold edit_nav_step, dict_get. rewrite Hnone, Hzero. simpl. exact Hnone.
    + by rewrite edit_nav_step_other.
Qed.

(** X14: the simulation depends on the table only through the rows of
    each date in their order: two tables with the same rows on every
    date, however the dates are interleaved (a back-dated row entered
    last, or the same rows in chronological order), give the same
    recorded prices, the same share balances and wallet values and the
    same ledger. *)
Theorem table_order_across_dates (transactions transactions' : list Tx)
    (nav_history : gmap string fnum) (withdraw_fee profit_fee : fnum) :
  (forall d, txs_today transactions d = txs_today transactions' d) ->
  let out := fst (recalculate_fund transactions nav_history withdraw_fee profit_fee) in
  let out' := fst (recalculate_fund transactions' nav_history withdraw_fee profit_fee) in
  out_nav_per_share out = out_nav_per_share out' /\
  out_user_shares out = out_user_shares out' /\
  out_user_value out = out_user_value out' /\
  out_ledger_df out = out_ledger_df out'.
Proof.
  intros H out out'. subst out out'.
  set (T := coerce_amounts transactions). set (T' := coerce_amounts transactions').
  assert (Hday : forall d, txs_today T d = txs_today T' d).
  { intros d. unfold T, T'. by rewrite !txs_today_coerce, H. }
  assert (Hperm : T ≡ₚ T') by (by apply same_days_perm).
  assert (Hdates : all_dates_of T nav_history = all_dates_of T' nav_history).
  { apply all_dates_ext. intros d. by rewrite Hperm. }
  assert (Hinit : initial_state T = initial_state T').
  { unfold initial_state. f_equal. apply initial_balances_ext.
    intros u. by rewrite Hperm. }
  unfold recalculate_fund. fold T T'. rewrite <- Hdates.
  destruct (all_dates_of T nav_history) as [|d0 dates]; [done|].
  cbn [fst]. rewrite <- Hinit.
  rewrite (run_days_ext T T') by (apply Forall_forall; intros d _; apply Hday).
  unfold settle. cbn [out_nav_per_share out_user_shares out_user_value out_ledger_df].
  done.
Qed.

Lemma table_order_across_dates_witness :
  out_ledger_df (fst (recalculate_fund txs_mixed nav_mixed (frac 3 100) (frac 2 100))) =
  out_ledger_df (fst (recalculate_fund txs_mixed_sorted nav_mixed (frac 3 100) (frac 2 100))).
Proof.
  apply table_order_across_dates. intros d.
  unfold txs_today, txs_mixed, txs_mixed_sorted. cbn [List.filter Date].
  destruct (String.eqb d1 d) eqn:E1, (String.eqb d2 d) eqn:E2; try reflexivity.
  apply String.eqb_eq in E1, E2. subst d. vm_compute in E2. discriminate.
Defined.

(** X15: what the result reports about the dates before a date [d] (the
    recorded [nav_per_share] of those dates and the ledger entries dated
    on them) depends only on the rows dated before [d]: adding, removing
    or changing rows dated [d] or later, such as a new transaction added
    at the end of the table, never rewrites the earlier history. *)
Theorem history_before_is_stable (transactions transactions' : list Tx)
    (nav_history : gmap string fnum) (withdraw_fee profit_fee : fnum) (d : string) :
  (forall d', String.ltb d' d = true ->
     txs_today transactions d' = txs_today transactions' d') ->
  let out := fst (recalculate_fund transactions nav_history withdraw_fee profit_fee) in
  let out' := fst (recalculate_fund transactions' nav_history withdraw_fee profit_fee) in
  (forall d', String.ltb d' d = true ->
     out_nav_per_share out !! d' = out_nav_per_share out' !! d') /\
  List.filter (fun e => String.ltb (lDate e) d) (out_ledger_df out) =
  List.filter (fun e => String.ltb (lDate e) d) (out_ledger_df out').
Proof.
  intros H out out'. subst out out'.
  destruct (recalculate_fund_history transactions nav_history withdraw_fee profit_fee)
    as [-> ->].
  destruct (recalculate_fund_history transactions' nav_history withdraw_fee profit_fee)
    as [-> ->].
  set (T := coerce_amounts transactions). set (T' := coerce_amounts transactions').
  assert (Hday : forall d', String.ltb d' d = true -> txs_today T d' = txs_today T' d').
  { intros d' Hlt. unfold T, T'. by rewrite !txs_today_coerce, H. }
  destruct (history_before T nav_history d) as [Hn Hl].
  destruct (history_before T' nav_history d) as [Hn' Hl'].
  rewrite <- (dates_before_ext T T' nav_history d Hday) in Hn', Hl'.
  set (pre := List.filter (fun x => String.ltb x d) (all_dates_of T nav_history)) in *.
  assert (Hag : agree (run_days T nav_history pre (initial_state T))
                      (run_days T' nav_history pre (initial_state T'))).
  { apply run_days_agree; [|apply initial_state_agree].
    apply Forall_forall. intros x Hx. apply Hday.
    by apply list_elem_of_In, filter_In in Hx as [_ Hx]. }
  destruct Hag as (_ & Hnps & Hled & _). split.
  - intros d' Hlt. by rewrite Hn, Hn', Hnps.
  - by rewrite Hl, Hl', Hled.
Qed.

Lemma history_before_is_stable_witness :
  out_nav_per_share
    (fst (recalculate_fund txs_before_add nav_mixed (frac 3 100) (frac 2 100))) !! d1 =
  out_nav_per_share
    (fst (recalculate_fund txs_after_add nav_mixed (frac 3 100) (frac 2 100))) !! d1.
Proof.
  assert (H : forall d', String.ltb d' d2 = true ->
                txs_today txs_before_add d' = txs_today txs_after_add d').
  { intros d' Hlt. unfold txs_after_add, txs_today. rewrite List.filter_app.
    cbn [List.filter Date]. destruct (String.eqb d2 d') eqn:E.
    - apply String.eqb_eq in E. subst d'. vm_compute in Hlt. discriminate.
    - by rewrite app_nil_r. }
  apply (proj1 (history_before_is_stable txs_before_add txs_after_add nav_mixed
                  (frac 3 100) (frac 2 100) d2 H)).
  vm_compute. reflexivity.
Defined.

(** X17, in binary64: with no negative Deposit amount in the table and a
    NAV of the last date that is not negative (or not entered), no
    wallet value of the result is below zero. *)
Theorem wallet_values_not_negative (transactions : list B64.Tx)
    (nav_history : gmap string PrimFloat.float)
    (withdraw_fee profit_fee : PrimFloat.float)
    (d : string) (u : string) (value : PrimFloat.float) :
  let out := fst (B64.recalculate_fund transactions nav_history withdraw_fee profit_fee) in
  B64.no_negative_deposit transactions = true ->
  last (B64.all_dates_of transactions nav_history) = Some d ->
  B64.flt (default B64.NaN (nav_history !! d)) B64.zero = false ->
  B64.out_user_value out !! u = Some value ->
  B64.flt value B64.zero = false.
Proof.
  intros out Hok Hlast Hnav. subst out. unfold B64.recalculate_fund.
  rewrite b64_all_dates_coerce.
  set (txs := B64.coerce_amounts transactions).
  apply b64_no_negative_deposit_ok in Hok. fold txs in Hok.
  destruct (B64.all_dates_of transactions nav_history) as [|d0 dates] eqn:Ed; [done|].
  rewrite <- Ed in *. clear d0 dates Ed.
  cbn [fst].
  set (st := B64.run_days txs nav_history (B64.all_dates_of transactions nav_history)
                          (B64.initial_state txs)).
  assert (Hb : B64.balances_nonneg st).
  { apply b64_run_days_nn; [exact Hok|apply b64_initial_state_nn]. }
  assert (Hcur : B64.nav_per_share st !! d =
                 Some (B64.price_of (default B64.NaN (nav_history !! d))
                                    (B64.total_shares st))).
  { pose proof Hlast as Hl. apply last_Some in Hl as [pre Hpre].
    subst st. rewrite Hpre. by rewrite b64_run_days_last_nav. }
  unfold B64.settle. rewrite Hlast. unfold B64.dict_get at 1. rewrite Hcur.
  cbn [B64.out_user_value default id]. rewrite lookup_fmap.
  destruct (B64.user_share_balances st !! u) as [s|] eqn:Es; [|done].
  simpl. intros [= <-].
  apply b64_fmul_nn; [exact (Hb u s Es)|]. by apply b64_price_of_nn.
Qed.

Lemma wallet_values_not_negative_witness :
  B64.flt 0.04 B64.zero = false.
Proof.
  apply (wallet_values_not_negative B64.txs_cents B64.nav_cents 0.03 0.02
           B64.d3 "alice" 0.04); vm_compute; reflexivity.
Defined.
